(** * trascrizione_img: classification-gated transcription pipeline

    A shallow embedding of the transcription tool
    ([src/file_handler.py], [src/local_image_classifier.py],
    [src/llm_handler.py], [src/transcription_tool.py]) and the proofs of
    its routing, item-processing, persistence and batch properties.

    Conventions of the embedding:
    - a Python [str] is a [string]; its characters are the code points
      below 256, which is where the allow-list, the labels and the
      whitespace tests of the program live;
    - a [pathlib.Path] is a record of its anchor and its components,
      handled syntactically as pathlib does (no symlink resolution);
    - the file system holds regular files (with their text) and
      directories, in a finite map from paths; it is the part of the disk
      the program's own code reads, makes and writes: the log file of the
      [logging] handlers and the caches the model libraries fill are not
      in it;
    - a file opened in text mode is read with its line ends made line
      feeds ([universal_newlines]);
    - [Path.exists], [Path.is_file] and [Path.is_dir] are look-ups in that
      map; the [OSError] they raise where [os.stat] fails for another
      reason than a missing path is the subject of module [OS], which
      gives the functions that make such a query outside any [try]
      together with what they raise;
    - the models and services the program calls (the DiT pipeline, TrOCR,
      the OpenAI client, the operating system's permission checks) are the
      fields of a record [env]; every call to them is recorded in the
      [trace] of the [world] the functions thread through. *)

From Stdlib Require Import QArith Ascii.
From stdpp Require Import gmap strings list fin_maps.

Local Open Scope Z_scope.
Local Open Scope stdpp_scope.

(** ** Python strings *)

Module PyStr.

Definition code (c : ascii) : N := Ascii.N_of_ascii c.

(** [str.isspace] on one character (code points below 256). *)
Definition isspace (c : ascii) : bool :=
  let n := code c in
  ((9 <=? n) && (n <=? 13) || (28 <=? n) && (n <=? 32)
   || (n =? 133) || (n =? 160))%N.

(** [str.lower] on one character: A-Z, and the Latin-1 capitals
    U+00C0..U+00DE without the multiplication sign U+00D7. *)
Definition lower_char (c : ascii) : ascii :=
  let n := code c in
  if ((65 <=? n) && (n <=? 90)
      || (192 <=? n) && (n <=? 222) && negb (n =? 215))%N
  then Ascii.ascii_of_N (n + 32) else c.

Fixpoint lower (s : string) : string :=
  match s with
  | EmptyString => EmptyString
  | String c s' => String (lower_char c) (lower s')
  end.

Fixpoint lstrip (s : string) : string :=
  match s with
  | EmptyString => EmptyString
  | String c s' => if isspace c then lstrip s' else s
  end.

Fixpoint rstrip (s : string) : string :=
  match s with
  | EmptyString => EmptyString
  | String c s' =>
      match rstrip s' with
      | EmptyString => if isspace c then EmptyString else String c EmptyString
      | r => String c r
      end
  end.

(** [s.strip()] *)
Definition strip (s : string) : string := lstrip (rstrip s).

Fixpoint all_space (s : string) : bool :=
  match s with
  | EmptyString => true
  | String c s' => isspace c && all_space s'
  end.

(** [s.rfind(c)], with [None] for Python's -1. *)
Fixpoint rfind (c : ascii) (s : string) : option nat :=
  match s with
  | EmptyString => None
  | String a s' =>
      match rfind c s' with
      | Some i => Some (S i)
      | None => if Ascii.eqb a c then Some 0%nat else None
      end
  end.

(** [s[:n]] and [s[n:]] *)
Fixpoint slice_to (n : nat) (s : string) : string :=
  match n, s with
  | S n', String c s' => String c (slice_to n' s')
  | _, _ => EmptyString
  end.

Fixpoint slice_from (n : nat) (s : string) : string :=
  match n, s with
  | S n', String _ s' => slice_from n' s'
  | _, _ => s
  end.

(** Truth value of a string: [if s:] *)
Definition truthy (s : string) : bool :=
  match s with EmptyString => false | _ => true end.

(** [x in l] for a list of strings *)
Definition str_in (x : string) (l : list string) : bool :=
  existsb (String.eqb x) l.

End PyStr.

(** ** pathlib *)

Module Pathlib.

(** A pure path: the anchor (drive and root, empty for a relative path)
    and the components after it. *)
Record path := Path { anchor : string; tail : list string }.

#[global] Instance path_eq_dec : EqDecision path.
Proof. solve_decision. Defined.

#[global] Instance path_countable : Countable path.
Proof.
  apply (inj_countable' (fun p => (anchor p, tail p))
                        (fun '(a, t) => Path a t)).
  by intros [].
Defined.

(** [p.name] *)
Definition name (p : path) : string := List.last (tail p) EmptyString.

Definition dot : ascii := "."%char.

(** The index pathlib splits a name at: [i = name.rfind('.')] when
    [0 < i < len(name) - 1]. *)
Definition split_index (nm : string) : option nat :=
  match PyStr.rfind dot nm with
  | Some i =>
      if (0 <? i)%nat && (i <? String.length nm - 1)%nat then Some i else None
  | None => None
  end.

Definition name_suffix (nm : string) : string :=
  match split_index nm with
  | Some i => PyStr.slice_from i nm
  | None => EmptyString
  end.

Definition name_stem (nm : string) : string :=
  match split_index nm with
  | Some i => PyStr.slice_to i nm
  | None => nm
  end.

(** [p.suffix] and [p.stem] *)
Definition suffix (p : path) : string := name_suffix (name p).
Definition stem (p : path) : string := name_stem (name p).

(** [p.parent]: a path without components is its own parent. *)
Definition parent (p : path) : path :=
  match tail p with
  | [] => p
  | t => Path (anchor p) (removelast t)
  end.

(** [p / child] for a single plain component. *)
Definition joinpath (p : path) (child : string) : path :=
  Path (anchor p) (tail p ++ [child]).

(** *** The file system *)

Inductive node :=
| File (content : string)
| Dir.

#[global] Instance node_eq_dec : EqDecision node.
Proof. solve_decision. Defined.

Inductive kind := KFile | KDir.

Definition kind_of (n : node) : kind :=
  match n with File _ => KFile | Dir => KDir end.

Abbreviation filesystem := (gmap path node).

(** What [os.stat] finds: the root and the working directory always
    exist and are directories. *)
Definition stat (fs : filesystem) (p : path) : option node :=
  match tail p with
  | [] => Some Dir
  | _ => fs !! p
  end.

Definition exists_ (fs : filesystem) (p : path) : bool :=
  match stat fs p with Some _ => true | None => false end.

Definition is_file (fs : filesystem) (p : path) : bool :=
  match stat fs p with Some (File _) => true | _ => false end.

Definition is_dir (fs : filesystem) (p : path) : bool :=
  match stat fs p with Some Dir => true | _ => false end.

(** [p.iterdir()]: the immediate entries of [p]. *)
Definition iterdir (fs : filesystem) (d : path) : list path :=
  List.filter
    (fun q => bool_decide (tail q ≠ []) && bool_decide (parent q = d))
    (map_to_list fs).*1.

End Pathlib.

(** ** The world the program runs in *)

Module Runtime.
Import Pathlib.

(** A Python argument, as far as the [isinstance(_, Path)] guards can tell. *)
Inductive pyval :=
| PyNone
| PyString (s : string)
| PyInt (z : Z)
| PyPath (p : path).

(** One entry of the list the image-classification pipeline returns. *)
Inductive pipeline_prediction :=
| PredEmpty                              (* a falsy entry *)
| PredMalformed                          (* no usable 'label' or 'score': reading it raises *)
| Pred (label : string) (score : Q).     (* {'label': .., 'score': ..} *)

Inductive pipeline_outcome :=
| PipelineRaises                         (* Image.open or the pipeline raised *)
| PipelineOther                          (* an output that is not a list *)
| PipelineList (predictions : list pipeline_prediction).

(** What [client.chat.completions.create] does. *)
Inductive api_outcome :=
| ApiRaises                              (* any of the exceptions the call can raise *)
| ApiNoContent                           (* no choice, no message, or no content *)
| ApiContent (content : string).

(** The collaborators of the program. *)
Record env := Env {
  (* operating system *)
  os_mkdir_ok : path -> bool;            (* os.mkdir may create this directory *)
  os_open_w_ok : path -> bool;           (* the file may be opened for writing *)
  os_write_ok : path -> string -> bool;  (* the write goes through *)
  os_read_ok : path -> bool;             (* the file can be read and decoded *)
  (* local_image_classifier: module state after import, and the pipeline *)
  IMAGE_CLASSIFIER_ready : bool;
  dit_pipeline : path -> pipeline_outcome;
  (* llm_handler: TrOCR *)
  trocr_load_ok : bool;
  trocr_decode : path -> option string;  (* the decoded text, None when anything raises *)
  (* llm_handler: OpenAI *)
  OPENAI_API_KEY_set : bool;
  OpenAI_ctor_ok : bool;
  encode_image : path -> option string;  (* the data URI, None when anything raises *)
  chat_completion : string -> string -> api_outcome;
  (* transcription_tool: the names bound at import *)
  OPENAI_API_CONFIGURED : bool;
  PROJECT_ROOT : path
}.

(** Calls made to the collaborators and marks of the program's progress. *)
Inductive event :=
| EvItem (image_path : path)                      (* process_single_image entered *)
| EvClassify (image_path : path)                  (* classify_text_type_local *)
| EvLocalOCR (image_path : path)                  (* get_transcription_from_local_ocr *)
| EvCloudLLM (image_path : path) (prompt_text : string)  (* get_transcription_from_llm *)
| EvConfigure                                     (* configure_openai_api *)
| EvApiRequest (image_url prompt_text : string)   (* client.chat.completions.create *)
| EvMkdir (p : path)                              (* p.mkdir(parents=True, exist_ok=True) *)
| EvOpenWrite (p : path)                          (* open(p, "w") *)
| EvOpenRead (p : path)                           (* open(p, "r"), the text read of file_handler *)
| EvSummary (processed successful failed : nat).  (* the batch summary lines *)

#[global] Instance event_eq_dec : EqDecision event.
Proof. solve_decision. Defined.

Record world := World {
  fs : filesystem;
  trace : list event;                    (* newest first *)
  llm_OPENAI_API_CONFIGURED : bool;      (* llm_handler.OPENAI_API_CONFIGURED *)
  llm_client : bool;                     (* llm_handler.client is not None *)
  LOCAL_OCR_loaded : bool                (* LOCAL_OCR_PROCESSOR and LOCAL_OCR_MODEL *)
}.

(** *** State passing *)

Definition M (A : Type) : Type := world -> A * world.

Definition ret {A} (a : A) : M A := fun w => (a, w).

Definition bind {A B} (m : M A) (k : A -> M B) : M B :=
  fun w => let (a, w') := m w in k a w'.

(** The world with one more event in its trace. *)
Definition push (e : event) (w : world) : world :=
  World (fs w) (e :: trace w) (llm_OPENAI_API_CONFIGURED w)
        (llm_client w) (LOCAL_OCR_loaded w).

Definition emit (e : event) : M unit := fun w => (tt, push e w).

Definition get_fs : M filesystem := fun w => (fs w, w).

Definition set_fs (f : filesystem) : M unit :=
  fun w => (tt, World f (trace w) (llm_OPENAI_API_CONFIGURED w)
                      (llm_client w) (LOCAL_OCR_loaded w)).

Definition set_llm (configured client : bool) : M unit :=
  fun w => (tt, World (fs w) (trace w) configured client (LOCAL_OCR_loaded w)).

Definition get_llm : M (bool * bool) :=
  fun w => ((llm_OPENAI_API_CONFIGURED w, llm_client w), w).

Definition get_ocr : M bool := fun w => (LOCAL_OCR_loaded w, w).

Definition set_ocr (loaded : bool) : M unit :=
  fun w => (tt, World (fs w) (trace w) (llm_OPENAI_API_CONFIGURED w)
                      (llm_client w) loaded).

Declare Scope prog_scope.
Delimit Scope prog_scope with prog.
Notation "'let*' x ':=' m 'in' k" := (bind m (fun x => k))
  (at level 10, x name, m at level 100, k at level 200) : prog_scope.
Notation "m ';;' k" := (bind m (fun _ => k))
  (at level 100, k at level 200, right associativity) : prog_scope.

(** *** Operating-system calls *)

(** [os.mkdir] along [pathlib]'s recursion for [parents=True,
    exist_ok=True]; [rt] is the reversed component list of the directory.
    The result tells whether the call returned without raising. *)
Fixpoint mkdir_rec (E : env) (a : string) (rt : list string)
    (f : filesystem) : bool * filesystem :=
  match rt with
  | [] => (true, f)
  | _ :: rparent =>
      let self := Path a (rev rt) in
      let par := Path a (rev rparent) in
      match f !! self with
      | Some Dir => (true, f)
      | Some (File _) => (false, f)
      | None =>
          match stat f par with
          | Some Dir =>
              if os_mkdir_ok E self then (true, <[self := Dir]> f) else (false, f)
          | Some (File _) => (false, f)
          | None =>
              let (ok, f') := mkdir_rec E a rparent f in
              if ok then
                if os_mkdir_ok E self then (true, <[self := Dir]> f') else (false, f')
              else (false, f')
          end
      end
  end.

(** [p.mkdir(parents=True, exist_ok=True)] *)
Definition mkdir_parents (E : env) (p : path) : M bool :=
  (emit (EvMkdir p);;
   let* f := get_fs in
   let (ok, f') := mkdir_rec E (anchor p) (rev (tail p)) f in
   set_fs f';;
   ret ok)%prog.

(** [with open(p, "w", encoding='utf-8') as f: f.write(text)]; the result
    tells whether the block completed. Opening truncates. *)
Definition write_text (E : env) (p : path) (text : string) : M bool :=
  (emit (EvOpenWrite p);;
   let* f := get_fs in
   match stat f p with
   | Some Dir => ret false
   | _ =>
       if is_dir f (parent p) && os_open_w_ok E p then
         if os_write_ok E p text then set_fs (<[p := File text]> f);; ret true
         else set_fs (<[p := File EmptyString]> f);; ret false
       else ret false
   end)%prog.

(** What text mode gives for what the file holds: [open] is called without
    [newline], so on reading a carriage return followed by a line feed, and
    a carriage return alone, come out as one line feed. *)
Fixpoint universal_newlines (s : string) : string :=
  match s with
  | EmptyString => EmptyString
  | String c rest =>
      if Ascii.eqb c "013"%char then
        match rest with
        | String c' rest' =>
            if Ascii.eqb c' "010"%char
            then String "010"%char (universal_newlines rest')
            else String "010"%char (universal_newlines rest)
        | EmptyString => String "010"%char EmptyString
        end
      else String c (universal_newlines rest)
  end.

(** [with open(p, "r", encoding='utf-8') as f: f.read()], [None] when it
    raises. *)
Definition read_text (E : env) (p : path) : M (option string) :=
  (emit (EvOpenRead p);;
   let* f := get_fs in
   match stat f p with
   | Some (File content) =>
       if os_read_ok E p then ret (Some (universal_newlines content)) else ret None
   | _ => ret None
   end)%prog.

End Runtime.

(** ** src/file_handler.py *)

Module file_handler.
Import Pathlib Runtime.

Definition SUPPORTED_IMAGE_EXTENSIONS : list string := [".jpg"; ".jpeg"].

Definition validate_image_file (f : filesystem) (image_path : pyval) : bool :=
  match image_path with
  | PyPath p =>
      if negb (exists_ f p) then false
      else if negb (is_file f p) then false
      else if negb (PyStr.str_in (PyStr.lower (suffix p)) SUPPORTED_IMAGE_EXTENSIONS)
      then false
      else true
  | _ => false
  end.

Definition save_transcription (E : env) (transcription_text : string)
    (input_image_path : pyval) (output_directory : pyval) : M (option path) :=
  match input_image_path with
  | PyPath image =>
      let write (output_dir : path) : M (option path) :=
        (let output_filename := stem image +:+ ".txt" in
         let output_file_path := joinpath output_dir output_filename in
         let* ok := write_text E output_file_path transcription_text in
         ret (if ok then Some output_file_path else None))%prog in
      match output_directory with
      | PyNone => write (parent image)
      | PyPath output_dir =>
          (let* ok := mkdir_parents E output_dir in
           if ok then write output_dir else ret None)%prog
      | _ => ret None
      end
  | _ => ret None
  end.

Definition load_prompt_file (E : env) (prompt_file_path : pyval) : M (option string) :=
  match prompt_file_path with
  | PyPath p =>
      (let* f := get_fs in
       if negb (is_file f p) then ret None
       else
         let* r := read_text E p in
         match r with
         | Some content => ret (Some (PyStr.strip content))
         | None => ret None
         end)%prog
  | _ => ret None
  end.

End file_handler.

(** ** src/local_image_classifier.py *)

Module local_image_classifier.
Import Pathlib Runtime.

Definition MIN_CONFIDENCE_SCORE : Q := 1 # 2.

(** [x < y] on scores *)
Definition score_lt (x y : Q) : bool := negb (Qle_bool y x).

Definition typewritten_labels : list string :=
  ["letter"; "form"; "email"; "memo"; "resume"; "scientific publication";
   "report"; "specification"; "news article"; "invoice"].

Definition other_document_labels : list string :=
  ["advertisement"; "budget"; "file folder"; "presentation"; "questionnaire";
   "scientific report"].

(** The label mapping applied to the top prediction. *)
Definition map_top_prediction (top_label : string) (top_score : Q) : string :=
  if score_lt top_score MIN_CONFIDENCE_SCORE then "undetermined"
  else if String.eqb top_label "handwritten" then "handwritten"
  else if PyStr.str_in top_label typewritten_labels then "typewritten"
  else if PyStr.str_in top_label other_document_labels then "other_document_type"
  else "other_document_type".

Definition classify_text_type_local (E : env) (image_path : path)
    : option string * option (list pipeline_prediction) :=
  if negb (IMAGE_CLASSIFIER_ready E) then (None, None)
  else
    match dit_pipeline E image_path with
    | PipelineRaises => (None, None)
    | PipelineOther => (Some "undetermined", None)
    | PipelineList [] => (Some "undetermined", None)
    | PipelineList ((top_prediction :: _) as predictions) =>
        match top_prediction with
        | PredEmpty => (Some "undetermined", Some predictions)
        | PredMalformed => (None, None)
        | Pred label score =>
            let top_label := PyStr.lower label in
            let top_score := score in
            (Some (map_top_prediction top_label top_score), Some predictions)
        end
    end.

End local_image_classifier.

(** ** src/llm_handler.py *)

Module llm_handler.
Import Pathlib Runtime.

Definition configure_openai_api (E : env) : M bool :=
  (emit EvConfigure;;
   let* st := get_llm in
   let (configured, client) := st in
   if configured && client then ret true
   else if negb (OPENAI_API_KEY_set E) then set_llm false client;; ret false
   else if OpenAI_ctor_ok E then set_llm true true;; ret true
   else set_llm false client;; ret false)%prog.

Definition image_to_base64 (E : env) (image_path : path) : M (option string) :=
  (let* f := get_fs in
   if negb (is_file f image_path) then ret None
   else ret (encode_image E image_path))%prog.

Definition get_transcription_from_llm (E : env) (image_path : path)
    (prompt_text : string) : M (option string) :=
  (emit (EvCloudLLM image_path prompt_text);;
   let* st := get_llm in
   let (configured, client) := st in
   let* ready :=
     (if negb configured || negb client then configure_openai_api E
      else ret true) in
   if negb ready then ret None
   else
     let* base64_image := image_to_base64 E image_path in
     match base64_image with
     | None => ret None
     | Some url =>
         if negb (PyStr.truthy url) then ret None
         else
           emit (EvApiRequest url prompt_text);;
           match chat_completion E url prompt_text with
           | ApiContent content =>
               if PyStr.truthy content then ret (Some (PyStr.strip content))
               else ret None
           | ApiNoContent => ret None
           | ApiRaises => ret None
           end
     end)%prog.

Definition _initialize_local_ocr_model (E : env) : M bool :=
  (let* loaded := get_ocr in
   if loaded then ret true
   else if trocr_load_ok E then set_ocr true;; ret true
   else set_ocr false;; ret false)%prog.

Definition get_transcription_from_local_ocr (E : env) (image_path : path)
    : M (option string) :=
  (emit (EvLocalOCR image_path);;
   let* ok := _initialize_local_ocr_model E in
   let* loaded := get_ocr in
   if negb ok || negb loaded then ret None
   else
     match trocr_decode E image_path with
     | Some transcription => ret (Some (PyStr.strip transcription))
     | None => ret None
     end)%prog.

End llm_handler.

(** ** src/transcription_tool.py *)

Module transcription_tool.
Import Pathlib Runtime.
Import file_handler local_image_classifier llm_handler.

Definition DEFAULT_PROMPT_FILENAME : string := "default_transcription_prompt.txt".

Definition DEFAULT_PROMPT_FILE_PATH (E : env) : path :=
  joinpath (PROJECT_ROOT E) DEFAULT_PROMPT_FILENAME.

(** An [Optional[Path]] as the value handed to [file_handler]. *)
Definition optional_path (o : option path) : pyval :=
  match o with Some p => PyPath p | None => PyNone end.

Definition get_prompt_content (E : env) (prompt_file_path_arg : option path)
    : M (option string) :=
  (let prompt_to_load :=
     match prompt_file_path_arg with
     | Some p => p
     | None => DEFAULT_PROMPT_FILE_PATH E
     end in
   let* prompt_content := load_prompt_file E (PyPath prompt_to_load) in
   match prompt_content with
   | Some c => if PyStr.truthy c then ret (Some c) else ret None
   | None => ret None
   end)%prog.

(** The two transcription capabilities an item can be sent to. *)
Inductive backend := LocalRecognizer | CloudTranscriber.

(** The label the item is processed under: a failed classification counts
    as "undetermined". *)
Definition effective_image_type (primary_classification : option string) : string :=
  match primary_classification with
  | None => "undetermined"
  | Some c => c
  end.

(** The branch [if effective_image_type == "handwritten": .. else: ..]. *)
Definition route (image_type : string) : backend :=
  if String.eqb image_type "handwritten" then LocalRecognizer
  else CloudTranscriber.

Definition process_single_image (E : env) (image_path : path)
    (prompt_text : string) (output_dir : option path) : M bool :=
  (emit (EvItem image_path);;
   let* f := get_fs in
   if negb (validate_image_file f (PyPath image_path)) then ret false
   else
     emit (EvClassify image_path);;
     let (primary_classification, all_dit_predictions) :=
       classify_text_type_local E image_path in
     let image_type := effective_image_type primary_classification in
     let save (transcription : string) : M bool :=
       (let* saved_path := save_transcription E transcription (PyPath image_path)
                                              (optional_path output_dir) in
        match saved_path with
        | Some _ => ret true
        | None => ret false
        end) in
     match route image_type with
     | LocalRecognizer =>
         let* transcription := get_transcription_from_local_ocr E image_path in
         match transcription with
         | None => ret false
         | Some t => save t
         end
     | CloudTranscriber =>
         if negb (OPENAI_API_CONFIGURED E) then ret false
         else
           let* transcription := get_transcription_from_llm E image_path prompt_text in
           match transcription with
           | None => ret false
           | Some t => save t
           end
     end)%prog.

(** The counters of [process_directory]. *)
Record counters := Counters {
  processed_files_count : nat;
  successful_files_count : nat;
  failed_files_count : nat;
  found_image_files : bool
}.

Definition initial_counters : counters := Counters 0 0 0 false.

(** The body of [for item_path in image_dir_path.iterdir():]. *)
Fixpoint directory_loop (E : env) (prompt_text : string)
    (actual_output_dir : path) (items : list path) (c : counters) : M counters :=
  match items with
  | [] => ret c
  | item_path :: rest =>
      (let* f := get_fs in
       if is_file f item_path
          && PyStr.str_in (PyStr.lower (suffix item_path)) SUPPORTED_IMAGE_EXTENSIONS
       then
         let* ok := process_single_image E item_path prompt_text
                                         (Some actual_output_dir) in
         let c' :=
           if ok then
             Counters (S (processed_files_count c)) (S (successful_files_count c))
                      (failed_files_count c) true
           else
             Counters (S (processed_files_count c)) (successful_files_count c)
                      (S (failed_files_count c)) true in
         directory_loop E prompt_text actual_output_dir rest c'
       else directory_loop E prompt_text actual_output_dir rest c)%prog
  end.

(** The loop of [process_directory] from its initial counters. *)
Definition scan_directory (E : env) (image_dir_path : path) (prompt_text : string)
    (output_dir_arg : option path) : M counters :=
  (let actual_output_dir :=
     match output_dir_arg with
     | Some d => d
     | None => image_dir_path
     end in
   let* f := get_fs in
   directory_loop E prompt_text actual_output_dir (iterdir f image_dir_path)
                  initial_counters)%prog.

Definition process_directory (E : env) (image_dir_path : path)
    (prompt_text : string) (output_dir_arg : option path) : M bool :=
  (let* f := get_fs in
   if negb (is_dir f image_dir_path) then ret false
   else
     let* c := scan_directory E image_dir_path prompt_text output_dir_arg in
     if negb (found_image_files c) then ret true
     else
       emit (EvSummary (processed_files_count c) (successful_files_count c)
                       (failed_files_count c));;
       if (0 <? failed_files_count c)%nat then ret false else ret true)%prog.

(** The parsed command line. *)
Record args := Args {
  image_file : option path;
  image_dir : option path;
  prompt_file : option path;
  output_dir : option path
}.

(** [main] from the point where [parser.parse_args()] has returned the
    arguments, returning the status it hands to [sys.exit]. A command line
    that argparse refuses, or one that asks for the help text, ends in
    argparse and does not come here. *)
Definition main (E : env) (a : args) : M Z :=
  (let* dir_ok :=
     match output_dir a with
     | Some d => mkdir_parents E d
     | None => ret true
     end in
   if negb dir_ok then ret 1
   else
     let* prompt_text := get_prompt_content E (prompt_file a) in
     match prompt_text with
     | None => ret 1
     | Some prompt =>
         let finish (overall_success : bool) : M Z :=
           if overall_success then ret 0 else ret 1 in
         match image_file a, image_dir a with
         | Some img, _ =>
             let* f := get_fs in
             if negb (is_file f img) then ret 1
             else
               let* ok := process_single_image E img prompt (output_dir a) in
               finish ok
         | None, Some d =>
             let* f := get_fs in
             if negb (is_dir f d) then ret 1
             else
               let* ok := process_directory E d prompt (output_dir a) in
               finish ok
         | None, None => finish false
         end
     end)%prog.

End transcription_tool.

(** * Vocabulary of the properties *)

Import PyStr Pathlib Runtime.
Import file_handler local_image_classifier llm_handler transcription_tool.


(** The backend an image is sent to: the classifier's answer, read as
    [process_single_image] reads it. *)
Definition selected_backend (E : env) (p : path) : backend :=
  route (effective_image_type (classify_text_type_local E p).1).

(** Events of the cloud path, of the local path, and of file writing. *)
Definition cloud_event (e : event) : bool :=
  match e with
  | EvCloudLLM _ _ | EvConfigure | EvApiRequest _ _ => true
  | _ => false
  end.

Definition api_request_event (e : event) : bool :=
  match e with EvApiRequest _ _ => true | _ => false end.

Definition local_event (e : event) : bool :=
  match e with EvLocalOCR _ => true | _ => false end.

Definition write_event (e : event) : bool :=
  match e with EvOpenWrite _ => true | _ => false end.

(** Events of the file system made by the persister. *)
Definition fs_event (e : event) : bool :=
  match e with EvMkdir _ | EvOpenWrite _ => true | _ => false end.

Definition item_event (e : event) : bool :=
  match e with EvItem _ => true | _ => false end.

(** The images [process_single_image] was entered for, oldest first. *)
Definition items_started (t : list event) : list path :=
  omap (fun e => match e with EvItem q => Some q | _ => None end) (rev t).

(** The entries of a directory the batch considers: regular files with a
    supported extension. *)
Definition considered (f : filesystem) (d : path) : list path :=
  List.filter
    (fun q => is_file f q
              && str_in (lower (suffix q)) SUPPORTED_IMAGE_EXTENSIONS)
    (iterdir f d).

(** The output directory the batch hands to every item. *)
Definition batch_output_dir (d : path) (out : option path) : path :=
  match out with Some o => o | None => d end.

(** The items processed one after the other, with what each returned. *)
Fixpoint item_results (E : env) (prompt : string) (out : path)
    (items : list path) : M (list bool) :=
  match items with
  | [] => ret []
  | item :: rest =>
      (let* ok := process_single_image E item prompt (Some out) in
       let* oks := item_results E prompt out rest in
       ret (ok :: oks))%prog
  end.

Definition count_succeeded (results : list bool) : nat :=
  length (List.filter id results).

Definition count_failed (results : list bool) : nat :=
  length (List.filter negb results).

(** One turn of the counters. *)
Definition bump (c : counters) (ok : bool) : counters :=
  if ok then
    Counters (S (processed_files_count c)) (S (successful_files_count c))
             (failed_files_count c) true
  else
    Counters (S (processed_files_count c)) (successful_files_count c)
             (S (failed_files_count c)) true.

(** The prompt file [get_prompt_content] loads. *)
Definition prompt_to_load (E : env) (prompt_file_path_arg : option path) : path :=
  match prompt_file_path_arg with
  | Some p => p
  | None => DEFAULT_PROMPT_FILE_PATH E
  end.

(** Where the specification puts the transcription of [image]. *)
Definition output_path (image : path) (out : option path) : path :=
  joinpath (match out with Some d => d | None => parent image end)
           (stem image +:+ ".txt").

(** [t'] is [t] with new events in front, each of them in [P]. *)
Definition added (P : event -> Prop) (t t' : list event) : Prop :=
  exists new, t' = new ++ t /\ Forall P new.

(** The same state of the modules of [llm_handler]. *)
Definition same_modules (w w' : world) : Prop :=
  llm_OPENAI_API_CONFIGURED w' = llm_OPENAI_API_CONFIGURED w
  /\ llm_client w' = llm_client w
  /\ LOCAL_OCR_loaded w' = LOCAL_OCR_loaded w.

(** Every node of [f] is still there in [f'], as a file or as a directory. *)
Definition kind_stable (f f' : filesystem) : Prop :=
  forall q n, f !! q = Some n -> exists n', f' !! q = Some n' /\ kind_of n' = kind_of n.

(** Every node sits in a directory. *)
Definition well_formed (f : filesystem) : Prop :=
  forall q n, f !! q = Some n -> stat f (parent q) = Some Dir.

(** ** A run to try the program on

    A directory of scans, a batch directory of three images next to entries
    that are not considered, and collaborators that answer by file name. *)

Module Scenario.

Definition scans : path := Path "" ["scans"].
Definition photo : path := joinpath scans "photo.jpg".
Definition form : path := joinpath scans "form.jpg".
Definition blurry : path := joinpath scans "blurry.jpg".
Definition report : path := joinpath scans "report.jpg".
Definition broken : path := joinpath scans "broken.JPG".

Definition batch : path := Path "" ["batch"].

Definition project : path := Path "/" ["project"].
Definition blank_prompt : path := Path "" ["prompts"; "blank.txt"].

Definition files : filesystem :=
  list_to_map
    [ (scans, Dir);
      (photo, File "jpeg-bytes");
      (form, File "jpeg-bytes");
      (blurry, File "jpeg-bytes");
      (report, File "jpeg-bytes");
      (broken, File "jpeg-bytes");
      (joinpath scans "photo.txt", File "an older transcription");
      (batch, Dir);
      (joinpath batch "photo.jpg", File "jpeg-bytes");
      (joinpath batch "form.jpeg", File "jpeg-bytes");
      (joinpath batch "report.jpg", File "jpeg-bytes");
      (joinpath batch "notes.png", File "png-bytes");
      (joinpath batch "archive.jpg", Dir);
      (Path "" ["prompts"], Dir);
      (blank_prompt, File (String " " (String "010" (String "009" EmptyString)))) ].

Definition pipeline (p : path) : pipeline_outcome :=
  if String.eqb (name p) "photo.jpg" then
    PipelineList [Pred "handwritten" (92 # 100); Pred "letter" (5 # 100)]
  else if String.eqb (stem p) "form" then PipelineList [Pred "form" (8 # 10)]
  else if String.eqb (name p) "blurry.jpg" then
    PipelineList [Pred "handwritten" (2 # 10)]
  else if String.eqb (name p) "report.jpg" then
    PipelineList [Pred "Handwritten" (9 # 10)]
  else PipelineRaises.

Definition trocr (p : path) : option string :=
  if String.eqb (name p) "photo.jpg" then Some " Dear Sir " else None.

Definition collaborators (configured : bool) : env :=
  {| os_mkdir_ok := fun _ => true;
     os_open_w_ok := fun _ => true;
     os_write_ok := fun _ _ => true;
     os_read_ok := fun _ => true;
     IMAGE_CLASSIFIER_ready := true;
     dit_pipeline := pipeline;
     trocr_load_ok := true;
     trocr_decode := trocr;
     OPENAI_API_KEY_set := configured;
     OpenAI_ctor_ok := configured;
     encode_image := fun _ => Some "data:image/jpeg;base64,/9j/4AAQ";
     chat_completion := fun _ _ => ApiContent "Invoice #221";
     OPENAI_API_CONFIGURED := configured;
     PROJECT_ROOT := project |}.

Definition start (configured : bool) : world :=
  World files [] configured configured false.

End Scenario.

(** ** Queries of the file system that fail

    [Path.exists], [Path.is_file] and [Path.is_dir] call [os.stat]. When
    the call fails because the path is not there (ENOENT, ENOTDIR, EBADF,
    ELOOP) pathlib answers False; every other [OSError] it raises to its
    caller: a name longer than the file system takes (ENAMETOOLONG), a
    directory that may not be searched (EACCES). [stat_fails] tells on
    which paths [os.stat] fails in that second way. The functions below are
    those of file_handler.py and transcription_tool.py that make such a
    query with no [try] around it, given with what they raise. *)

Module OS.

Inductive exception := OSError.

Inductive outcome (A : Type) :=
| Returns (a : A)
| Raises (e : exception).

Arguments Returns {A} a.
Arguments Raises {A} e.

Definition exists_ (stat_fails : path -> bool) (f : filesystem) (p : path)
    : outcome bool :=
  if stat_fails p then Raises OSError else Returns (Pathlib.exists_ f p).

Definition is_file (stat_fails : path -> bool) (f : filesystem) (p : path)
    : outcome bool :=
  if stat_fails p then Raises OSError else Returns (Pathlib.is_file f p).

(** A failure that needs nothing but the path: Linux refuses a component
    of more than NAME_MAX bytes with ENAMETOOLONG, and a component of more
    than NAME_MAX characters has more bytes than that. *)
Definition NAME_MAX : nat := 255.

Definition name_too_long (p : path) : bool :=
  existsb (fun c => (NAME_MAX <? String.length c)%nat) (tail p).

(** file_handler.py, [validate_image_file] *)
Definition validate_image_file (stat_fails : path -> bool) (f : filesystem)
    (image_path : pyval) : outcome bool :=
  match image_path with
  | PyPath p =>
      match exists_ stat_fails f p with
      | Raises e => Raises e
      | Returns found =>
          if negb found then Returns false
          else
            match is_file stat_fails f p with
            | Raises e => Raises e
            | Returns regular =>
                if negb regular then Returns false
                else if negb (PyStr.str_in (PyStr.lower (suffix p))
                                SUPPORTED_IMAGE_EXTENSIONS)
                then Returns false
                else Returns true
            end
      end
  | _ => Returns false
  end.

(** file_handler.py, [load_prompt_file]: the [is_file] test comes before
    the [try]. *)
Definition load_prompt_file (stat_fails : path -> bool) (E : env)
    (prompt_file_path : pyval) : M (outcome (option string)) :=
  match prompt_file_path with
  | PyPath p =>
      (let* f := get_fs in
       match is_file stat_fails f p with
       | Raises e => ret (Raises e)
       | Returns regular =>
           if negb regular then ret (Returns None)
           else
             let* r := read_text E p in
             match r with
             | Some content => ret (Returns (Some (PyStr.strip content)))
             | None => ret (Returns None)
             end
       end)%prog
  | _ => ret (Returns None)
  end.

(** transcription_tool.py, [get_prompt_content]: no [try]; when nothing was
    loaded it asks [exists] once more, for the log. *)
Definition get_prompt_content (stat_fails : path -> bool) (E : env)
    (prompt_file_path_arg : option path) : M (outcome (option string)) :=
  (let prompt_to_load :=
     match prompt_file_path_arg with
     | Some p => p
     | None => DEFAULT_PROMPT_FILE_PATH E
     end in
   let* loaded := load_prompt_file stat_fails E (PyPath prompt_to_load) in
   match loaded with
   | Raises e => ret (Raises e)
   | Returns prompt_content =>
       let missing :=
         let* f := get_fs in
         match exists_ stat_fails f prompt_to_load with
         | Raises e => ret (Raises e)
         | Returns _ => ret (Returns None)
         end in
       match prompt_content with
       | Some c => if PyStr.truthy c then ret (Returns (Some c)) else missing
       | None => missing
       end
   end)%prog.

End OS.

(** ** A name the file system refuses *)

Module Overlong.

(** [c * n] *)
Fixpoint times (c : ascii) (n : nat) : string :=
  match n with
  | O => EmptyString
  | S n' => String c (times c n')
  end.

(** [Path("a" * 300 + ".jpg")] *)
Definition image : path := Path "" [times "a" 300 +:+ ".jpg"].

End Overlong.

(** ** src/llm_handler.py: the data URI of [image_to_base64] *)

Module image_data_uri.

(** [s.replace('.', '')] *)
Fixpoint remove_dots (s : string) : string :=
  match s with
  | EmptyString => EmptyString
  | String c s' =>
      if Ascii.eqb c "."%char then remove_dots s' else String c (remove_dots s')
  end.

Definition known_extensions : list string :=
  ["jpeg"; "jpg"; "png"; "gif"; "bmp"; "webp"].

(** The format named in the data URI. [pil_format] is [img.format] as PIL
    reports it, None when it reports none. *)
Definition image_format (pil_format : option string) (image_path : path) : string :=
  let guessed :=
    let ext := remove_dots (lower (suffix image_path)) in
    if str_in ext known_extensions then
      if String.eqb ext "jpg" then "jpeg" else ext
    else "jpeg" in
  match pil_format with
  | Some img_format =>
      if truthy img_format then
        let img_format := lower img_format in
        if String.eqb img_format "jpg" then "jpeg" else img_format
      else guessed
  | None => guessed
  end.

(** [f"data:image/{img_format};base64,{encoded_string}"] *)
Definition data_uri (img_format encoded_string : string) : string :=
  "data:image/" +:+ img_format +:+ ";base64," +:+ encoded_string.

End image_data_uri.

(** ** Vocabulary of the further properties *)

(** What [save_transcription] does before it writes: the directory it is
    given is made, the image's own directory is taken as it is. *)
Definition directory_step (E : env) (out : option path) (f : filesystem)
    : bool * filesystem :=
  match out with
  | Some d => mkdir_rec E (anchor d) (rev (tail d)) f
  | None => (true, f)
  end.

(** The regular files at the paths in [keep] are the same in [f] and [f']:
    none changed, none added, none removed. *)
Definition files_kept (keep : path -> Prop) (f f' : filesystem) : Prop :=
  forall q c, keep q -> (f' !! q = Some (File c) <-> f !! q = Some (File c)).

(** The extension test the validator and the batch share. *)
Definition validate_image_file_true_cond (image : path) : Prop :=
  str_in (lower (suffix image)) SUPPORTED_IMAGE_EXTENSIONS = true.

(** The OpenAI client is there, or can be made: what
    [get_transcription_from_llm] needs before it sends anything. *)
Definition client_ready (E : env) (w : world) : bool :=
  llm_OPENAI_API_CONFIGURED w && llm_client w
  || OPENAI_API_KEY_set E && OpenAI_ctor_ok E.

(** The data URI [get_transcription_from_llm] sends, if it sends one: the
    client must be ready and the image a file that could be encoded. *)
Definition request_url (E : env) (p : path) (w : world) : option string :=
  if client_ready E w && is_file (fs w) p then
    match encode_image E p with
    | Some url => if truthy url then Some url else None
    | None => None
    end
  else None.

(** What one item may leave in the trace. *)
Definition item_event_ok (p : path) (prompt : string) (out : option path)
    (e : event) : Prop :=
  match e with
  | EvItem q | EvClassify q | EvLocalOCR q => q = p
  | EvCloudLLM q pr => q = p /\ pr = prompt
  | EvConfigure => True
  | EvApiRequest _ pr => pr = prompt
  | EvMkdir q => out = Some q
  | EvOpenWrite q => q = output_path p out
  | EvOpenRead _ => True
  | EvSummary _ _ _ => False
  end.




(** What is loaded stays loaded: the TrOCR model, the configured client,
    and the rule that a configured client is there. *)
Definition modules_kept (w w' : world) : Prop :=
  (LOCAL_OCR_loaded w = true -> LOCAL_OCR_loaded w' = true)
  /\ (llm_OPENAI_API_CONFIGURED w && llm_client w = true ->
      llm_OPENAI_API_CONFIGURED w' && llm_client w' = true)
  /\ ((llm_OPENAI_API_CONFIGURED w = true -> llm_client w = true) ->
      llm_OPENAI_API_CONFIGURED w' = true -> llm_client w' = true).

(** The text the backend chosen for an image gives once it is ready to
    answer: what TrOCR decodes, stripped, or the content of the API's
    answer to the image's data URI and the prompt, stripped when it is not
    empty. It is read off the collaborators alone. *)
Definition backend_text (E : env) (p : path) (prompt : string) : option string :=
  match selected_backend E p with
  | LocalRecognizer => strip <$> trocr_decode E p
  | CloudTranscriber =>
      match encode_image E p with
      | Some url =>
          if negb (truthy url) then None
          else
            match chat_completion E url prompt with
            | ApiContent content =>
                if truthy content then Some (strip content) else None
            | _ => None
            end
      | None => None
      end
  end.

(** The first step of [main]: the output directory, when one is given. *)
Definition make_output_dir (E : env) (a : args) : M bool :=
  match output_dir a with
  | Some d => mkdir_parents E d
  | None => ret true
  end.

(** ** A second run: a prompt that loads

    The file system of the first run with a prompt file and a directory of
    two letters that both transcribe; [inbox] names a directory that does
    not exist. *)

Module Office.

Definition prompt : path := Path "" ["prompts"; "letters.txt"].
Definition letters : path := Path "" ["letters"].
Definition photo : path := joinpath letters "photo.jpg".
Definition form : path := joinpath letters "form.jpeg".
Definition inbox : path := Path "" ["inbox"].

(** Two images that differ in the extension alone. *)
Definition album : path := Path "" ["album"].
Definition album_jpg : path := joinpath album "photo.jpg".
Definition album_jpeg : path := joinpath album "photo.jpeg".

Definition files : filesystem :=
  <[prompt := File " Transcribe the letter. "]>
    (<[letters := Dir]>
       (<[photo := File "jpeg-bytes"]>
          (<[form := File "jpeg-bytes"]>
             (<[album := Dir]>
                (<[album_jpg := File "jpeg-bytes"]>
                   (<[album_jpeg := File "jpeg-bytes"]> Scenario.files)))))).

Definition start : world := World files [] true true false.

End Office.

(** * Properties *)

(** ** Strings and names *)

Section StringFacts.

Lemma length_append (s t : string) :
  String.length (s +:+ t) = (String.length s + String.length t)%nat.
Proof. induction s as [|c s IH]; simpl; [done | by rewrite IH]. Qed.

Lemma slice_to_append (s t : string) : slice_to (String.length s) (s +:+ t) = s.
Proof. induction s as [|c s IH]; simpl; [by destruct t | by rewrite IH]. Qed.

Lemma slice_to_nonempty (n : nat) (s : string) :
  (0 < n)%nat -> s <> EmptyString -> slice_to n s <> EmptyString.
Proof. destruct n, s; simpl; intros; (lia || done). Qed.

Lemma rfind_append_txt (s : string) :
  rfind dot (s +:+ ".txt") = Some (String.length s).
Proof.
  induction s as [|c s IH]; [reflexivity |].
  change (String c s +:+ ".txt") with (String c (s +:+ ".txt")).
  cbn [rfind String.length]. by rewrite IH.
Qed.

(** The stem of [s + ".txt"] is [s], for a name [s] that is not empty. *)
Lemma name_stem_txt (s : string) :
  s <> EmptyString -> name_stem (s +:+ ".txt") = s.
Proof.
  intros Hs. unfold name_stem, split_index.
  rewrite rfind_append_txt, length_append. simpl String.length.
  destruct s as [|c s]; [done |].
  assert ((0 <? String.length (String c s))%nat = true) as ->
    by (apply Nat.ltb_lt; simpl; lia).
  assert ((String.length (String c s) <? String.length (String c s) + 4 - 1)%nat = true)
    as -> by (apply Nat.ltb_lt; lia).
  simpl andb. cbv iota. apply slice_to_append.
Qed.

Lemma lower_empty_inv (s : string) : lower s = EmptyString -> s = EmptyString.
Proof. by destruct s. Qed.

(** The allow-list, spelled out. *)
Lemma supported_extension_iff (x : string) :
  str_in x SUPPORTED_IMAGE_EXTENSIONS = true <-> x = ".jpg" \/ x = ".jpeg".
Proof.
  unfold str_in, SUPPORTED_IMAGE_EXTENSIONS. simpl.
  rewrite orb_false_r, orb_true_iff, !String.eqb_eq. tauto.
Qed.

(** A name with a supported extension has a stem that is not empty. *)
Lemma supported_stem_nonempty (nm : string) :
  str_in (lower (name_suffix nm)) SUPPORTED_IMAGE_EXTENSIONS = true ->
  name_stem nm <> EmptyString.
Proof.
  unfold name_suffix, name_stem. intros H.
  destruct (split_index nm) as [i|] eqn:Hi; [| by simpl in H].
  unfold split_index in Hi.
  destruct (rfind dot nm) as [j|]; [| done].
  destruct (0 <? j)%nat eqn:Hj; [| done].
  destruct (j <? String.length nm - 1)%nat eqn:Hl; [| done].
  simpl in Hi. injection Hi as <-.
  apply Nat.ltb_lt in Hj. apply Nat.ltb_lt in Hl.
  apply slice_to_nonempty; [done |]. destruct nm; simpl in *; [lia | done].
Qed.

Lemma name_joinpath (d : path) (c : string) : name (joinpath d c) = c.
Proof. unfold name, joinpath. simpl. apply last_last. Qed.

Lemma stem_joinpath_txt (d : path) (s : string) :
  s <> EmptyString -> stem (joinpath d (s +:+ ".txt")) = s.
Proof. intros Hs. unfold stem. rewrite name_joinpath. by apply name_stem_txt. Qed.

(** Stripping a string of whitespace only leaves nothing. *)
Lemma rstrip_all_space (s : string) : all_space s = true -> rstrip s = EmptyString.
Proof.
  induction s as [|c s IH]; simpl; [done |].
  intros [Hc Hs]%andb_true_iff. by rewrite (IH Hs), Hc.
Qed.

Lemma strip_all_space (s : string) : all_space s = true -> strip s = EmptyString.
Proof. intros H. unfold strip. by rewrite rstrip_all_space. Qed.

(** Reading in text mode keeps a blank file blank, and no other. *)
Lemma all_space_universal_newlines (s : string) :
  all_space (universal_newlines s) = all_space s.
Proof.
  enough (all_space (universal_newlines s) = all_space s
          /\ forall c, all_space (universal_newlines (String c s))
                       = all_space (String c s)) as [H _] by exact H.
  induction s as [|a s [IH1 IH2]].
  - split; [done |]. intros c. cbn [universal_newlines].
    by destruct (Ascii.eqb_spec c "013"%char) as [-> |].
  - split; [apply IH2 |]. intros c.
    change (universal_newlines (String c (String a s)))
      with (if Ascii.eqb c "013"%char
            then if Ascii.eqb a "010"%char
                 then String "010"%char (universal_newlines s)
                 else String "010"%char (universal_newlines (String a s))
            else String c (universal_newlines (String a s))).
    destruct (Ascii.eqb_spec c "013"%char) as [-> |].
    + destruct (Ascii.eqb_spec a "010"%char) as [-> |].
      * cbn [all_space]. by rewrite IH1.
      * cbn [all_space] in *. by rewrite IH2.
    + cbn [all_space] in *. by rewrite IH2.
Qed.

End StringFacts.

(** ** The file system *)

Section FileSystemFacts.

Lemma parent_snoc (a : string) (l : list string) (x : string) :
  parent (Path a (l ++ [x])) = Path a l.
Proof.
  unfold parent. cbn [tail anchor]. destruct (l ++ [x]) eqn:Heq.
  - by destruct l.
  - rewrite <- Heq. by rewrite removelast_last.
Qed.

Lemma parent_joinpath (d : path) (c : string) : parent (joinpath d c) = d.
Proof. unfold joinpath. rewrite parent_snoc. by destruct d. Qed.

Lemma stat_snoc (f : filesystem) (a : string) (l : list string) (x : string) :
  stat f (Path a (l ++ [x])) = f !! Path a (l ++ [x]).
Proof. unfold stat. simpl. by destruct l. Qed.

Lemma stat_joinpath (f : filesystem) (d : path) (c : string) :
  stat f (joinpath d c) = f !! joinpath d c.
Proof. apply stat_snoc. Qed.

Lemma stat_insert_dir (f : filesystem) (s x : path) :
  stat f x = Some Dir -> stat (<[s := Dir]> f) x = Some Dir.
Proof.
  unfold stat. destruct (tail x); [done |].
  intros H. destruct (decide (s = x)) as [->|Hne].
  - by rewrite lookup_insert_eq.
  - by rewrite lookup_insert_ne.
Qed.

Lemma kind_stable_refl (f : filesystem) : kind_stable f f.
Proof. intros q n H. eauto. Qed.

Lemma kind_stable_trans (f g h : filesystem) :
  kind_stable f g -> kind_stable g h -> kind_stable f h.
Proof.
  intros Hfg Hgh q n H.
  destruct (Hfg q n H) as (n' & Hg & Hk).
  destruct (Hgh q n' Hg) as (n'' & Hh & Hk').
  exists n''. split; [done | congruence].
Qed.

(** A pass of [mkdir] only adds directories at paths that were free. *)
Lemma mkdir_rec_lookup (E : env) (a : string) (rt : list string) :
  forall (f f' : filesystem) (ok : bool),
    mkdir_rec E a rt f = (ok, f') ->
    forall q, f' !! q = f !! q \/ (f !! q = None /\ f' !! q = Some Dir).
Proof.
  induction rt as [|x rp IH]; intros f f' ok Hrun q.
  - simpl in Hrun. injection Hrun as _ <-. by left.
  - cbn [mkdir_rec] in Hrun.
    destruct (f !! Path a (rev (x :: rp))) as [[c|]|] eqn:Hself.
    + injection Hrun as _ <-. by left.
    + injection Hrun as _ <-. by left.
    + assert (forall g : filesystem,
                 (forall y, g !! y = f !! y \/ (f !! y = None /\ g !! y = Some Dir)) ->
                 <[Path a (rev (x :: rp)) := Dir]> g !! q = f !! q \/
                 (f !! q = None /\ <[Path a (rev (x :: rp)) := Dir]> g !! q = Some Dir))
        as Hins.
      { intros g Hg. destruct (decide (Path a (rev (x :: rp)) = q)) as [<-|Hne].
        - right. by rewrite lookup_insert_eq.
        - rewrite lookup_insert_ne by done. apply Hg. }
      destruct (stat f (Path a (rev rp))) as [[c|]|] eqn:Hpar.
      * injection Hrun as _ <-. by left.
      * destruct (os_mkdir_ok E _); injection Hrun as _ <-; [| by left].
        apply Hins. by left.
      * destruct (mkdir_rec E a rp f) as [ok1 f1] eqn:Hrec.
        specialize (IH _ _ _ Hrec).
        destruct ok1; [destruct (os_mkdir_ok E _) |]; injection Hrun as _ <-;
          auto.
Qed.

Lemma mkdir_rec_kind_stable (E : env) (a : string) (rt : list string)
    (f f' : filesystem) (ok : bool) :
  mkdir_rec E a rt f = (ok, f') -> kind_stable f f'.
Proof.
  intros Hrun q n Hq.
  destruct (mkdir_rec_lookup _ _ _ _ _ _ Hrun q) as [Heq | [Hnone _]].
  - exists n. by rewrite Heq.
  - congruence.
Qed.

(** Regular files are neither added nor changed by [mkdir]. *)
Lemma mkdir_rec_files (E : env) (a : string) (rt : list string)
    (f f' : filesystem) (ok : bool) :
  mkdir_rec E a rt f = (ok, f') ->
  forall q c, f' !! q = Some (File c) <-> f !! q = Some (File c).
Proof.
  intros Hrun q c.
  destruct (mkdir_rec_lookup _ _ _ _ _ _ Hrun q) as [Heq | [Hnone Hdir]].
  - by rewrite Heq.
  - rewrite Hnone, Hdir. split; discriminate.
Qed.

(** When [mkdir] returns, the directory is there. *)
Lemma mkdir_rec_is_dir (E : env) (a : string) (rt : list string)
    (f f' : filesystem) :
  mkdir_rec E a rt f = (true, f') -> stat f' (Path a (rev rt)) = Some Dir.
Proof.
  destruct rt as [|x rp]; [done |].
  intros Hrun. cbn [mkdir_rec] in Hrun.
  simpl rev in *. rewrite stat_snoc.
  destruct (f !! Path a (rev rp ++ [x])) as [[c|]|] eqn:Hself.
  - done.
  - by injection Hrun as <-.
  - destruct (stat f (Path a (rev rp))) as [[c|]|]; [done | |].
    + destruct (os_mkdir_ok E _); [| done]. injection Hrun as <-.
      by rewrite lookup_insert_eq.
    + destruct (mkdir_rec E a rp f) as [[] f1]; [| done].
      destruct (os_mkdir_ok E _); [| done]. injection Hrun as <-.
      by rewrite lookup_insert_eq.
Qed.

(** A directory that is there is left alone. *)
Lemma mkdir_rec_existing (E : env) (p : path) (f : filesystem) :
  is_dir f p = true -> mkdir_rec E (anchor p) (rev (tail p)) f = (true, f).
Proof.
  destruct p as [a t]. unfold is_dir, stat. simpl.
  destruct t as [|x t] using rev_ind; [done |].
  rewrite rev_app_distr. simpl.
  rewrite rev_involutive.
  destruct (t ++ [x]) eqn:Ht; [by destruct t |]. rewrite <- Ht.
  intros H. destruct (f !! Path a (t ++ [x])) as [[]|]; done.
Qed.

Lemma well_formed_insert_dir (f : filesystem) (s : path) :
  well_formed f -> stat f (parent s) = Some Dir -> well_formed (<[s := Dir]> f).
Proof.
  intros Hwf Hpar q n Hq. apply stat_insert_dir.
  destruct (decide (s = q)) as [<-|Hne]; [done |].
  rewrite lookup_insert_ne in Hq by done. eauto.
Qed.

Lemma mkdir_rec_well_formed (E : env) (a : string) (rt : list string) :
  forall (f f' : filesystem) (ok : bool),
    mkdir_rec E a rt f = (ok, f') -> well_formed f -> well_formed f'.
Proof.
  induction rt as [|x rp IH]; intros f f' ok Hrun Hwf.
  - simpl in Hrun. by injection Hrun as _ <-.
  - cbn [mkdir_rec] in Hrun. simpl rev in Hrun.
    destruct (f !! Path a (rev rp ++ [x])) as [[c|]|] eqn:Hself.
    + by injection Hrun as _ <-.
    + by injection Hrun as _ <-.
    + destruct (stat f (Path a (rev rp))) as [[c|]|] eqn:Hpar.
      * by injection Hrun as _ <-.
      * destruct (os_mkdir_ok E _); injection Hrun as _ <-; [| done].
        apply well_formed_insert_dir; [done |]. by rewrite parent_snoc.
      * destruct (mkdir_rec E a rp f) as [ok1 f1] eqn:Hrec.
        pose proof (IH _ _ _ Hrec Hwf) as Hwf1.
        destruct ok1; [| by injection Hrun as _ <-].
        destruct (os_mkdir_ok E _); injection Hrun as _ <-; [| done].
        apply well_formed_insert_dir; [done |]. rewrite parent_snoc.
        by apply mkdir_rec_is_dir in Hrec.
Qed.

(** In a well-formed file system every ancestor of a directory is one. *)
Lemma well_formed_ancestors (f : filesystem) (d : path) :
  well_formed f -> stat f d = Some Dir ->
  forall k, stat f (Nat.iter k parent d) = Some Dir.
Proof.
  intros Hwf Hd k. induction k as [|k IH]; [done |].
  simpl. set (q := Nat.iter k parent d) in *.
  unfold stat in IH. destruct (tail q) eqn:Hq.
  - unfold parent. rewrite Hq. unfold stat. by rewrite Hq.
  - eauto.
Qed.

End FileSystemFacts.

(** ** Effects of the building blocks *)

Section Effects.

Lemma added_refl (P : event -> Prop) (t : list event) : added P t t.
Proof. by exists []. Qed.

Lemma added_cons (P : event -> Prop) (e : event) (t t' : list event) :
  P e -> added P t t' -> added P t (e :: t').
Proof. intros He (new & -> & Hnew). exists (e :: new). by split; [| constructor]. Qed.

Lemma added_trans (P : event -> Prop) (t1 t2 t3 : list event) :
  added P t1 t2 -> added P t2 t3 -> added P t1 t3.
Proof.
  intros (n1 & -> & H1) (n2 & -> & H2). exists (n2 ++ n1).
  split; [by rewrite app_assoc | by apply Forall_app].
Qed.

Lemma added_mono (P Q : event -> Prop) (t t' : list event) :
  (forall e, P e -> Q e) -> added P t t' -> added Q t t'.
Proof.
  intros HPQ (new & -> & Hnew). exists new. split; [done |].
  eapply Forall_impl; eauto.
Qed.

Lemma mkdir_parents_run (E : env) (d : path) (w w' : world) (ok : bool) :
  mkdir_parents E d w = (ok, w') ->
  mkdir_rec E (anchor d) (rev (tail d)) (fs w) = (ok, fs w')
  /\ trace w' = EvMkdir d :: trace w
  /\ same_modules w w'.
Proof.
  unfold mkdir_parents, bind, emit, get_fs, set_fs, ret, push. simpl.
  destruct (mkdir_rec E (anchor d) (rev (tail d)) (fs w)) as [ok1 f1].
  intros [= <- <-]. by repeat split.
Qed.

Lemma write_text_run (E : env) (p : path) (text : string) (w w' : world) (ok : bool) :
  write_text E p text w = (ok, w') ->
  trace w' = EvOpenWrite p :: trace w
  /\ same_modules w w'
  /\ (ok = true <->
        stat (fs w) p <> Some Dir /\ is_dir (fs w) (parent p) = true
        /\ os_open_w_ok E p = true /\ os_write_ok E p text = true)
  /\ (ok = true -> fs w' = <[p := File text]> (fs w))
  /\ (fs w' = fs w \/
      stat (fs w) p <> Some Dir /\ exists c, fs w' = <[p := File c]> (fs w)).
Proof.
  unfold write_text, bind, emit, get_fs, set_fs, ret, push. simpl.
  destruct (stat (fs w) p) as [[c|]|] eqn:Hst;
    destruct (is_dir (fs w) (parent p)), (os_open_w_ok E p),
      (os_write_ok E p text); simpl;
    intros [= <- <-]; simpl; repeat split; try done; try tauto;
    try (intros (? & ? & ? & ?); done); eauto.
Qed.

Lemma write_text_kind_stable (f : filesystem) (p : path) (c : string) :
  stat f p <> Some Dir -> kind_stable f (<[p := File c]> f).
Proof.
  intros Hst q n Hq. destruct (decide (p = q)) as [<-|Hne].
  - rewrite lookup_insert_eq. eexists; split; [done |].
    unfold stat in Hst. destruct (tail p); [done |].
    rewrite Hq in Hst. by destruct n.
  - rewrite lookup_insert_ne by done. eauto.
Qed.

Lemma local_ocr_run (E : env) (p : path) (w w' : world) (r : option string) :
  get_transcription_from_local_ocr E p w = (r, w') ->
  fs w' = fs w
  /\ trace w' = EvLocalOCR p :: trace w
  /\ llm_OPENAI_API_CONFIGURED w' = llm_OPENAI_API_CONFIGURED w
  /\ llm_client w' = llm_client w
  /\ r = (if LOCAL_OCR_loaded w || trocr_load_ok E
          then strip <$> trocr_decode E p else None).
Proof.
  unfold get_transcription_from_local_ocr, _initialize_local_ocr_model,
    bind, emit, get_ocr, set_ocr, ret, push. simpl.
  destruct (LOCAL_OCR_loaded w) eqn:Hl; simpl.
  - rewrite ?Hl. simpl.
    destruct (trocr_decode E p); intros [= <- <-]; by repeat split.
  - destruct (trocr_load_ok E); simpl;
      [destruct (trocr_decode E p) |]; intros [= <- <-]; by repeat split.
Qed.

Lemma llm_run (E : env) (p : path) (prompt : string) (w w' : world)
    (r : option string) :
  get_transcription_from_llm E p prompt w = (r, w') ->
  fs w' = fs w
  /\ LOCAL_OCR_loaded w' = LOCAL_OCR_loaded w
  /\ added (fun e => cloud_event e = true) (trace w) (trace w').
Proof.
  unfold get_transcription_from_llm, configure_openai_api, image_to_base64,
    bind, emit, get_llm, set_llm, get_fs, ret, push. simpl.
  destruct (llm_OPENAI_API_CONFIGURED w) eqn:Hc, (llm_client w) eqn:Hk; simpl;
    rewrite ?Hc, ?Hk; simpl;
    destruct (OPENAI_API_KEY_set E), (OpenAI_ctor_ok E); simpl;
    destruct (is_file (fs w) p); simpl;
    try destruct (encode_image E p) as [url|]; simpl;
    try destruct (truthy url); simpl;
    try destruct (chat_completion E url prompt) as [| |content]; simpl;
    try destruct (truthy content); simpl;
    intros [= <- <-]; simpl; (split; [done |]); (split; [done |]);
    repeat (apply added_cons; [done |]); apply added_refl.
Qed.


Lemma same_modules_refl (w : world) : same_modules w w.
Proof. by repeat split. Qed.

Lemma same_modules_trans (w1 w2 w3 : world) :
  same_modules w1 w2 -> same_modules w2 w3 -> same_modules w1 w3.
Proof. intros (? & ? & ?) (? & ? & ?). repeat split; congruence. Qed.

Lemma save_transcription_run (E : env) (text : string) (image : path)
    (out : option path) (w w' : world) (r : option path) :
  save_transcription E text (PyPath image) (optional_path out) w = (r, w') ->
  same_modules w w'
  /\ added (fun e => fs_event e = true) (trace w) (trace w')
  /\ kind_stable (fs w) (fs w')
  /\ (r = None \/ r = Some (output_path image out))
  /\ (r = Some (output_path image out) ->
      fs w' !! output_path image out = Some (File text)).
Proof.
  assert (forall (d : path) (w1 w2 : world) (r1 : option path),
    (let (ok, w0) := write_text E (joinpath d (stem image +:+ ".txt")) text w1 in
     (if ok then Some (joinpath d (stem image +:+ ".txt")) else None, w0))
      = (r1, w2) ->
    same_modules w1 w2
    /\ added (fun e => fs_event e = true) (trace w1) (trace w2)
    /\ kind_stable (fs w1) (fs w2)
    /\ (r1 = None \/ r1 = Some (joinpath d (stem image +:+ ".txt")))
    /\ (r1 = Some (joinpath d (stem image +:+ ".txt")) ->
        fs w2 !! joinpath d (stem image +:+ ".txt") = Some (File text))) as Hwrite.
  { intros d w1 w2 r1.
    destruct (write_text E _ text w1) as [ok w0] eqn:Hw.
    apply write_text_run in Hw as (Htr & Hmod & _ & Hok & Hfs).
    intros [= <- <-]. split; [done |]. split; [| split; [| split]].
    - rewrite Htr. apply added_cons; [done | apply added_refl].
    - destruct Hfs as [-> | (Hst & c & ->)];
        [apply kind_stable_refl | by apply write_text_kind_stable].
    - destruct ok; auto.
    - destruct ok; [| done]. intros _. rewrite Hok by done.
      apply lookup_insert_eq. }
  unfold save_transcription, output_path, bind, ret.
  destruct out as [d|]; cbn [optional_path].
  - destruct (mkdir_parents E d w) as [ok w1] eqn:Hm.
    apply mkdir_parents_run in Hm as (Hrec & Htr & Hmod).
    destruct ok.
    + intros Hrun. apply Hwrite in Hrun as (Hmod2 & Hadd & Hks & Hr & Hc).
      split; [by eapply same_modules_trans |]. split; [| split; [| done]].
      * eapply added_trans; [| exact Hadd]. rewrite Htr.
        apply added_cons; [done | apply added_refl].
      * eapply kind_stable_trans; [| exact Hks]. by eapply mkdir_rec_kind_stable.
    + intros [= <- <-]. split; [done |]. split; [| split; [| split]].
      * rewrite Htr. apply added_cons; [done | apply added_refl].
      * by eapply mkdir_rec_kind_stable.
      * by left.
      * done.
  - apply Hwrite.
Qed.

(** [process_single_image], step by step. *)
Lemma process_single_image_unfold (E : env) (p : path) (prompt : string)
    (out : option path) (w : world) :
  process_single_image E p prompt out w =
  if negb (validate_image_file (fs w) (PyPath p)) then (false, push (EvItem p) w)
  else
    let w2 := push (EvClassify p) (push (EvItem p) w) in
    let save (t : string) (w3 : world) :=
      let (saved, w4) := save_transcription E t (PyPath p) (optional_path out) w3 in
      (match saved with Some _ => true | None => false end, w4) in
    match selected_backend E p with
    | LocalRecognizer =>
        let (t, w3) := get_transcription_from_local_ocr E p w2 in
        match t with
        | None => (false, w3)
        | Some t => save t w3
        end
    | CloudTranscriber =>
        if negb (OPENAI_API_CONFIGURED E) then (false, w2)
        else
          let (t, w3) := get_transcription_from_llm E p prompt w2 in
          match t with
          | None => (false, w3)
          | Some t => save t w3
          end
    end.
Proof.
  unfold process_single_image, selected_backend, bind, emit, get_fs, ret.
  cbn [fst snd].
  change (fs (push (EvItem p) w)) with (fs w).
  destruct (validate_image_file (fs w) (PyPath p)); cbn [negb]; [| done].
  destruct (classify_text_type_local E p) as [primary predictions]. cbn [fst].
  destruct (route (effective_image_type primary)).
  - destruct (get_transcription_from_local_ocr E p _) as [[t|] w3]; [| done].
    by destruct (save_transcription E t (PyPath p) (optional_path out) w3) as [[?|] ?].
  - destruct (OPENAI_API_CONFIGURED E); cbn [negb]; [| done].
    destruct (get_transcription_from_llm E p prompt _) as [[t|] w3]; [| done].
    by destruct (save_transcription E t (PyPath p) (optional_path out) w3) as [[?|] ?].
Qed.

End Effects.

(** ** The validator *)

Section Validator.

Lemma is_file_exists (f : filesystem) (p : path) :
  is_file f p = true -> exists_ f p = true.
Proof. unfold is_file, exists_. by destruct (stat f p) as [[]|]. Qed.

Lemma is_dir_not_file (f : filesystem) (p : path) :
  is_dir f p = true -> is_file f p = false.
Proof. unfold is_file, is_dir. by destruct (stat f p) as [[]|]. Qed.

Lemma validate_image_file_true (f : filesystem) (p : path) :
  validate_image_file f (PyPath p) = true <->
  is_file f p = true /\
  str_in (lower (suffix p)) SUPPORTED_IMAGE_EXTENSIONS = true.
Proof.
  unfold validate_image_file. split.
  - destruct (exists_ f p), (is_file f p),
      (str_in (lower (suffix p)) SUPPORTED_IMAGE_EXTENSIONS); simpl; auto.
  - intros [Hf Hs]. by rewrite (is_file_exists _ _ Hf), Hf, Hs.
Qed.

(** Where [os.stat] answers, the validator is a boolean function of the
    path's kind in the file system and of its lower-cased suffix: true
    exactly for a regular file whose suffix, lower-cased, is ".jpg" or
    ".jpeg", whatever the file contains. *)
Lemma validate_image_file_gate (f : filesystem) (p : path) :
  (validate_image_file f (PyPath p) = true <->
     exists_ f p = true /\ is_file f p = true /\
     (lower (suffix p) = ".jpg" \/ lower (suffix p) = ".jpeg"))
  /\ (exists_ f p = false -> validate_image_file f (PyPath p) = false)
  /\ (is_dir f p = true -> validate_image_file f (PyPath p) = false)
  /\ (str_in (lower (suffix p)) SUPPORTED_IMAGE_EXTENSIONS = false ->
      validate_image_file f (PyPath p) = false)
  /\ (forall (f' : filesystem) (p' : path),
        kind_of <$> stat f' p' = kind_of <$> stat f p ->
        lower (suffix p') = lower (suffix p) ->
        validate_image_file f' (PyPath p') = validate_image_file f (PyPath p)).
Proof.
  split; [| split; [| split; [| split]]].
  - rewrite validate_image_file_true, supported_extension_iff.
    split; [intros [Hf Hs]; eauto using is_file_exists | tauto].
  - intros H. unfold validate_image_file. by rewrite H.
  - intros H. unfold validate_image_file.
    rewrite (is_dir_not_file _ _ H). by destruct (exists_ f p).
  - intros H. unfold validate_image_file. rewrite H.
    by destruct (exists_ f p), (is_file f p).
  - intros f' p' Hk Hs. unfold validate_image_file, exists_, is_file.
    rewrite Hs.
    destruct (stat f' p') as [[]|], (stat f p) as [[]|]; simpl in Hk;
      try done; congruence.
Qed.

Lemma OS_validate_image_file_run (stat_fails : path -> bool) (f : filesystem)
    (p : path) :
  OS.validate_image_file stat_fails f (PyPath p)
  = if stat_fails p then OS.Raises OS.OSError
    else OS.Returns (validate_image_file f (PyPath p)).
Proof.
  unfold OS.validate_image_file, OS.exists_, OS.is_file, validate_image_file.
  destruct (stat_fails p); [done |].
  destruct (exists_ f p); cbn [negb]; [| done].
  destruct (is_file f p); cbn [negb]; [| done].
  by destruct (str_in (lower (suffix p)) SUPPORTED_IMAGE_EXTENSIONS).
Qed.

(** C8, amended: the validator has no [try], so where [os.stat] fails with
    an error that pathlib raises, the [OSError] of [Path.exists] reaches
    the caller, and nowhere else does the validator raise. On every other
    path it returns a boolean: true exactly for a regular file whose
    suffix, lower-cased, is ".jpg" or ".jpeg", so false for a path that
    does not exist, for a directory and for any other extension. What it
    does is settled by the answer of [os.stat] and by the suffix: it does
    not depend on what the file contains. An argument that is no path gets
    false. *)
Theorem C8_validate_image_file_gate (stat_fails : path -> bool) (f : filesystem)
    (p : path) :
  let run := OS.validate_image_file stat_fails f (PyPath p) in
  (run = OS.Raises OS.OSError <-> stat_fails p = true)
  /\ (stat_fails p = false -> run = OS.Returns true \/ run = OS.Returns false)
  /\ (run = OS.Returns true <->
       stat_fails p = false /\ exists_ f p = true /\ is_file f p = true /\
       (lower (suffix p) = ".jpg" \/ lower (suffix p) = ".jpeg"))
  /\ (stat_fails p = false -> exists_ f p = false -> run = OS.Returns false)
  /\ (stat_fails p = false -> is_dir f p = true -> run = OS.Returns false)
  /\ (stat_fails p = false ->
      str_in (lower (suffix p)) SUPPORTED_IMAGE_EXTENSIONS = false ->
      run = OS.Returns false)
  /\ (forall (f' : filesystem) (p' : path),
        stat_fails p' = stat_fails p ->
        kind_of <$> stat f' p' = kind_of <$> stat f p ->
        lower (suffix p') = lower (suffix p) ->
        OS.validate_image_file stat_fails f' (PyPath p') = run)
  /\ (forall v, (forall q, v <> PyPath q) ->
        OS.validate_image_file stat_fails f v = OS.Returns false).
Proof.
  intros run. subst run. rewrite OS_validate_image_file_run.
  destruct (validate_image_file_gate f p) as (Htrue & Hmissing & Hdir & Hext & Hkind).
  split_and!.
  - by destruct (stat_fails p).
  - intros ->. destruct (validate_image_file f (PyPath p)); auto.
  - destruct (stat_fails p).
    + split; [done | by intros [? _]].
    + split.
      * intros [= Hv]. split; [done |]. by apply Htrue.
      * intros [_ Hv]. f_equal. by apply Htrue.
  - intros -> Hm. f_equal. by apply Hmissing.
  - intros -> Hd. f_equal. by apply Hdir.
  - intros -> He. f_equal. by apply Hext.
  - intros f' p' Hsf Hk Hs. rewrite OS_validate_image_file_run, Hsf.
    destruct (stat_fails p); [done |]. f_equal. by apply Hkind.
  - intros v Hv. destruct v as [| | |q]; try done. by destruct (Hv q).
Qed.

(** C8 as the specification has it, "never throws", fails: on an image
    name of 300 characters [Path.exists] raises ENAMETOOLONG, and so does
    the validator, which therefore returns no boolean there. *)
Lemma C8_validate_image_file_counterexample :
  OS.name_too_long Overlong.image = true
  /\ OS.validate_image_file OS.name_too_long Scenario.files (PyPath Overlong.image)
     = OS.Raises OS.OSError
  /\ ~ (exists b : bool,
          OS.validate_image_file OS.name_too_long Scenario.files
            (PyPath Overlong.image) = OS.Returns b).
Proof.
  assert (OS.validate_image_file OS.name_too_long Scenario.files
            (PyPath Overlong.image) = OS.Raises OS.OSError) as Hraises
    by (vm_compute; reflexivity).
  repeat apply conj; [vm_compute; reflexivity | exact Hraises |].
  intros [b Hb]. rewrite Hraises in Hb. discriminate Hb.
Qed.

End Validator.

(** ** Arguments that are not paths *)



(** ** Routing *)

Section Routing.

Lemma score_lt_true (x y : Q) : score_lt x y = true <-> (x < y)%Q.
Proof.
  unfold score_lt. rewrite negb_true_iff, <- not_true_iff_false, Qle_bool_iff.
  split; [apply Qnot_le_lt | apply Qlt_not_le].
Qed.

Lemma score_lt_false (x y : Q) : score_lt x y = false <-> (y <= x)%Q.
Proof. unfold score_lt. by rewrite negb_false_iff, Qle_bool_iff. Qed.

Lemma route_local_iff (t : string) : route t = LocalRecognizer <-> t = "handwritten".
Proof.
  unfold route. destruct (String.eqb_spec t "handwritten"); split; done.
Qed.

Lemma route_cloud_iff (t : string) : route t = CloudTranscriber <-> t <> "handwritten".
Proof.
  unfold route. destruct (String.eqb_spec t "handwritten"); split; done.
Qed.

Lemma map_top_prediction_handwritten (top_label : string) (top_score : Q) :
  map_top_prediction top_label top_score = "handwritten" <->
  top_label = "handwritten" /\ (MIN_CONFIDENCE_SCORE <= top_score)%Q.
Proof.
  unfold map_top_prediction.
  destruct (score_lt top_score MIN_CONFIDENCE_SCORE) eqn:Hlt.
  - apply score_lt_true in Hlt. split; [done |].
    intros [_ Hle]. by apply Qlt_not_le in Hlt.
  - apply score_lt_false in Hlt.
    destruct (String.eqb_spec top_label "handwritten") as [->|Hne]; [done |].
    split; [| tauto].
    by destruct (str_in top_label typewritten_labels),
      (str_in top_label other_document_labels).
Qed.

(** When the classifier gives no answer at all. *)
Lemma classify_none_iff (E : env) (p : path) :
  (classify_text_type_local E p).1 = None <->
  IMAGE_CLASSIFIER_ready E = false
  \/ dit_pipeline E p = PipelineRaises
  \/ exists rest, dit_pipeline E p = PipelineList (PredMalformed :: rest).
Proof.
  unfold classify_text_type_local.
  destruct (IMAGE_CLASSIFIER_ready E); simpl; [| by split; auto].
  destruct (dit_pipeline E p) as [| |[|[| |label score] rest]]; simpl;
    split; try done; try (intros [|[|[? ?]]]; done); eauto.
Qed.

Lemma selected_backend_local_iff (E : env) (p : path) :
  selected_backend E p = LocalRecognizer <->
  IMAGE_CLASSIFIER_ready E = true
  /\ exists label score rest,
       dit_pipeline E p = PipelineList (Pred label score :: rest)
       /\ lower label = "handwritten"
       /\ (MIN_CONFIDENCE_SCORE <= score)%Q.
Proof.
  unfold selected_backend. rewrite route_local_iff.
  unfold classify_text_type_local.
  destruct (IMAGE_CLASSIFIER_ready E); simpl; [| by split; [| intros []]].
  destruct (dit_pipeline E p) as [| |[|[| |label score] rest]]; simpl;
    try (split; [done | by intros (_ & ? & ? & ? & ? & _)]).
  rewrite map_top_prediction_handwritten. split.
  - intros [Hl Hs]. split; [done |]. by exists label, score, rest.
  - intros (_ & l & s & r & [= <- <- <-] & Hl & Hs). done.
Qed.

Lemma added_In (P : event -> Prop) (t t' : list event) (e : event) :
  added P t t' -> In e t -> In e t'.
Proof. intros (new & -> & _) H. apply in_or_app. by right. Qed.

End Routing.

Section ItemProcessor.

Lemma llm_run_called (E : env) (p : path) (prompt : string) (w : world) :
  In (EvCloudLLM p prompt) (trace (get_transcription_from_llm E p prompt w).2).
Proof.
  unfold get_transcription_from_llm, configure_openai_api, image_to_base64,
    bind, emit, get_llm, set_llm, get_fs, ret, push. simpl.
  destruct (llm_OPENAI_API_CONFIGURED w) eqn:Hc, (llm_client w) eqn:Hk; simpl;
    rewrite ?Hc, ?Hk; simpl;
    destruct (OPENAI_API_KEY_set E), (OpenAI_ctor_ok E); simpl;
    destruct (is_file (fs w) p); simpl;
    try destruct (encode_image E p) as [url|]; simpl;
    try destruct (truthy url); simpl;
    try destruct (chat_completion E url prompt) as [| |content]; simpl;
    try destruct (truthy content); simpl; tauto.
Qed.

(** The events of one item: the entry mark, the classification, the calls
    of the selected backend and the persister's file operations. *)
Lemma process_single_image_trace (E : env) (p : path) (prompt : string)
    (out : option path) (w : world) :
  added (fun e => e = EvClassify p \/ fs_event e = true \/
                  match selected_backend E p with
                  | LocalRecognizer => local_event e = true
                  | CloudTranscriber => cloud_event e = true
                  end)
        (EvItem p :: trace w) (trace (process_single_image E p prompt out w).2).
Proof.
  rewrite process_single_image_unfold.
  destruct (validate_image_file (fs w) (PyPath p)); cbn [negb];
    [| apply added_refl].
  cbv zeta.
  set (P := fun e => e = EvClassify p \/ fs_event e = true \/
                     match selected_backend E p with
                     | LocalRecognizer => local_event e = true
                     | CloudTranscriber => cloud_event e = true
                     end).
  assert (added P (EvItem p :: trace w)
                (trace (push (EvClassify p) (push (EvItem p) w)))) as H2.
  { simpl. apply added_cons; [by left | apply added_refl]. }
  assert (forall t w3,
    added P (EvItem p :: trace w) (trace w3) ->
    added P (EvItem p :: trace w)
      (trace (let (saved, w4) :=
                save_transcription E t (PyPath p) (optional_path out) w3 in
              (match saved with Some _ => true | None => false end, w4)).2))
    as Hsave.
  { intros t w3 H3.
    destruct (save_transcription E t (PyPath p) (optional_path out) w3)
      as [saved w4] eqn:Hs.
    apply save_transcription_run in Hs as (_ & Hadd & _).
    eapply added_trans; [exact H3 |]. eapply added_mono; [| exact Hadd].
    intros e He. right. by left. }
  subst P. destruct (selected_backend E p) eqn:Hsel.
  - destruct (get_transcription_from_local_ocr E p _) as [t w3] eqn:Hl.
    apply local_ocr_run in Hl as (_ & Htr & _).
    assert (added (fun e => e = EvClassify p \/ fs_event e = true \/
                            local_event e = true)
                  (EvItem p :: trace w) (trace w3)) as H3.
    { rewrite Htr. apply added_cons; [by right; right | done]. }
    destruct t as [t|]; [by apply Hsave | done].
  - destruct (OPENAI_API_CONFIGURED E); cbn [negb]; [| done].
    destruct (get_transcription_from_llm E p prompt _) as [t w3] eqn:Hl.
    apply llm_run in Hl as (_ & _ & Hadd).
    assert (added (fun e => e = EvClassify p \/ fs_event e = true \/
                            cloud_event e = true)
                  (EvItem p :: trace w) (trace w3)) as H3.
    { eapply added_trans; [exact H2 |]. eapply added_mono; [| exact Hadd].
      intros e He. right. by right. }
    destruct t as [t|]; [by apply Hsave | done].
Qed.

(** No backend but the selected one is called. *)
Lemma process_single_image_events (E : env) (p : path) (prompt : string)
    (out : option path) (w : world) :
  added (fun e => match selected_backend E p with
                  | LocalRecognizer => cloud_event e = false
                  | CloudTranscriber => local_event e = false
                  end)
        (trace w) (trace (process_single_image E p prompt out w).2).
Proof.
  apply (added_trans _ _ (EvItem p :: trace w));
    [apply added_cons; [by destruct (selected_backend E p) | apply added_refl] |].
  eapply added_mono; [| apply process_single_image_trace].
  intros e [He | [He | He]]; destruct (selected_backend E p); by destruct e.
Qed.

(** C1: the top prediction "handwritten" with a score of at least the
    threshold 0.5 is routed to the local recognizer, and nothing else is:
    a score below the threshold gives "undetermined", and every label other
    than "handwritten" goes to the cloud transcriber. The same holds across
    the classifier, whose top label is the pipeline's label in lower case,
    and [process_single_image] calls no backend but the selected one. *)
Theorem C1_routing_by_label_and_confidence :
  (forall (top_label : string) (top_score : Q),
     route (map_top_prediction top_label top_score) = LocalRecognizer <->
     top_label = "handwritten" /\ (MIN_CONFIDENCE_SCORE <= top_score)%Q)
  /\ (forall (top_label : string) (top_score : Q),
        top_label <> "handwritten" \/ (top_score < MIN_CONFIDENCE_SCORE)%Q ->
        route (map_top_prediction top_label top_score) = CloudTranscriber)
  /\ (forall (top_label : string) (top_score : Q),
        (top_score < MIN_CONFIDENCE_SCORE)%Q ->
        map_top_prediction top_label top_score = "undetermined")
  /\ (MIN_CONFIDENCE_SCORE == 5 # 10)%Q
  /\ (forall (E : env) (p : path),
        selected_backend E p = LocalRecognizer <->
        IMAGE_CLASSIFIER_ready E = true
        /\ exists label score rest,
             dit_pipeline E p = PipelineList (Pred label score :: rest)
             /\ lower label = "handwritten"
             /\ (MIN_CONFIDENCE_SCORE <= score)%Q)
  /\ (forall (E : env) (p : path) (prompt : string) (out : option path) (w : world),
        let w' := (process_single_image E p prompt out w).2 in
        added (fun e => match selected_backend E p with
                        | LocalRecognizer => cloud_event e = false
                        | CloudTranscriber => local_event e = false
                        end) (trace w) (trace w')
        /\ (validate_image_file (fs w) (PyPath p) = true ->
            match selected_backend E p with
            | LocalRecognizer => In (EvLocalOCR p) (trace w')
            | CloudTranscriber =>
                OPENAI_API_CONFIGURED E = true -> In (EvCloudLLM p prompt) (trace w')
            end)).
Proof.
  split; [| split; [| split; [| split; [| split]]]].
  - intros l s. by rewrite route_local_iff, map_top_prediction_handwritten.
  - intros l s H. apply route_cloud_iff. rewrite map_top_prediction_handwritten.
    intros [Hl Hs]. destruct H as [H|H]; [done | by apply Qlt_not_le in H].
  - intros l s H. unfold map_top_prediction.
    by apply score_lt_true in H as ->.
  - reflexivity.
  - apply selected_backend_local_iff.
  - intros E p prompt out w w'. split; [apply process_single_image_events |].
    intros Hv. subst w'. rewrite process_single_image_unfold, Hv. cbn [negb]. cbv zeta.
    destruct (selected_backend E p).
    + destruct (get_transcription_from_local_ocr E p _) as [t w3] eqn:Hl.
      apply local_ocr_run in Hl as (_ & Htr & _).
      destruct t as [t|]; [| simpl; rewrite Htr; by left].
      destruct (save_transcription E t (PyPath p) (optional_path out) w3)
        as [saved w4] eqn:Hs.
      apply save_transcription_run in Hs as (_ & Hadd & _).
      simpl. eapply added_In; [exact Hadd |]. rewrite Htr. by left.
    + intros ->. cbn [negb].
      pose proof (llm_run_called E p prompt (push (EvClassify p) (push (EvItem p) w)))
        as Hin.
      destruct (get_transcription_from_llm E p prompt _) as [t w3].
      destruct t as [t|]; [| done].
      destruct (save_transcription E t (PyPath p) (optional_path out) w3)
        as [saved w4] eqn:Hs.
      apply save_transcription_run in Hs as (_ & Hadd & _).
      simpl. eapply added_In; [exact Hadd | done].
Qed.


(** C3: an item routed to the local recognizer whose local recognition
    fails is failed at once: [process_single_image] returns false, no event
    of the cloud path is added to the trace, and no file is written. *)
Theorem C3_local_failure_fails_item (E : env) (p : path) (prompt : string)
    (out : option path) (w : world) :
  selected_backend E p = LocalRecognizer ->
  (get_transcription_from_local_ocr E p w).1 = None ->
  (process_single_image E p prompt out w).1 = false
  /\ added (fun e => cloud_event e = false /\ write_event e = false)
           (trace w) (trace (process_single_image E p prompt out w).2)
  /\ fs (process_single_image E p prompt out w).2 = fs w.
Proof.
  intros Hsel Hfail. rewrite process_single_image_unfold, Hsel.
  destruct (validate_image_file (fs w) (PyPath p)); cbn [negb].
  - cbv zeta.
    destruct (get_transcription_from_local_ocr E p w) as [r0 w0] eqn:H0.
    apply local_ocr_run in H0 as (_ & _ & _ & _ & Hr0). simpl in Hfail.
    destruct (get_transcription_from_local_ocr E p _) as [t w3] eqn:Hl.
    apply local_ocr_run in Hl as (Hfs & Htr & _ & _ & Ht).
    simpl in Ht. rewrite <- Hr0, Hfail in Ht. subst t. simpl.
    split; [done |]. split; [| done].
    rewrite Htr. simpl. do 3 (apply added_cons; [done |]). apply added_refl.
  - simpl. split; [done |]. split; [| done].
    apply added_cons; [done | apply added_refl].
Qed.

(** A client that is not configured and cannot be configured: the call
    returns None after one attempt to configure, and no request is sent. *)
Lemma llm_not_ready (E : env) (p : path) (prompt : string) (w : world) :
  llm_OPENAI_API_CONFIGURED w && llm_client w = false ->
  OPENAI_API_KEY_set E && OpenAI_ctor_ok E = false ->
  (get_transcription_from_llm E p prompt w).1 = None
  /\ trace (get_transcription_from_llm E p prompt w).2
     = EvConfigure :: EvCloudLLM p prompt :: trace w
  /\ fs (get_transcription_from_llm E p prompt w).2 = fs w.
Proof.
  unfold get_transcription_from_llm, configure_openai_api, image_to_base64,
    bind, emit, get_llm, set_llm, get_fs, ret, push. simpl.
  destruct (llm_OPENAI_API_CONFIGURED w) eqn:Hc, (llm_client w) eqn:Hk; simpl;
    rewrite ?Hc, ?Hk; simpl; try done;
    destruct (OPENAI_API_KEY_set E), (OpenAI_ctor_ok E); simpl; done.
Qed.

(** C5: an item routed to the cloud transcriber while the OpenAI client is
    not configured is failed. When the flag the tool imported is off,
    [process_single_image] returns false without calling a backend,
    configuring again or writing, and the world keeps its files and the
    state of its modules. When the client of [llm_handler] is not configured
    and cannot be configured, the item is failed too, and no request is
    sent and nothing is written. *)
Theorem C5_cloud_not_configured_fails_item (E : env) (p : path) (prompt : string)
    (out : option path) (w : world) :
  selected_backend E p = CloudTranscriber ->
  (OPENAI_API_CONFIGURED E = false ->
   (process_single_image E p prompt out w).1 = false
   /\ added (fun e => cloud_event e = false /\ local_event e = false
                      /\ write_event e = false)
            (trace w) (trace (process_single_image E p prompt out w).2)
   /\ fs (process_single_image E p prompt out w).2 = fs w
   /\ same_modules w (process_single_image E p prompt out w).2)
  /\ (llm_OPENAI_API_CONFIGURED w && llm_client w = false ->
      OPENAI_API_KEY_set E && OpenAI_ctor_ok E = false ->
      (process_single_image E p prompt out w).1 = false
      /\ added (fun e => api_request_event e = false /\ local_event e = false
                         /\ write_event e = false)
               (trace w) (trace (process_single_image E p prompt out w).2)
      /\ fs (process_single_image E p prompt out w).2 = fs w).
Proof.
  intros Hsel. split.
  - intros Hconf. rewrite process_single_image_unfold, Hsel, Hconf.
    destruct (validate_image_file (fs w) (PyPath p)); cbn [negb]; simpl;
      (split; [done |]); (split; [| by repeat split]);
      repeat (apply added_cons; [done |]); apply added_refl.
  - intros Hstate Hkey. rewrite process_single_image_unfold, Hsel.
    destruct (validate_image_file (fs w) (PyPath p)); cbn [negb];
      [| simpl; (split; [done |]); (split; [| done]);
         apply added_cons; [done | apply added_refl]].
    cbv zeta.
    destruct (OPENAI_API_CONFIGURED E); cbn [negb];
      [| simpl; (split; [done |]); (split; [| done]);
         repeat (apply added_cons; [done |]); apply added_refl].
    destruct (llm_not_ready E p prompt (push (EvClassify p) (push (EvItem p) w))
                Hstate Hkey) as (Hr & Htr & Hfs).
    destruct (get_transcription_from_llm E p prompt _) as [r w3].
    simpl in Hr, Htr, Hfs. subst r. simpl.
    split; [done |]. split; [| done].
    rewrite Htr. repeat (apply added_cons; [done |]). apply added_refl.
Qed.

(** C4: when the classifier gives no answer the item is processed as
    "undetermined" and goes to the cloud transcriber; what
    [process_single_image] returns is then decided by the other gates only
    (validation, the configured client, the cloud transcription and the
    saving). *)
Theorem C4_classifier_failure_not_fatal (E : env) (p : path) (prompt : string)
    (out : option path) (w : world) :
  (classify_text_type_local E p).1 = None ->
  effective_image_type (classify_text_type_local E p).1 = "undetermined"
  /\ selected_backend E p = CloudTranscriber
  /\ (process_single_image E p prompt out w).1 =
     validate_image_file (fs w) (PyPath p)
     && OPENAI_API_CONFIGURED E
     && match get_transcription_from_llm E p prompt
                (push (EvClassify p) (push (EvItem p) w)) with
        | (Some t, w3) =>
            bool_decide
              (is_Some (save_transcription E t (PyPath p) (optional_path out) w3).1)
        | (None, _) => false
        end.
Proof.
  intros Hnone.
  assert (selected_backend E p = CloudTranscriber) as Hsel
    by (unfold selected_backend; by rewrite Hnone).
  split; [by rewrite Hnone |]. split; [done |].
  rewrite process_single_image_unfold, Hsel.
  destruct (validate_image_file (fs w) (PyPath p)); cbn [negb andb]; [| done].
  destruct (OPENAI_API_CONFIGURED E); cbn [negb andb]; [| done]. cbv zeta.
  destruct (get_transcription_from_llm E p prompt _) as [[t|] w3]; [| done].
  by destruct (save_transcription E t (PyPath p) (optional_path out) w3)
    as [[?|] ?].
Qed.

(** C7: when [process_single_image] returns true, the selected backend
    returned a text, and the file at the output path, whose stem is the
    image's stem, holds exactly that text. *)
Theorem C7_output_holds_backend_text (E : env) (p : path) (prompt : string)
    (out : option path) (w w' : world) :
  process_single_image E p prompt out w = (true, w') ->
  exists text,
    match selected_backend E p with
    | LocalRecognizer =>
        (get_transcription_from_local_ocr E p
           (push (EvClassify p) (push (EvItem p) w))).1 = Some text
    | CloudTranscriber =>
        (get_transcription_from_llm E p prompt
           (push (EvClassify p) (push (EvItem p) w))).1 = Some text
    end
    /\ fs w' !! output_path p out = Some (File text)
    /\ name (output_path p out) = stem p +:+ ".txt"
    /\ stem (output_path p out) = stem p.
Proof.
  rewrite process_single_image_unfold.
  destruct (validate_image_file (fs w) (PyPath p)) eqn:Hv; cbn [negb]; [| done].
  apply validate_image_file_true in Hv as [_ Hext].
  assert (stem (output_path p out) = stem p) as Hstem.
  { unfold output_path. apply stem_joinpath_txt.
    by apply supported_stem_nonempty. }
  assert (forall t w3,
    (let (saved, w4) := save_transcription E t (PyPath p) (optional_path out) w3 in
     (match saved with Some _ => true | None => false end, w4)) = (true, w') ->
    fs w' !! output_path p out = Some (File t)) as Hsave.
  { intros t w3.
    destruct (save_transcription E t (PyPath p) (optional_path out) w3)
      as [saved w4] eqn:Hs.
    apply save_transcription_run in Hs as (_ & _ & _ & Hr & Hc).
    destruct saved as [tp|]; [| done]. intros [= <-].
    destruct Hr as [Hr|Hr]; [done |]. by apply Hc. }
  cbv zeta.
  destruct (selected_backend E p).
  - destruct (get_transcription_from_local_ocr E p _) as [[t|] w3]; [| done].
    intros Hrun. exists t. repeat split; [by eapply Hsave | apply name_joinpath | done].
  - destruct (OPENAI_API_CONFIGURED E); cbn [negb]; [| done].
    destruct (get_transcription_from_llm E p prompt _) as [[t|] w3]; [| done].
    intros Hrun. exists t. repeat split; [by eapply Hsave | apply name_joinpath | done].
Qed.

End ItemProcessor.

(** ** The persister *)

Section Persister.

Lemma iter_parent (a : string) (rt : list string) (k : nat) :
  Nat.iter k parent (Path a (rev rt)) = Path a (rev (drop k rt)).
Proof.
  induction k as [|k IH]; [by rewrite drop_0 |].
  simpl. rewrite IH.
  replace (drop (S k) rt) with (drop 1 (drop k rt))
    by (rewrite drop_drop; f_equal; lia).
  destruct (drop k rt) as [|y l]; [done |].
  simpl. by rewrite parent_snoc.
Qed.

(** [mkdir] goes through when the system lets every directory be made and
    no regular file is in the way. *)
Lemma mkdir_rec_succeeds (E : env) (a : string) (rt : list string) :
  forall f : filesystem,
    (forall q, os_mkdir_ok E q = true) ->
    (forall k c, stat f (Path a (rev (drop k rt))) <> Some (File c)) ->
    (mkdir_rec E a rt f).1 = true.
Proof.
  induction rt as [|x rp IH]; intros f Hos Hfree; [done |].
  cbn [mkdir_rec].
  pose proof (Hfree 0%nat) as H0. rewrite drop_0 in H0.
  simpl rev in *. rewrite stat_snoc in H0.
  destruct (f !! Path a (rev rp ++ [x])) as [[c|]|] eqn:Hself;
    [by destruct (H0 c) | done |].
  pose proof (Hfree 1%nat) as H1. simpl in H1.
  destruct (stat f (Path a (rev rp))) as [[c|]|] eqn:Hpar;
    [by destruct (H1 c) | by rewrite Hos |].
  assert ((mkdir_rec E a rp f).1 = true) as Hrec.
  { apply IH; [done |]. intros k c. apply (Hfree (S k) c). }
  destruct (mkdir_rec E a rp f) as [ok1 f1]. simpl in Hrec. subst ok1.
  by rewrite Hos.
Qed.

Lemma stat_insert_file (f : filesystem) (p x : path) (c : string) :
  stat f p <> Some Dir -> stat f x = Some Dir ->
  stat (<[p := File c]> f) x = Some Dir.
Proof.
  unfold stat. intros Hp Hx. destruct (tail x) eqn:Htx; [done |].
  destruct (decide (p = x)) as [->|Hne].
  - rewrite Htx in Hp. done.
  - by rewrite lookup_insert_ne.
Qed.

Lemma is_dir_stat (f : filesystem) (p : path) :
  is_dir f p = true <-> stat f p = Some Dir.
Proof. unfold is_dir. destruct (stat f p) as [[]|]; split; done. Qed.

(** C6: the persister writes to (the output directory if one is given,
    else the image's directory) / (the image's stem + ".txt"). A given
    output directory is made first, with its parents: when that fails the
    persister fails and the only thing it did is the [mkdir] call; when it
    is done the directory is there (and, in a well-formed file system, so is
    every ancestor). A successful call leaves the text in the file, also
    when a file was there before. *)
Theorem C6_save_transcription_contract (E : env) (text : string) (image : path)
    (out : option path) (w : world) :
  let run := save_transcription E text (PyPath image) (optional_path out) w in
  let target := output_path image out in
  (run.1 = None \/ run.1 = Some target)
  /\ (run.1 = Some target -> fs run.2 !! target = Some (File text))
  /\ (forall d, out = Some d ->
        let made := mkdir_rec E (anchor d) (rev (tail d)) (fs w) in
        (made.1 = true ->
           is_dir (fs run.2) d = true
           /\ (well_formed (fs w) ->
               forall k, is_dir (fs run.2) (Nat.iter k parent d) = true))
        /\ (made.1 = false ->
            run.1 = None
            /\ trace run.2 = EvMkdir d :: trace w
            /\ forall q c, fs run.2 !! q = Some (File c) <-> fs w !! q = Some (File c))
        /\ ((forall q, os_mkdir_ok E q = true) ->
            (forall k c, stat (fs w) (Nat.iter k parent d) <> Some (File c)) ->
            made.1 = true))
  /\ (out = None -> trace run.2 = EvOpenWrite target :: trace w)
  /\ (forall old,
        fs w !! target = Some (File old) ->
        is_dir (fs w) (parent target) = true ->
        os_open_w_ok E target = true ->
        os_write_ok E target text = true ->
        run.1 = Some target /\ fs run.2 !! target = Some (File text)).
Proof.
  intros run target.
  destruct run as [r w'] eqn:Hrun. subst run. cbn [fst snd].
  pose proof (save_transcription_run _ _ _ _ _ _ _ Hrun)
    as (_ & _ & _ & Hr & Hc).
  split; [done |]. split; [done |].
  split; [| split].
  - intros d ->. cbv zeta.
    unfold save_transcription, bind, ret in Hrun. cbn [optional_path] in Hrun.
    destruct (mkdir_parents E d w) as [ok w1] eqn:Hm.
    apply mkdir_parents_run in Hm as (Hrec & Htr & _).
    rewrite Hrec. cbn [fst snd].
    split; [| split].
    + intros ->.
      destruct (write_text E _ text w1) as [okw w2] eqn:Hw.
      apply write_text_run in Hw as (_ & _ & _ & _ & Hfs).
      injection Hrun as _ <-.
      pose proof (mkdir_rec_is_dir _ _ _ _ _ Hrec) as Hd.
      rewrite rev_involutive in Hd.
      assert (forall x, stat (fs w1) x = Some Dir -> stat (fs w2) x = Some Dir)
        as Hkeep.
      { intros x Hx. destruct Hfs as [-> | (Hst & c & ->)]; [done |].
        by apply stat_insert_file. }
      split.
      * apply is_dir_stat, Hkeep. by destruct d.
      * intros Hwf k. apply is_dir_stat, Hkeep.
        apply well_formed_ancestors; [by eapply mkdir_rec_well_formed |].
        by destruct d.
    + intros ->. injection Hrun as <- <-.
      split; [done |]. split; [done |]. by eapply mkdir_rec_files.
    + intros Hos Hfree.
      pose proof (mkdir_rec_succeeds E (anchor d) (rev (tail d)) (fs w) Hos) as Hs.
      rewrite Hrec in Hs. apply Hs. intros k c.
      specialize (Hfree k c).
      replace d with (Path (anchor d) (rev (rev (tail d)))) in Hfree
        by (rewrite rev_involutive; by destruct d).
      by rewrite iter_parent in Hfree.
  - intros ->.
    unfold save_transcription, bind, ret in Hrun. cbn [optional_path] in Hrun.
    destruct (write_text E _ text w) as [okw w2] eqn:Hw.
    apply write_text_run in Hw as (Htr & _).
    by injection Hrun as _ <-.
  - intros old Hold Hpar Hopen Hwrite.
    assert (r = Some target) as ->; [| by auto].
    subst target. unfold output_path in *.
    set (d := match out with Some d => d | None => parent image end) in *.
    rewrite parent_joinpath in Hpar.
    assert (forall w1, fs w1 = fs w ->
      (write_text E (joinpath d (stem image +:+ ".txt")) text w1).1 = true) as Hw.
    { intros w1 Hfs.
      destruct (write_text E _ text w1) as [okw w2] eqn:Hw.
      apply write_text_run in Hw as (_ & _ & Hok & _). apply Hok.
      rewrite Hfs, parent_joinpath, stat_joinpath, Hold. by repeat split. }
    unfold save_transcription, bind, ret in Hrun.
    subst d. destruct out as [d|]; cbn [optional_path] in Hrun.
    + destruct (mkdir_parents E d w) as [ok w1] eqn:Hm.
      apply mkdir_parents_run in Hm as (Hrec & _).
      rewrite (mkdir_rec_existing _ _ _ Hpar) in Hrec. injection Hrec as <- Hfs.
      specialize (Hw w1 (eq_sym Hfs)).
      destruct (write_text E _ text w1) as [okw w2]. simpl in Hw. subst okw.
      by injection Hrun as <- _.
    + specialize (Hw w eq_refl).
      destruct (write_text E _ text w) as [okw w2]. simpl in Hw. subst okw.
      by injection Hrun as <- _.
Qed.

End Persister.

(** ** The prompt *)

Section Prompt.

Lemma load_prompt_file_run (E : env) (p : path) (content : string) (w : world) :
  stat (fs w) p = Some (File content) ->
  os_read_ok E p = true ->
  load_prompt_file E (PyPath p) w
  = (Some (strip (universal_newlines content)), push (EvOpenRead p) w).
Proof.
  intros Hst Hok.
  unfold load_prompt_file, read_text, bind, emit, get_fs, ret, is_file.
  cbn [fs push]. rewrite Hst. cbn [negb]. by rewrite Hst, Hok.
Qed.

Lemma get_prompt_content_run (E : env) (arg : option path) (content : string)
    (w : world) :
  stat (fs w) (prompt_to_load E arg) = Some (File content) ->
  os_read_ok E (prompt_to_load E arg) = true ->
  get_prompt_content E arg w
  = (if truthy (strip (universal_newlines content))
     then Some (strip (universal_newlines content)) else None,
     push (EvOpenRead (prompt_to_load E arg)) w).
Proof.
  intros Hst Hok. unfold get_prompt_content, bind, ret.
  fold (prompt_to_load E arg).
  rewrite (load_prompt_file_run _ _ _ _ Hst Hok).
  by destruct (truthy (strip (universal_newlines content))).
Qed.

(** C9: the prompt loader returns the content of the file, as text mode
    reads it, stripped of leading and trailing whitespace, so a file of
    whitespace only (or an empty one) loads as the empty string, not as a
    failure;
    [get_prompt_content] then returns None for it, and [main] exits with
    status 1. *)
Theorem C9_blank_prompt_is_fatal (E : env) (arg : option path) (content : string)
    (w : world) :
  stat (fs w) (prompt_to_load E arg) = Some (File content) ->
  os_read_ok E (prompt_to_load E arg) = true ->
  (load_prompt_file E (PyPath (prompt_to_load E arg)) w).1
  = Some (strip (universal_newlines content))
  /\ (all_space content = true ->
      (load_prompt_file E (PyPath (prompt_to_load E arg)) w).1 = Some EmptyString
      /\ (get_prompt_content E arg w).1 = None
      /\ forall a : args, prompt_file a = arg -> (main E a w).1 = 1).
Proof.
  intros Hst Hok.
  rewrite (load_prompt_file_run _ _ _ _ Hst Hok). split; [done |].
  intros Hblank.
  assert (strip (universal_newlines content) = EmptyString) as Hstrip
    by (apply strip_all_space; by rewrite all_space_universal_newlines).
  rewrite Hstrip. split; [done |].
  assert (forall w1, stat (fs w1) (prompt_to_load E arg) = Some (File content) ->
                     (get_prompt_content E arg w1).1 = None) as Hget.
  { intros w1 H1. rewrite (get_prompt_content_run _ _ _ _ H1 Hok).
    by rewrite Hstrip. }
  split; [by apply Hget |].
  intros a <-. unfold main, bind, ret.
  destruct (output_dir a) as [d|].
  - destruct (mkdir_parents E d w) as [ok w1] eqn:Hm.
    apply mkdir_parents_run in Hm as (Hrec & _).
    destruct ok; cbn [negb]; [| done].
    assert (stat (fs w1) (prompt_to_load E (prompt_file a)) = Some (File content))
      as H1.
    { unfold stat in *. destruct (tail (prompt_to_load E (prompt_file a))); [done |].
      by apply (mkdir_rec_files _ _ _ _ _ _ Hrec). }
    specialize (Hget w1 H1).
    destruct (get_prompt_content E (prompt_file a) w1) as [r w2].
    simpl in Hget. by subst r.
  - cbn [negb]. specialize (Hget w Hst).
    destruct (get_prompt_content E (prompt_file a) w) as [r w2].
    simpl in Hget. by subst r.
Qed.

End Prompt.

(** ** The batch *)

Section Batch.

(** [iterdir] lists the immediate entries of the directory, each once. *)
Lemma iterdir_spec (f : filesystem) (d q : path) :
  In q (iterdir f d) <-> is_Some (f !! q) /\ tail q <> [] /\ parent q = d.
Proof.
  unfold iterdir. rewrite filter_In, andb_true_iff, !bool_decide_eq_true.
  rewrite <- list_elem_of_In, list_elem_of_fmap. split.
  - intros [([q' n] & -> & Hin) [Ht Hp]]. apply elem_of_map_to_list in Hin.
    simpl in *. eauto.
  - intros ([n Hn] & Ht & Hp). split; [| done].
    exists (q, n). split; [done |]. by apply elem_of_map_to_list.
Qed.

Lemma iterdir_exists (f : filesystem) (d q : path) :
  In q (iterdir f d) -> is_Some (f !! q).
Proof. by intros (H & _)%iterdir_spec. Qed.



Lemma kind_stable_is_file (f f' : filesystem) (q : path) :
  kind_stable f f' -> is_Some (f !! q) -> is_file f' q = is_file f q.
Proof.
  intros Hks [n Hn]. destruct (Hks q n Hn) as (n' & Hn' & Hk).
  unfold is_file, stat. destruct (tail q); [done |].
  rewrite Hn, Hn'. by destruct n, n'.
Qed.

Lemma process_single_image_kind_stable (E : env) (p : path) (prompt : string)
    (out : option path) (w : world) :
  kind_stable (fs w) (fs (process_single_image E p prompt out w).2).
Proof.
  rewrite process_single_image_unfold.
  destruct (validate_image_file (fs w) (PyPath p)); cbn [negb];
    [| apply kind_stable_refl].
  cbv zeta.
  assert (forall t w3, fs w3 = fs w ->
    kind_stable (fs w)
      (fs (let (saved, w4) :=
             save_transcription E t (PyPath p) (optional_path out) w3 in
           (match saved with Some _ => true | None => false end, w4)).2))
    as Hsave.
  { intros t w3 H3.
    destruct (save_transcription E t (PyPath p) (optional_path out) w3)
      as [saved w4] eqn:Hs.
    apply save_transcription_run in Hs as (_ & _ & Hks & _). by rewrite <- H3. }
  destruct (selected_backend E p).
  - destruct (get_transcription_from_local_ocr E p _) as [t w3] eqn:Hl.
    apply local_ocr_run in Hl as (Hfs & _).
    destruct t as [t|]; [by apply Hsave |].
    simpl. rewrite Hfs. apply kind_stable_refl.
  - destruct (OPENAI_API_CONFIGURED E); cbn [negb]; [| apply kind_stable_refl].
    destruct (get_transcription_from_llm E p prompt _) as [t w3] eqn:Hl.
    apply llm_run in Hl as (Hfs & _).
    destruct t as [t|]; [by apply Hsave |].
    simpl. rewrite Hfs. apply kind_stable_refl.
Qed.


Lemma items_started_added (t t' : list event) :
  added (fun e => item_event e = false) t t' -> items_started t' = items_started t.
Proof.
  intros (new & -> & Hnew). unfold items_started.
  rewrite rev_app_distr, omap_app.
  assert (omap (fun e => match e with EvItem q => Some q | _ => None end) (rev new)
          = []) as ->; [| by rewrite app_nil_r].
  apply Forall_rev in Hnew.
  induction Hnew as [|e l He _ IH]; [done |].
  simpl. by destruct e.
Qed.




(** The loop over the entries does what processing the considered entries
    in turn does, whatever each of them returns. *)
Lemma directory_loop_run (E : env) (prompt : string) (o : path) (f0 : filesystem)
    (items : list path) :
  forall (c : counters) (w : world),
    (forall q, In q items -> is_Some (f0 !! q)) ->
    kind_stable f0 (fs w) ->
    directory_loop E prompt o items c w
    = (fold_left bump
         (item_results E prompt o
            (List.filter
               (fun q => is_file f0 q
                         && str_in (lower (suffix q)) SUPPORTED_IMAGE_EXTENSIONS)
               items) w).1 c,
       (item_results E prompt o
          (List.filter
             (fun q => is_file f0 q
                       && str_in (lower (suffix q)) SUPPORTED_IMAGE_EXTENSIONS)
             items) w).2).
Proof.
  induction items as [|i rest IH]; intros c w Hex Hks; [done |].
  cbn [directory_loop List.filter]. unfold bind, get_fs.
  rewrite (kind_stable_is_file f0 (fs w) i Hks) by (apply Hex; by left).
  destruct (is_file f0 i
            && str_in (lower (suffix i)) SUPPORTED_IMAGE_EXTENSIONS).
  - cbn [item_results]. unfold bind, ret.
    pose proof (process_single_image_kind_stable E i prompt (Some o) w) as Hks1.
    destruct (process_single_image E i prompt (Some o) w) as [ok w1].
    simpl in Hks1.
    rewrite IH;
      [| intros q Hq; apply Hex; by right | by eapply kind_stable_trans].
    destruct (item_results E prompt o _ w1) as [oks w2].
    by destruct ok.
  - apply IH; [intros q Hq; apply Hex; by right | done].
Qed.

Lemma fold_bump (results : list bool) :
  forall c,
    processed_files_count (fold_left bump results c)
    = (processed_files_count c + length results)%nat
    /\ successful_files_count (fold_left bump results c)
      = (successful_files_count c + count_succeeded results)%nat
    /\ failed_files_count (fold_left bump results c)
      = (failed_files_count c + count_failed results)%nat
    /\ found_image_files (fold_left bump results c)
      = found_image_files c || bool_decide (results <> []).
Proof.
  unfold count_succeeded, count_failed.
  induction results as [|ok rest IH]; intros c.
  - simpl. rewrite !Nat.add_0_r, orb_false_r. done.
  - cbn [fold_left]. destruct (IH (bump c ok)) as (-> & -> & -> & ->).
    destruct ok; simpl; rewrite ?orb_true_r; repeat split; lia.
Qed.



End Batch.

(** ** The run, worked through *)

Example validator_on_the_run :
  validate_image_file Scenario.files (PyPath Scenario.broken) = true
  /\ validate_image_file Scenario.files (PyPath Scenario.scans) = false
  /\ validate_image_file Scenario.files
       (PyPath (joinpath Scenario.batch "archive.jpg")) = false
  /\ validate_image_file Scenario.files
       (PyPath (joinpath Scenario.batch "notes.png")) = false
  /\ validate_image_file Scenario.files
       (PyPath (joinpath Scenario.scans "missing.jpg")) = false.
Proof. cbv zeta. repeat apply conj; vm_compute; reflexivity. Qed.

Example routing_on_the_run :
  selected_backend (Scenario.collaborators true) Scenario.photo = LocalRecognizer
  /\ selected_backend (Scenario.collaborators true) Scenario.form = CloudTranscriber
  /\ selected_backend (Scenario.collaborators true) Scenario.blurry = CloudTranscriber
  /\ selected_backend (Scenario.collaborators true) Scenario.report = LocalRecognizer
  /\ selected_backend (Scenario.collaborators true) Scenario.broken = CloudTranscriber.
Proof. cbv zeta. repeat apply conj; vm_compute; reflexivity. Qed.

Example persister_makes_the_directories :
  let run := save_transcription (Scenario.collaborators true) "Dear Sir"
               (PyPath Scenario.photo) (PyPath (Path "" ["out"; "texts"]))
               (Scenario.start true) in
  run.1 = Some (Path "" ["out"; "texts"; "photo.txt"])
  /\ fs run.2 !! Path "" ["out"] = Some Dir
  /\ fs run.2 !! Path "" ["out"; "texts"] = Some Dir
  /\ fs run.2 !! Path "" ["out"; "texts"; "photo.txt"] = Some (File "Dear Sir").
Proof. cbv zeta. repeat apply conj; vm_compute; reflexivity. Qed.

Example persister_overwrites :
  let run := save_transcription (Scenario.collaborators true) "Dear Sir"
               (PyPath Scenario.photo) PyNone (Scenario.start true) in
  Scenario.files !! joinpath Scenario.scans "photo.txt"
  = Some (File "an older transcription")
  /\ run.1 = Some (joinpath Scenario.scans "photo.txt")
  /\ fs run.2 !! joinpath Scenario.scans "photo.txt" = Some (File "Dear Sir").
Proof. cbv zeta. repeat apply conj; vm_compute; reflexivity. Qed.


Lemma C3_local_failure_fails_item_witness :
  let E := Scenario.collaborators true in
  let w := Scenario.start true in
  selected_backend E Scenario.report = LocalRecognizer
  /\ (get_transcription_from_local_ocr E Scenario.report w).1 = None
  /\ (process_single_image E Scenario.report "prompt" None w).1 = false
  /\ added (fun e => cloud_event e = false /\ write_event e = false)
           (trace w) (trace (process_single_image E Scenario.report "prompt" None w).2)
  /\ fs (process_single_image E Scenario.report "prompt" None w).2 = fs w.
Proof.
  intros E w.
  assert (selected_backend E Scenario.report = LocalRecognizer) as Hsel
    by (vm_compute; reflexivity).
  assert ((get_transcription_from_local_ocr E Scenario.report w).1 = None) as Hfail
    by (vm_compute; reflexivity).
  split; [exact Hsel |]. split; [exact Hfail |].
  exact (C3_local_failure_fails_item E Scenario.report "prompt" None w Hsel Hfail).
Defined.

Lemma C4_classifier_failure_not_fatal_witness :
  let E := Scenario.collaborators true in
  let w := Scenario.start true in
  (classify_text_type_local E Scenario.broken).1 = None
  /\ selected_backend E Scenario.broken = CloudTranscriber
  /\ (process_single_image E Scenario.broken "prompt" None w).1 = true.
Proof.
  intros E w.
  assert ((classify_text_type_local E Scenario.broken).1 = None) as Hnone
    by (vm_compute; reflexivity).
  destruct (C4_classifier_failure_not_fatal E Scenario.broken "prompt" None w Hnone)
    as (_ & Hsel & Hrun).
  split; [exact Hnone |]. split; [exact Hsel |].
  refine (eq_trans Hrun _). vm_compute. reflexivity.
Defined.

Lemma C5_cloud_not_configured_fails_item_witness :
  let E := Scenario.collaborators false in
  let w := Scenario.start false in
  selected_backend E Scenario.form = CloudTranscriber
  /\ OPENAI_API_CONFIGURED E = false
  /\ (process_single_image E Scenario.form "prompt" None w).1 = false
  /\ fs (process_single_image E Scenario.form "prompt" None w).2 = fs w.
Proof.
  intros E w.
  assert (selected_backend E Scenario.form = CloudTranscriber) as Hsel
    by (vm_compute; reflexivity).
  assert (OPENAI_API_CONFIGURED E = false) as Hconf by reflexivity.
  destruct (C5_cloud_not_configured_fails_item E Scenario.form "prompt" None w Hsel)
    as (Hflag & Hclient).
  destruct (Hflag Hconf) as (Hres & _ & Hfs & _).
  destruct (Hclient eq_refl eq_refl) as (_ & _ & _).
  split; [exact Hsel |]. split; [exact Hconf |]. split; [exact Hres | exact Hfs].
Defined.

Lemma C7_output_holds_backend_text_witness :
  let E := Scenario.collaborators true in
  let w := Scenario.start true in
  let w' := (process_single_image E Scenario.photo "prompt" None w).2 in
  process_single_image E Scenario.photo "prompt" None w = (true, w')
  /\ output_path Scenario.photo None = joinpath Scenario.scans "photo.txt"
  /\ fs w' !! output_path Scenario.photo None = Some (File "Dear Sir")
  /\ stem (output_path Scenario.photo None) = stem Scenario.photo.
Proof.
  intros E w w'.
  assert ((process_single_image E Scenario.photo "prompt" None w).1 = true) as Hres
    by (vm_compute; reflexivity).
  assert (process_single_image E Scenario.photo "prompt" None w = (true, w')) as Hrun.
  { subst w'. destruct (process_single_image E Scenario.photo "prompt" None w) as [b w1].
    simpl in Hres. by subst b. }
  split; [exact Hrun |]. split; [vm_compute; reflexivity |].
  destruct (C7_output_holds_backend_text E Scenario.photo "prompt" None w w' Hrun)
    as (text & Hbackend & Hfile & _ & Hstem).
  vm_compute in Hbackend.
 injection Hbackend as <-.
  split; [exact Hfile | exact Hstem].
Defined.

Lemma C9_blank_prompt_is_fatal_witness :
  let E := Scenario.collaborators true in
  let w := Scenario.start true in
  let a := Args None (Some Scenario.batch) (Some Scenario.blank_prompt) None in
  (load_prompt_file E (PyPath Scenario.blank_prompt) w).1 = Some EmptyString
  /\ (get_prompt_content E (Some Scenario.blank_prompt) w).1 = None
  /\ (main E a w).1 = 1.
Proof.
  intros E w a.
  assert (stat (fs w) (prompt_to_load E (Some Scenario.blank_prompt))
          = Some (File (String " " (String "010" (String "009" EmptyString)))))
    as Hst by (vm_compute; reflexivity).
  assert (os_read_ok E (prompt_to_load E (Some Scenario.blank_prompt)) = true)
    as Hok by reflexivity.
  destruct (C9_blank_prompt_is_fatal E (Some Scenario.blank_prompt) _ w Hst Hok)
    as (_ & Hblank).
  destruct (Hblank eq_refl) as (Hload & Hget & Hmain).
  split; [exact Hload |]. split; [exact Hget |]. exact (Hmain a eq_refl).
Defined.

(** * Further properties of the code *)

(** ** Stripping *)

Section Stripping.

Lemma lstrip_empty_iff (s : string) :
  lstrip s = EmptyString <-> all_space s = true.
Proof.
  induction s as [|c s IH]; simpl; [done |].
  destruct (isspace c); simpl; [done | split; done].
Qed.

Lemma rstrip_empty_iff (s : string) :
  rstrip s = EmptyString <-> all_space s = true.
Proof.
  split; [| apply rstrip_all_space].
  induction s as [|c s IH]; simpl; [done |].
  destruct (rstrip s) as [|c' r]; [| done].
  destruct (isspace c); [| done]. intros _. by apply IH.
Qed.

Lemma rstrip_all_space_inv (s : string) :
  all_space (rstrip s) = true -> rstrip s = EmptyString.
Proof.
  induction s as [|c s IH]; simpl; [done |].
  destruct (rstrip s) as [|c' r] eqn:Hr.
  - destruct (isspace c) eqn:Hc; [done |]. simpl. by rewrite Hc.
  - simpl. intros [_ H]%andb_true_iff. by specialize (IH H).
Qed.

Lemma strip_empty_iff (s : string) :
  strip s = EmptyString <-> all_space s = true.
Proof.
  unfold strip. rewrite lstrip_empty_iff. split.
  - intros H. by apply rstrip_empty_iff, rstrip_all_space_inv.
  - intros H. by rewrite rstrip_all_space.
Qed.

Lemma lstrip_idem (s : string) : lstrip (lstrip s) = lstrip s.
Proof.
  induction s as [|c s IH]; simpl; [done |].
  destruct (isspace c) eqn:Hc; [done |]. simpl. by rewrite Hc.
Qed.

Lemma rstrip_idem (s : string) : rstrip (rstrip s) = rstrip s.
Proof.
  induction s as [|c s IH]; simpl; [done |].
  destruct (rstrip s) as [|c' r] eqn:Hr.
  - destruct (isspace c) eqn:Hc; [done |]. simpl. by rewrite Hc.
  - cbn [rstrip]. cbn [rstrip] in IH. by rewrite IH.
Qed.

(** Stripping on the left keeps a right end that is clean. *)
Lemma rstrip_lstrip_fixed (t : string) :
  rstrip t = t -> rstrip (lstrip t) = lstrip t.
Proof.
  induction t as [|c t IH]; [done |].
  intros Hfix. cbn [lstrip]. destruct (isspace c) eqn:Hc; [| done].
  apply IH. cbn [rstrip] in Hfix.
  destruct (rstrip t) as [|c' r]; [by rewrite Hc in Hfix | by injection Hfix].
Qed.

Lemma strip_idem (s : string) : strip (strip s) = strip s.
Proof.
  unfold strip.
  rewrite (rstrip_lstrip_fixed (rstrip s)) by apply rstrip_idem.
  apply lstrip_idem.
Qed.

Lemma truthy_true_iff (s : string) : truthy s = true <-> s <> EmptyString.
Proof. destruct s; split; done. Qed.

End Stripping.

(** ** Loading the prompt *)

Section PromptLoading.

Lemma load_prompt_file_some_iff (E : env) (p : path) (w : world) (c : string) :
  (load_prompt_file E (PyPath p) w).1 = Some c <->
  exists content,
    stat (fs w) p = Some (File content) /\ os_read_ok E p = true
    /\ c = strip (universal_newlines content).
Proof.
  unfold load_prompt_file, read_text, bind, emit, get_fs, ret, is_file.
  cbn [fs push].
  destruct (stat (fs w) p) as [[content|]|] eqn:Hst; cbn [negb fst].
  - rewrite Hst. destruct (os_read_ok E p); cbn [fst]; split.
    + intros [= <-]. by exists content.
    + by intros (content' & [= <-] & _ & ->).
    + done.
    + by intros (? & _ & ? & _).
  - split; [done | by intros (? & ? & _)].
  - split; [done | by intros (? & ? & _)].
Qed.

Lemma load_prompt_file_fs (E : env) (p : path) (w : world) :
  fs (load_prompt_file E (PyPath p) w).2 = fs w.
Proof.
  unfold load_prompt_file, read_text, bind, emit, get_fs, ret, is_file.
  cbn [fs push].
  destruct (stat (fs w) p) as [[content|]|] eqn:Hst; cbn [negb snd]; try done.
  rewrite Hst. by destruct (os_read_ok E p).
Qed.

Lemma get_prompt_content_some_iff (E : env) (arg : option path) (w : world)
    (c : string) :
  (get_prompt_content E arg w).1 = Some c <->
  exists content,
    stat (fs w) (prompt_to_load E arg) = Some (File content)
    /\ os_read_ok E (prompt_to_load E arg) = true
    /\ all_space content = false
    /\ c = strip (universal_newlines content).
Proof.
  unfold get_prompt_content, bind, ret.
  fold (prompt_to_load E arg).
  pose proof (load_prompt_file_some_iff E (prompt_to_load E arg) w) as Hload.
  assert (forall content,
            strip (universal_newlines content) <> EmptyString
            <-> all_space content = false) as Hblank.
  { intros content. rewrite strip_empty_iff, all_space_universal_newlines.
    apply not_true_iff_false. }
  destruct (load_prompt_file E (PyPath (prompt_to_load E arg)) w) as [[t|] w1];
    cbn [fst] in *.
  - destruct (Hload t) as [Hex _].
    destruct (Hex eq_refl) as (content & Hst & Hok & ->).
    destruct (truthy (strip (universal_newlines content))) eqn:Ht; cbn [fst].
    + apply truthy_true_iff in Ht. split.
      * intros [= <-]. exists content. repeat split; try done. by apply Hblank.
      * intros (content' & Hst' & _ & _ & ->). congruence.
    + split; [done |]. intros (content' & Hst' & _ & Hsp & _).
      assert (content' = content) as -> by congruence.
      apply Hblank, truthy_true_iff in Hsp. congruence.
  - split; [done |]. intros (content & Hst & Hok & _ & _).
    destruct (Hload (strip (universal_newlines content))) as [_ Hex].
    discriminate Hex. by exists content.
Qed.

(** Where [os.stat] answers, the loaders are those of the program run. *)
Lemma OS_load_prompt_file_run (stat_fails : path -> bool) (E : env) (p : path)
    (w : world) :
  OS.load_prompt_file stat_fails E (PyPath p) w
  = if stat_fails p then (OS.Raises OS.OSError, w)
    else (OS.Returns (load_prompt_file E (PyPath p) w).1,
          (load_prompt_file E (PyPath p) w).2).
Proof.
  unfold OS.load_prompt_file, OS.is_file, load_prompt_file, bind, get_fs, ret.
  destruct (stat_fails p); [done |].
  destruct (is_file (fs w) p); cbn [negb]; [| done].
  by destruct (read_text E p w) as [[content|] w1].
Qed.

Lemma OS_get_prompt_content_run (stat_fails : path -> bool) (E : env)
    (arg : option path) (w : world) :
  OS.get_prompt_content stat_fails E arg w
  = if stat_fails (prompt_to_load E arg) then (OS.Raises OS.OSError, w)
    else (OS.Returns (get_prompt_content E arg w).1,
          (get_prompt_content E arg w).2).
Proof.
  unfold OS.get_prompt_content, get_prompt_content, bind, ret, get_fs.
  fold (prompt_to_load E arg).
  rewrite OS_load_prompt_file_run. unfold OS.exists_.
  destruct (stat_fails (prompt_to_load E arg)); [done |].
  destruct (load_prompt_file E (PyPath (prompt_to_load E arg)) w) as [[c|] w1];
    cbn [fst snd]; [| done].
  by destruct (truthy c).
Qed.

(** X1: [load_prompt_file] raises the [OSError] of its [is_file] test,
    which stands before the [try], exactly where [os.stat] fails on the
    path. Otherwise it returns: a text exactly for a regular file that can
    be read and decoded, and the text is the file's content as text mode
    reads it (line ends made line feeds) stripped at both ends, so that
    stripping it again changes nothing; None for a path that is missing or
    a directory, and for a file that cannot be read. The call leaves the
    files as they are. *)
Theorem X1_load_prompt_file_result (stat_fails : path -> bool) (E : env)
    (p : path) (w : world) :
  let run := OS.load_prompt_file stat_fails E (PyPath p) w in
  (run.1 = OS.Raises OS.OSError <-> stat_fails p = true)
  /\ (forall c,
        run.1 = OS.Returns (Some c) <->
        stat_fails p = false
        /\ exists content,
             stat (fs w) p = Some (File content) /\ os_read_ok E p = true
             /\ c = strip (universal_newlines content))
  /\ (forall c, run.1 = OS.Returns (Some c) -> strip c = c)
  /\ (stat_fails p = false -> is_file (fs w) p = false ->
      run = (OS.Returns None, w))
  /\ fs run.2 = fs w.
Proof.
  intros run. subst run. rewrite OS_load_prompt_file_run.
  pose proof (load_prompt_file_some_iff E p w) as Hiff.
  pose proof (load_prompt_file_fs E p w) as Hfs.
  destruct (stat_fails p); cbn [fst snd].
  - repeat apply conj; try done.
    intros c. split; [done | by intros [? _]].
  - repeat apply conj; try done.
    + intros c. split.
      * intros [= Hc]. split; [done |]. by apply Hiff.
      * intros [_ Hc]. f_equal. by apply Hiff.
    + intros c [= Hc]. apply Hiff in Hc as (content & _ & _ & ->).
      apply strip_idem.
    + intros _ Hnot. unfold load_prompt_file, bind, get_fs, ret.
      by rewrite Hnot.
Qed.

(** X2: [get_prompt_content] raises the [OSError] of the loader's
    [is_file] test exactly where [os.stat] fails on the prompt path (the
    one given, else default_transcription_prompt.txt under the project
    root). Otherwise it returns a prompt exactly when that path is a
    readable regular file with something other than whitespace in it; the
    prompt is then the content as text mode reads it, stripped, and never
    the empty string. *)
Theorem X2_get_prompt_content_result (stat_fails : path -> bool) (E : env)
    (arg : option path) (w : world) :
  let run := OS.get_prompt_content stat_fails E arg w in
  prompt_to_load E None = joinpath (PROJECT_ROOT E) "default_transcription_prompt.txt"
  /\ (run.1 = OS.Raises OS.OSError <-> stat_fails (prompt_to_load E arg) = true)
  /\ (forall c,
        run.1 = OS.Returns (Some c) <->
        stat_fails (prompt_to_load E arg) = false
        /\ exists content,
             stat (fs w) (prompt_to_load E arg) = Some (File content)
             /\ os_read_ok E (prompt_to_load E arg) = true
             /\ all_space content = false
             /\ c = strip (universal_newlines content))
  /\ (forall c, run.1 = OS.Returns (Some c) -> c <> EmptyString).
Proof.
  intros run. subst run. split; [done |].
  rewrite OS_get_prompt_content_run.
  pose proof (get_prompt_content_some_iff E arg w) as Hiff.
  destruct (stat_fails (prompt_to_load E arg)); cbn [fst snd].
  - repeat apply conj; try done.
    intros c. split; [done | by intros [? _]].
  - repeat apply conj; try done.
    + intros c. split.
      * intros [= Hc]. split; [done |]. by apply Hiff.
      * intros [_ Hc]. f_equal. by apply Hiff.
    + intros c [= Hc]. apply Hiff in Hc as (content & _ & _ & Hsp & ->).
      rewrite strip_empty_iff, all_space_universal_newlines. by rewrite Hsp.
Qed.

End PromptLoading.

(** ** Saving, closer *)

Section Saving.

Lemma save_transcription_shape (E : env) (text : string) (image : path)
    (out : option path) (w : world) :
  let target := output_path image out in
  let step := directory_step E out (fs w) in
  let run := save_transcription E text (PyPath image) (optional_path out) w in
  if step.1 then
    match stat step.2 target with
    | Some Dir => run.1 = None /\ fs run.2 = step.2
    | _ =>
        if is_dir step.2 (parent target) && os_open_w_ok E target then
          if os_write_ok E target text
          then run.1 = Some target /\ fs run.2 = <[target := File text]> step.2
          else run.1 = None /\ fs run.2 = <[target := File EmptyString]> step.2
        else run.1 = None /\ fs run.2 = step.2
    end
  else run.1 = None /\ fs run.2 = step.2.
Proof.
  cbv zeta. unfold directory_step, output_path, save_transcription, mkdir_parents,
    write_text, bind, emit, get_fs, set_fs, ret.
  destruct out as [d|]; cbn [optional_path fs push fst snd].
  - destruct (mkdir_rec E (anchor d) (rev (tail d)) (fs w)) as [[] f1];
      cbn [fst snd fs]; [| done].
    destruct (stat f1 _) as [[c|]|]; cbn [fst snd fs];
      try destruct (is_dir f1 _ && os_open_w_ok E _); cbn [fst snd fs];
      try destruct (os_write_ok E _ text); cbn [fst snd fs]; done.
  - destruct (stat (fs w) _) as [[c|]|]; cbn [fst snd fs];
      try destruct (is_dir (fs w) _ && os_open_w_ok E _); cbn [fst snd fs];
      try destruct (os_write_ok E _ text); cbn [fst snd fs]; done.
Qed.

Lemma files_kept_refl (keep : path -> Prop) (f : filesystem) : files_kept keep f f.
Proof. by intros q c _. Qed.

Lemma files_kept_trans (keep : path -> Prop) (f g h : filesystem) :
  files_kept keep f g -> files_kept keep g h -> files_kept keep f h.
Proof. intros Hfg Hgh q c Hq. by rewrite (Hgh q c Hq), (Hfg q c Hq). Qed.

Lemma files_kept_mono (keep keep' : path -> Prop) (f g : filesystem) :
  (forall q, keep' q -> keep q) -> files_kept keep f g -> files_kept keep' f g.
Proof. intros Hk Hfg q c Hq. apply Hfg. by apply Hk. Qed.

Lemma files_kept_insert (f : filesystem) (t : path) (n : node) :
  files_kept (fun q => q <> t) f (<[t := n]> f).
Proof. intros q c Hq. by rewrite lookup_insert_ne. Qed.

Lemma directory_step_files (E : env) (out : option path) (f : filesystem) :
  files_kept (fun _ => True) f (directory_step E out f).2.
Proof.
  intros q c _. unfold directory_step. destruct out as [d|]; [| done].
  destruct (mkdir_rec E (anchor d) (rev (tail d)) f) as [ok f1] eqn:Hrec.
  by apply (mkdir_rec_files _ _ _ _ _ _ Hrec).
Qed.

Lemma directory_step_keeps (E : env) (out : option path) (f : filesystem)
    (q : path) (n : node) :
  f !! q = Some n -> (directory_step E out f).2 !! q = Some n.
Proof.
  intros Hq. unfold directory_step. destruct out as [d|]; [| done].
  destruct (mkdir_rec E (anchor d) (rev (tail d)) f) as [ok f1] eqn:Hrec.
  simpl. destruct (mkdir_rec_lookup _ _ _ _ _ _ Hrec q) as [-> | [Hnone _]]; [done |].
  congruence.
Qed.

Lemma save_transcription_frame (E : env) (text : string) (image : path)
    (out : option path) (w : world) :
  files_kept (fun q => q <> output_path image out) (fs w)
    (fs (save_transcription E text (PyPath image) (optional_path out) w).2).
Proof.
  pose proof (save_transcription_shape E text image out w) as Hshape.
  cbv zeta in Hshape.
  pose proof (directory_step_files E out (fs w)) as Hstep.
  assert (files_kept (fun q => q <> output_path image out) (fs w)
            (directory_step E out (fs w)).2) as Hstep'
    by (eapply files_kept_mono; [| exact Hstep]; done).
  destruct (directory_step E out (fs w)).1;
    [| destruct Hshape as [_ ->]; exact Hstep'].
  destruct (stat _ (output_path image out)) as [[c|]|];
    try (destruct Hshape as [_ ->]; exact Hstep');
    (destruct (is_dir _ _ && os_open_w_ok E _);
      [| destruct Hshape as [_ ->]; exact Hstep']);
    destruct (os_write_ok E _ text); destruct Hshape as [_ ->];
    (eapply files_kept_trans; [exact Hstep' | apply files_kept_insert]).
Qed.

(** X3: [save_transcription] returns the output path exactly when the
    directory step went through, the target is not a directory, its parent
    is one, and the system lets the file be opened and written; with an
    output directory given, the parent is there as soon as the directory
    step went through. A directory sitting at the target path makes the
    call fail. *)
Theorem X3_save_transcription_succeeds_iff (E : env) (text : string) (image : path)
    (out : option path) (w : world) :
  let target := output_path image out in
  let step := directory_step E out (fs w) in
  let run := save_transcription E text (PyPath image) (optional_path out) w in
  (run.1 = Some target <->
     step.1 = true /\ stat step.2 target <> Some Dir
     /\ is_dir step.2 (parent target) = true
     /\ os_open_w_ok E target = true /\ os_write_ok E target text = true)
  /\ (forall d, out = Some d -> step.1 = true -> is_dir step.2 (parent target) = true)
  /\ (fs w !! target = Some Dir -> run.1 = None).
Proof.
  intros target step run.
  pose proof (save_transcription_shape E text image out w) as Hshape.
  cbv zeta in Hshape. fold target step run in Hshape.
  assert (run.1 = Some target <->
     step.1 = true /\ stat step.2 target <> Some Dir
     /\ is_dir step.2 (parent target) = true
     /\ os_open_w_ok E target = true /\ os_write_ok E target text = true) as Hiff.
  { destruct step.1; [| destruct Hshape as [-> _]; split; [done | by intros []]].
    destruct (stat step.2 target) as [[c|]|];
      try (destruct Hshape as [-> _]; split; [done | by intros (_ & ? & _)]);
      (destruct (is_dir step.2 (parent target)), (os_open_w_ok E target);
         cbn [andb] in Hshape;
         try (destruct Hshape as [-> _]; split;
              [done | by intros (_ & _ & ? & ? & _)]));
      destruct (os_write_ok E target text); destruct Hshape as [-> _];
      split; try done; by intros (_ & _ & _ & _ & ?). }
  split; [exact Hiff |]. split.
  - intros d -> Hok. subst step target. unfold output_path, directory_step in *.
    rewrite parent_joinpath.
    destruct (mkdir_rec E (anchor d) (rev (tail d)) (fs w)) as [ok f1] eqn:Hrec.
    simpl in Hok. subst ok. apply mkdir_rec_is_dir in Hrec.
    rewrite rev_involutive in Hrec. apply is_dir_stat. by destruct d.
  - intros Hdir.
    pose proof (save_transcription_run E text image out w (run.2) (run.1)
                  (surjective_pairing _)) as (_ & _ & _ & [Hn|Hs] & _);
      [exact Hn |].
    apply Hiff in Hs as (_ & Hnot & _).
    destruct Hnot. subst target. unfold output_path in *.
    rewrite stat_joinpath. by apply directory_step_keeps.
Qed.

(** X4: [save_transcription] changes no regular file but the one at the
    output path, removes nothing, and adds directories only where nothing
    was. *)
Theorem X4_save_transcription_frame (E : env) (text : string) (image : path)
    (out : option path) (w : world) :
  let run := save_transcription E text (PyPath image) (optional_path out) w in
  files_kept (fun q => q <> output_path image out) (fs w) (fs run.2)
  /\ (forall q, is_Some (fs w !! q) -> is_Some (fs run.2 !! q))
  /\ (forall q, fs run.2 !! q = Some Dir -> fs w !! q = Some Dir \/ fs w !! q = None).
Proof.
  intros run. split; [apply save_transcription_frame |]. split.
  - intros q [n Hq].
    pose proof (save_transcription_run E text image out w (run.2) (run.1)
                  (surjective_pairing _)) as (_ & _ & Hks & _).
    destruct (Hks q n Hq) as (n' & -> & _). eauto.
  - intros q Hq.
    pose proof (save_transcription_run E text image out w (run.2) (run.1)
                  (surjective_pairing _)) as (_ & _ & Hks & _).
    destruct (fs w !! q) as [n|] eqn:Hw; [| by right].
    destruct (Hks q n Hw) as (n' & Hn' & Hk). left.
    fold run in Hn'. rewrite Hq in Hn'. injection Hn' as <-. by destruct n.
Qed.

End Saving.

(** ** One item, closer *)

Section ItemFrame.

Lemma slice_from_append (s t : string) : slice_from (String.length s) (s +:+ t) = t.
Proof. induction s as [|c s IH]; simpl; [by destruct t | done]. Qed.

Lemma name_suffix_txt (s : string) :
  s <> EmptyString -> name_suffix (s +:+ ".txt") = ".txt".
Proof.
  intros Hs. unfold name_suffix, split_index.
  rewrite rfind_append_txt, length_append. simpl String.length.
  destruct s as [|c s]; [done |].
  assert ((0 <? String.length (String c s))%nat = true) as ->
    by (apply Nat.ltb_lt; simpl; lia).
  assert ((String.length (String c s) <? String.length (String c s) + 4 - 1)%nat = true)
    as -> by (apply Nat.ltb_lt; lia).
  simpl andb. cbv iota. apply slice_from_append.
Qed.

Lemma output_path_suffix (image : path) (out : option path) :
  stem image <> EmptyString -> suffix (output_path image out) = ".txt".
Proof.
  intros Hs. unfold suffix, output_path. rewrite name_joinpath.
  by apply name_suffix_txt.
Qed.

Lemma output_path_parent (image : path) (out : option path) :
  parent (output_path image out)
  = match out with Some d => d | None => parent image end.
Proof. unfold output_path. apply parent_joinpath. Qed.

(** The output of a valid image is no image. *)
Lemma output_path_not_supported (image : path) (out : option path) :
  validate_image_file_true_cond image ->
  str_in (lower (suffix (output_path image out))) SUPPORTED_IMAGE_EXTENSIONS = false.
Proof.
  unfold validate_image_file_true_cond. intros Hext.
  by rewrite output_path_suffix by (by apply supported_stem_nonempty).
Qed.

Lemma process_single_image_frame (E : env) (p : path) (prompt : string)
    (out : option path) (w : world) :
  files_kept (fun q => q <> output_path p out) (fs w)
    (fs (process_single_image E p prompt out w).2)
  /\ (validate_image_file (fs w) (PyPath p) = false ->
      fs (process_single_image E p prompt out w).2 = fs w).
Proof.
  rewrite process_single_image_unfold.
  destruct (validate_image_file (fs w) (PyPath p)); cbn [negb];
    [| split; [apply files_kept_refl | done]].
  split; [| done]. cbv zeta.
  assert (forall t w3, fs w3 = fs w ->
    files_kept (fun q => q <> output_path p out) (fs w)
      (fs (let (saved, w4) :=
             save_transcription E t (PyPath p) (optional_path out) w3 in
           (match saved with Some _ => true | None => false end, w4)).2))
    as Hsave.
  { intros t w3 H3.
    pose proof (save_transcription_frame E t p out w3) as Hf.
    destruct (save_transcription E t (PyPath p) (optional_path out) w3)
      as [saved w4]. simpl in *. by rewrite <- H3. }
  destruct (selected_backend E p).
  - destruct (get_transcription_from_local_ocr E p _) as [t w3] eqn:Hl.
    apply local_ocr_run in Hl as (Hfs & _).
    destruct t as [t|]; [by apply Hsave |].
    simpl. rewrite Hfs. apply files_kept_refl.
  - destruct (OPENAI_API_CONFIGURED E); cbn [negb]; [| apply files_kept_refl].
    destruct (get_transcription_from_llm E p prompt _) as [t w3] eqn:Hl.
    apply llm_run in Hl as (Hfs & _).
    destruct t as [t|]; [by apply Hsave |].
    simpl. rewrite Hfs. apply files_kept_refl.
Qed.

End ItemFrame.

(** ** The backends, closer *)

Section Backends.

Ltac run_llm E p prompt w :=
  unfold get_transcription_from_llm, configure_openai_api, image_to_base64,
    client_ready, bind, emit, get_llm, set_llm, get_fs, ret, push; simpl;
  destruct (llm_OPENAI_API_CONFIGURED w) eqn:Hc, (llm_client w) eqn:Hk; simpl;
  rewrite ?Hc, ?Hk; simpl;
  destruct (OPENAI_API_KEY_set E) eqn:Hkey, (OpenAI_ctor_ok E) eqn:Hctor; simpl;
  destruct (is_file (fs w) p) eqn:Hfile; simpl;
  destruct (encode_image E p) as [[|u0 u]|] eqn:Henc; simpl;
  try destruct (chat_completion E (String u0 u) prompt)
    as [| |[|c0 content]] eqn:Hchat; simpl.

Lemma llm_some_iff (E : env) (p : path) (prompt : string) (w : world) (t : string) :
  (get_transcription_from_llm E p prompt w).1 = Some t <->
  client_ready E w = true /\ is_file (fs w) p = true
  /\ exists url content,
       encode_image E p = Some url /\ url <> EmptyString
       /\ chat_completion E url prompt = ApiContent content
       /\ content <> EmptyString /\ t = strip content.
Proof.
  run_llm E p prompt w.
  all: split.
  all: try done.
  all: try (intros [= <-]; (split; [done |]); (split; [done |]);
            eexists _, _; repeat split; eauto; done).
  all: try (intros (Hr & Hf & url' & content' & He & Hu & Hch & Hco & Ht); done).
  all: intros (Hr & Hf & url' & content' & He & Hu & Hch & Hco & Ht);
    injection He as <-; congruence.
Qed.

Lemma llm_trace_shape (E : env) (p : path) (prompt : string) (w : world) :
  trace (get_transcription_from_llm E p prompt w).2
  = match request_url E p w with
    | Some url => [EvApiRequest url prompt]
    | None => []
    end
    ++ (if llm_OPENAI_API_CONFIGURED w && llm_client w then [] else [EvConfigure])
    ++ EvCloudLLM p prompt :: trace w.
Proof. unfold request_url. run_llm E p prompt w; done. Qed.

Lemma llm_state_after (E : env) (p : path) (prompt : string) (w : world) :
  llm_OPENAI_API_CONFIGURED (get_transcription_from_llm E p prompt w).2
  && llm_client (get_transcription_from_llm E p prompt w).2
  = client_ready E w
  /\ (llm_OPENAI_API_CONFIGURED w = true -> llm_client w = true ->
      same_modules w (get_transcription_from_llm E p prompt w).2)
  /\ ((llm_OPENAI_API_CONFIGURED w = true -> llm_client w = true) ->
      llm_OPENAI_API_CONFIGURED (get_transcription_from_llm E p prompt w).2 = true ->
      llm_client (get_transcription_from_llm E p prompt w).2 = true).
Proof.
  run_llm E p prompt w; repeat split; try done; intros H; try done;
    by (specialize (H eq_refl)).
Qed.

(** X7: [get_transcription_from_llm] returns a text exactly when the client
    is ready (configured, or configurable from the key), the image is a file
    that could be encoded, and the answer has a content that is not empty;
    the text is that content stripped. So an answer with an empty content
    is a failure, while one of whitespace only is returned as the empty
    text. The call never touches the file system. *)
Theorem X7_llm_transcription_result (E : env) (p : path) (prompt : string)
    (w : world) :
  let run := get_transcription_from_llm E p prompt w in
  (forall t,
     run.1 = Some t <->
     client_ready E w = true /\ is_file (fs w) p = true
     /\ exists url content,
          encode_image E p = Some url /\ url <> EmptyString
          /\ chat_completion E url prompt = ApiContent content
          /\ content <> EmptyString /\ t = strip content)
  /\ (forall url,
        encode_image E p = Some url ->
        chat_completion E url prompt = ApiContent EmptyString -> run.1 = None)
  /\ (forall url content,
        client_ready E w = true -> is_file (fs w) p = true ->
        encode_image E p = Some url -> url <> EmptyString ->
        chat_completion E url prompt = ApiContent content ->
        content <> EmptyString -> all_space content = true ->
        run.1 = Some EmptyString)
  /\ (forall t, run.1 = Some t -> strip t = t)
  /\ fs run.2 = fs w.
Proof.
  intros run. split; [intros t; apply llm_some_iff |].
  split; [| split; [| split]].
  - intros url Henc Hchat. destruct run.1 as [t|] eqn:Hr; [| done].
    apply llm_some_iff in Hr as (_ & _ & url' & content & He & _ & Hch & Hco & _).
    congruence.
  - intros url content Hr Hf Henc Hu Hchat Hco Hsp.
    apply llm_some_iff. split; [done |]. split; [done |].
    exists url, content. repeat split; try done.
    symmetry. by apply strip_empty_iff.
  - intros t (_ & _ & _ & content & _ & _ & _ & _ & ->)%llm_some_iff.
    apply strip_idem.
  - pose proof (llm_run E p prompt w run.2 run.1 (surjective_pairing _)) as (H & _).
    exact H.
Qed.

(** X8: within one call [get_transcription_from_llm] configures the client
    at most once, only when it was not configured, and sends at most one
    request, none at all when the client is not ready or the image could not
    be encoded; the request carries the image's data URI and the prompt the
    caller gave, unchanged. Afterwards the client is configured exactly when
    it was ready. *)
Theorem X8_llm_requests (E : env) (p : path) (prompt : string) (w : world) :
  let run := get_transcription_from_llm E p prompt w in
  trace run.2
  = match request_url E p w with
    | Some url => [EvApiRequest url prompt]
    | None => []
    end
    ++ (if llm_OPENAI_API_CONFIGURED w && llm_client w then [] else [EvConfigure])
    ++ EvCloudLLM p prompt :: trace w
  /\ (forall url, request_url E p w = Some url ->
        encode_image E p = Some url /\ client_ready E w = true
        /\ is_file (fs w) p = true)
  /\ (forall t, run.1 = Some t -> exists url, request_url E p w = Some url)
  /\ llm_OPENAI_API_CONFIGURED run.2 && llm_client run.2 = client_ready E w.
Proof.
  intros run. split; [apply llm_trace_shape |]. split; [| split].
  - intros url. unfold request_url.
    destruct (client_ready E w), (is_file (fs w) p); cbn [andb]; try done.
    destruct (encode_image E p) as [u|]; [| done].
    destruct (truthy u); [| done]. by intros [= ->].
  - intros t (Hr & Hf & url & content & He & Hu & _)%llm_some_iff.
    exists url. unfold request_url. rewrite Hr, Hf, He. cbn [andb].
    by apply truthy_true_iff in Hu as ->.
  - apply llm_state_after.
Qed.

Lemma configure_run (E : env) (w : world) :
  (configure_openai_api E w).1 = client_ready E w
  /\ llm_OPENAI_API_CONFIGURED (configure_openai_api E w).2 = client_ready E w
  /\ (client_ready E w = true -> llm_client (configure_openai_api E w).2 = true)
  /\ (client_ready E w = false ->
      llm_client (configure_openai_api E w).2 = llm_client w)
  /\ fs (configure_openai_api E w).2 = fs w
  /\ LOCAL_OCR_loaded (configure_openai_api E w).2 = LOCAL_OCR_loaded w
  /\ trace (configure_openai_api E w).2 = EvConfigure :: trace w.
Proof.
  unfold configure_openai_api, client_ready, bind, emit, get_llm, set_llm, ret, push.
  simpl.
  destruct (llm_OPENAI_API_CONFIGURED w) eqn:Hc, (llm_client w) eqn:Hk; simpl;
    rewrite ?Hc, ?Hk; simpl;
    destruct (OPENAI_API_KEY_set E), (OpenAI_ctor_ok E); simpl; by repeat split.
Qed.

(** X9: [configure_openai_api] returns true exactly when the client was
    configured already or the key is set and the client can be made; the
    flag it leaves equals what it returns, a true answer comes with a
    client, and a failure keeps the client there was. Once it has returned
    true, calling it again returns true and changes nothing in the modules. *)
Theorem X9_configure_openai_api (E : env) (w : world) :
  let run := configure_openai_api E w in
  (run.1 = true <->
     llm_OPENAI_API_CONFIGURED w && llm_client w = true
     \/ OPENAI_API_KEY_set E && OpenAI_ctor_ok E = true)
  /\ llm_OPENAI_API_CONFIGURED run.2 = run.1
  /\ (run.1 = true -> llm_client run.2 = true)
  /\ (run.1 = false -> llm_client run.2 = llm_client w)
  /\ (run.1 = true ->
      (configure_openai_api E run.2).1 = true
      /\ same_modules run.2 (configure_openai_api E run.2).2).
Proof.
  intros run.
  destruct (configure_run E w) as (Hres & Hflag & Hcl & Hkeep & _).
  fold run in Hres, Hflag, Hcl, Hkeep.
  split; [| split; [| split; [| split]]].
  - rewrite Hres. unfold client_ready. apply orb_true_iff.
  - by rewrite Hflag, Hres.
  - rewrite Hres. exact Hcl.
  - rewrite Hres. exact Hkeep.
  - intros Htrue. rewrite Hres in Htrue.
    assert (llm_OPENAI_API_CONFIGURED run.2 = true) as Hc by congruence.
    assert (llm_client run.2 = true) as Hk by auto.
    unfold configure_openai_api, bind, emit, get_llm, set_llm, ret, push. simpl.
    rewrite Hc, Hk. simpl. by repeat split.
Qed.


End Backends.

(** ** The classifier, closer *)

Section Classifier.

Lemma map_top_prediction_cases (top_label : string) (top_score : Q) :
  map_top_prediction top_label top_score
  = if score_lt top_score MIN_CONFIDENCE_SCORE then "undetermined"
    else if String.eqb top_label "handwritten" then "handwritten"
    else if str_in top_label typewritten_labels then "typewritten"
    else "other_document_type".
Proof.
  unfold map_top_prediction.
  by destruct (score_lt top_score MIN_CONFIDENCE_SCORE),
    (String.eqb top_label "handwritten"), (str_in top_label typewritten_labels),
    (str_in top_label other_document_labels).
Qed.

Lemma typewritten_not_handwritten (l : string) :
  str_in l typewritten_labels = true -> l <> "handwritten".
Proof. by intros H ->. Qed.

(** X11: the primary classification is None or one of "handwritten",
    "typewritten", "other_document_type" and "undetermined"; predictions
    come back only with a primary classification, and they are the list the
    pipeline gave, as it gave it. *)
Theorem X11_classification_vocabulary (E : env) (p : path) :
  let r := classify_text_type_local E p in
  (r.1 = None \/ r.1 = Some "handwritten" \/ r.1 = Some "typewritten"
   \/ r.1 = Some "other_document_type" \/ r.1 = Some "undetermined")
  /\ (r.1 = None -> r.2 = None)
  /\ (forall l, r.2 = Some l ->
        l <> [] /\ dit_pipeline E p = PipelineList l
        /\ IMAGE_CLASSIFIER_ready E = true).
Proof.
  cbv zeta. unfold classify_text_type_local.
  assert (forall o : option string,
            o = None \/ o = Some "handwritten" \/ o = Some "typewritten"
            \/ o = Some "other_document_type" \/ o = Some "undetermined" ->
            forall l : option (list pipeline_prediction),
              (o = None -> l = None) ->
              (forall l', l = Some l' ->
                 l' <> [] /\ dit_pipeline E p = PipelineList l'
                 /\ IMAGE_CLASSIFIER_ready E = true) ->
              ((o, l).1 = None \/ (o, l).1 = Some "handwritten"
               \/ (o, l).1 = Some "typewritten"
               \/ (o, l).1 = Some "other_document_type"
               \/ (o, l).1 = Some "undetermined")
              /\ ((o, l).1 = None -> (o, l).2 = None)
              /\ (forall l', (o, l).2 = Some l' ->
                     l' <> [] /\ dit_pipeline E p = PipelineList l'
                     /\ IMAGE_CLASSIFIER_ready E = true)) as Hpack by done.
  destruct (IMAGE_CLASSIFIER_ready E) eqn:Hready; cbn [negb];
    [| apply Hpack; [by left | done | done]].
  destruct (dit_pipeline E p) as [| |[|[| |label score] rest]] eqn:Hpipe.
  - apply Hpack; [by left | done | done].
  - apply Hpack; [by right; right; right; right | done | done].
  - apply Hpack; [by right; right; right; right | done | done].
  - apply Hpack; [by right; right; right; right | done |].
    by intros l' [= <-].
  - apply Hpack; [by left | done | done].
  - apply Hpack; [| done | by intros l' [= <-]].
    rewrite map_top_prediction_cases.
    destruct (score_lt score MIN_CONFIDENCE_SCORE);
      [by right; right; right; right |].
    destruct (String.eqb (lower label) "handwritten"); [by right; left |].
    destruct (str_in (lower label) typewritten_labels);
      [by right; right; left | by right; right; right; left].
Qed.

(** X12: which answers of the pipeline give which classification. With the
    top label taken in lower case: "undetermined" comes from an output that
    is no list or an empty one, from a falsy first entry, and from a top
    score below the threshold; at or above the threshold the label
    "handwritten" gives "handwritten", a label of the typewritten list gives
    "typewritten", and every other label gives "other_document_type". *)
Theorem X12_classification_table (E : env) (p : path) (label : string) (score : Q)
    (rest : list pipeline_prediction) :
  IMAGE_CLASSIFIER_ready E = true ->
  (dit_pipeline E p = PipelineOther \/ dit_pipeline E p = PipelineList []
   \/ dit_pipeline E p = PipelineList (PredEmpty :: rest) ->
   (classify_text_type_local E p).1 = Some "undetermined")
  /\ (dit_pipeline E p = PipelineList (Pred label score :: rest) ->
      ((score < MIN_CONFIDENCE_SCORE)%Q ->
       (classify_text_type_local E p).1 = Some "undetermined")
      /\ ((MIN_CONFIDENCE_SCORE <= score)%Q ->
          (lower label = "handwritten" ->
           (classify_text_type_local E p).1 = Some "handwritten")
          /\ (str_in (lower label) typewritten_labels = true ->
              (classify_text_type_local E p).1 = Some "typewritten")
          /\ (lower label <> "handwritten" ->
              str_in (lower label) typewritten_labels = false ->
              (classify_text_type_local E p).1 = Some "other_document_type"))).
Proof.
  intros Hready. unfold classify_text_type_local. rewrite Hready. cbn [negb].
  split.
  - by intros [-> | [-> | ->]].
  - intros ->. cbn [fst]. rewrite map_top_prediction_cases. split.
    + intros Hlt%score_lt_true. by rewrite Hlt.
    + intros Hle%score_lt_false. rewrite Hle. split; [| split].
      * by intros ->.
      * intros Ht. pose proof (typewritten_not_handwritten _ Ht) as Hne.
        apply String.eqb_neq in Hne. by rewrite Hne, Ht.
      * intros Hne%String.eqb_neq Ht. by rewrite Hne, Ht.
Qed.

End Classifier.

(** ** The batch, closer *)

(** What every item keeps, the batch keeps. *)
Section BatchPreserves.

Variable E : env.
Variable prompt : string.
Variable o : path.
Variable R : world -> world -> Prop.
Hypothesis R_refl : forall w, R w w.
Hypothesis R_trans : forall w1 w2 w3, R w1 w2 -> R w2 w3 -> R w1 w3.
Hypothesis R_item :
  forall p w, R w (process_single_image E p prompt (Some o) w).2.
Hypothesis R_summary : forall a b c w, R w (push (EvSummary a b c) w).

Lemma item_results_preserves (items : list path) :
  forall w, R w (item_results E prompt o items w).2.
Proof.
  induction items as [|i rest IH]; intros w; [apply R_refl |].
  cbn [item_results]. unfold bind, ret.
  pose proof (R_item i w) as Hi.
  destruct (process_single_image E i prompt (Some o) w) as [ok w1].
  specialize (IH w1).
  destruct (item_results E prompt o rest w1) as [oks w2].
  simpl in *. by eapply R_trans.
Qed.

Lemma process_directory_preserves (d : path) (out : option path) (w : world) :
  batch_output_dir d out = o -> R w (process_directory E d prompt out w).2.
Proof.
  intros Ho. unfold process_directory, bind, get_fs, ret, emit.
  destruct (is_dir (fs w) d); cbn [negb]; [| apply R_refl].
  assert (R w (scan_directory E d prompt out w).2) as Hscan.
  { unfold scan_directory, bind, get_fs. fold (batch_output_dir d out).
    rewrite Ho.
    rewrite (directory_loop_run E prompt o (fs w));
      [| apply iterdir_exists | apply kind_stable_refl].
    apply item_results_preserves. }
  destruct (scan_directory E d prompt out w) as [c w1]. simpl in Hscan.
  destruct (found_image_files c); cbn [negb]; [| exact Hscan].
  destruct (0 <? failed_files_count c)%nat; simpl;
    (eapply R_trans; [exact Hscan | apply R_summary]).
Qed.

End BatchPreserves.

Section EventDiscipline.

Lemma save_transcription_trace (E : env) (text : string) (image : path)
    (out : option path) (w : world) :
  trace (save_transcription E text (PyPath image) (optional_path out) w).2
  = (if (directory_step E out (fs w)).1
     then [EvOpenWrite (output_path image out)] else [])
    ++ match out with Some d => [EvMkdir d] | None => [] end
    ++ trace w.
Proof.
  unfold directory_step, output_path, save_transcription, mkdir_parents,
    write_text, bind, emit, get_fs, set_fs, ret.
  destruct out as [d|]; cbn [optional_path fs push fst snd trace].
  - destruct (mkdir_rec E (anchor d) (rev (tail d)) (fs w)) as [[] f1];
      cbn [fst snd fs trace]; [| done].
    destruct (stat f1 _) as [[c|]|]; cbn [fst snd fs trace];
      try destruct (is_dir f1 _ && os_open_w_ok E _); cbn [fst snd fs trace];
      try destruct (os_write_ok E _ text); cbn [fst snd fs trace]; done.
  - destruct (stat (fs w) _) as [[c|]|]; cbn [fst snd fs trace];
      try destruct (is_dir (fs w) _ && os_open_w_ok E _); cbn [fst snd fs trace];
      try destruct (os_write_ok E _ text); cbn [fst snd fs trace]; done.
Qed.

Lemma added_app (P : event -> Prop) (new t t' : list event) :
  Forall P new -> added P t t' -> added P t (new ++ t').
Proof.
  intros H (new' & -> & H'). exists (new ++ new').
  split; [by rewrite app_assoc | by apply Forall_app].
Qed.

Lemma process_single_image_discipline (E : env) (p : path) (prompt : string)
    (out : option path) (w : world) :
  added (item_event_ok p prompt out) (trace w)
        (trace (process_single_image E p prompt out w).2).
Proof.
  rewrite process_single_image_unfold.
  destruct (validate_image_file (fs w) (PyPath p)); cbn [negb];
    [| apply added_cons; [done | apply added_refl]].
  cbv zeta.
  assert (added (item_event_ok p prompt out) (trace w)
                (trace (push (EvClassify p) (push (EvItem p) w)))) as H2.
  { simpl. do 2 (apply added_cons; [done |]). apply added_refl. }
  assert (forall t w3,
    added (item_event_ok p prompt out) (trace w) (trace w3) ->
    added (item_event_ok p prompt out) (trace w)
      (trace (let (saved, w4) :=
                save_transcription E t (PyPath p) (optional_path out) w3 in
              (match saved with Some _ => true | None => false end, w4)).2))
    as Hsave.
  { intros t w3 H3.
    pose proof (save_transcription_trace E t p out w3) as Htr.
    destruct (save_transcription E t (PyPath p) (optional_path out) w3)
      as [saved w4]. simpl in *.
    rewrite Htr. apply added_app; [| apply added_app; [| exact H3]].
    - destruct (directory_step E out (fs w3)).1; by repeat constructor.
    - destruct out; by repeat constructor. }
  destruct (selected_backend E p).
  - destruct (get_transcription_from_local_ocr E p _) as [t w3] eqn:Hl.
    apply local_ocr_run in Hl as (_ & Htr & _).
    assert (added (item_event_ok p prompt out) (trace w) (trace w3)) as H3.
    { rewrite Htr. by apply added_cons. }
    destruct t as [t|]; [by apply Hsave | done].
  - destruct (OPENAI_API_CONFIGURED E); cbn [negb]; [| done].
    pose proof (llm_trace_shape E p prompt
                  (push (EvClassify p) (push (EvItem p) w))) as Htr.
    destruct (get_transcription_from_llm E p prompt _) as [t w3].
    cbn [snd] in Htr.
    assert (added (item_event_ok p prompt out) (trace w) (trace w3)) as H3.
    { rewrite Htr.
      apply added_app; [| apply added_app; [| by apply added_cons]].
      - destruct (request_url E p _); by repeat constructor.
      - cbn [push llm_OPENAI_API_CONFIGURED llm_client].
        destruct (llm_OPENAI_API_CONFIGURED w && llm_client w);
          by repeat constructor. }
    destruct t as [t|]; [by apply Hsave | done].
Qed.


(** X5: the path [process_single_image] opens for writing is never an
    image. Whenever its code opens a path for writing, the image had passed
    the validator and the path is the output path, whose suffix is ".txt":
    it has no supported image extension, it is not the image, and it lies
    in the output directory given, else beside the image. An item that
    fails the validator opens nothing for writing. *)
Theorem X5_written_path_is_no_image (E : env) (p : path) (prompt : string)
    (out : option path) (w : world) :
  exists new,
    trace (process_single_image E p prompt out w).2 = new ++ trace w
    /\ (validate_image_file (fs w) (PyPath p) = false ->
        forall q, ~ In (EvOpenWrite q) new)
    /\ (forall q, In (EvOpenWrite q) new ->
          validate_image_file (fs w) (PyPath p) = true
          /\ q = output_path p out
          /\ suffix q = ".txt"
          /\ str_in (lower (suffix q)) SUPPORTED_IMAGE_EXTENSIONS = false
          /\ q <> p
          /\ parent q = match out with Some d => d | None => parent p end).
Proof.
  destruct (validate_image_file (fs w) (PyPath p)) eqn:Hv.
  - destruct (process_single_image_discipline E p prompt out w)
      as (new & Htr & Hall).
    exists new. split; [exact Htr |]. split; [done |].
    rewrite Forall_forall in Hall.
    intros q Hin%list_elem_of_In. pose proof (Hall _ Hin) as Hq. simpl in Hq.
    subst q. apply validate_image_file_true in Hv as [_ Hext].
    pose proof (output_path_not_supported p out Hext) as Hno.
    split_and!; try done.
    + by apply output_path_suffix, supported_stem_nonempty.
    + intros Heq. rewrite Heq in Hno. congruence.
    + apply output_path_parent.
  - exists [EvItem p]. rewrite process_single_image_unfold, Hv. cbn [negb].
    split; [done |]. split.
    + intros _ q [Hq | []]. discriminate Hq.
    + intros q [Hq | []]. discriminate Hq.
Qed.



End EventDiscipline.

Section BatchReach.

Lemma count_failed_zero (results : list bool) :
  count_failed results = 0%nat -> Forall (fun ok => ok = true) results.
Proof.
  unfold count_failed. induction results as [|[] rest IH]; simpl; intros H.
  - constructor.
  - constructor; [done | by apply IH].
  - done.
Qed.

(** What [process_directory] returns and leaves, in terms of the items. *)
Lemma process_directory_run (E : env) (d : path) (prompt : string)
    (out : option path) (w : world) :
  is_dir (fs w) d = true ->
  let items := considered (fs w) d in
  let run := item_results E prompt (batch_output_dir d out) items w in
  (process_directory E d prompt out w).1
  = bool_decide (count_failed run.1 = 0%nat)
  /\ ((process_directory E d prompt out w).2 = run.2
      \/ exists a b c, (process_directory E d prompt out w).2
                       = push (EvSummary a b c) run.2).
Proof.
  intros Hdir items run.
  assert (scan_directory E d prompt out w
          = (fold_left bump run.1 initial_counters, run.2)) as Hscan.
  { unfold scan_directory, bind, get_fs. fold (batch_output_dir d out).
    apply (directory_loop_run E prompt (batch_output_dir d out) (fs w));
      [apply iterdir_exists | apply kind_stable_refl]. }
  destruct (fold_bump run.1 initial_counters) as (_ & _ & Hf & Hfound).
  simpl in Hf, Hfound.
  unfold process_directory, bind, get_fs, ret, emit.
  rewrite Hdir. cbn [negb]. rewrite Hscan, Hfound, Hf.
  destruct (bool_decide_reflect (run.1 <> [])) as [Hne|He]; cbn [negb].
  - destruct (Nat.ltb_spec 0 (count_failed run.1)); cbn [fst snd].
    + rewrite bool_decide_false by lia. split; [done |]. right. eauto.
    + rewrite bool_decide_true by lia. split; [done |]. right. eauto.
  - apply dec_stable in He. rewrite He. cbn [fst snd].
    split; [done | by left].
Qed.





Lemma considered_spec (f : filesystem) (d i : path) :
  In i (considered f d) <->
  is_Some (f !! i) /\ tail i <> [] /\ parent i = d /\ is_file f i = true
  /\ str_in (lower (suffix i)) SUPPORTED_IMAGE_EXTENSIONS = true.
Proof.
  unfold considered. rewrite filter_In, iterdir_spec, andb_true_iff. tauto.
Qed.


(** An item that succeeded left the text of its backend at its output. *)
Lemma process_single_image_true_text (E : env) (p : path) (prompt : string)
    (out : option path) (w : world) :
  (process_single_image E p prompt out w).1 = true ->
  validate_image_file (fs w) (PyPath p) = true
  /\ exists text,
       backend_text E p prompt = Some text
       /\ fs (process_single_image E p prompt out w).2 !! output_path p out
          = Some (File text).
Proof.
  rewrite process_single_image_unfold.
  destruct (validate_image_file (fs w) (PyPath p)); cbn [negb]; [| done].
  cbv zeta. intros Hrun. split; [done |]. revert Hrun.
  assert (forall t w3,
    (let (saved, w4) := save_transcription E t (PyPath p) (optional_path out) w3 in
     (match saved with Some _ => true | None => false end, w4)).1 = true ->
    fs (let (saved, w4) :=
          save_transcription E t (PyPath p) (optional_path out) w3 in
        (match saved with Some _ => true | None => false end, w4)).2
    !! output_path p out = Some (File t)) as Hsave.
  { intros t w3.
    destruct (save_transcription E t (PyPath p) (optional_path out) w3)
      as [saved w4] eqn:Hs.
    apply save_transcription_run in Hs as (_ & _ & _ & Hr & Hc).
    destruct saved as [tp|]; [| done]. intros _.
    destruct Hr as [Hr|Hr]; [done |]. by apply Hc. }
  unfold backend_text. destruct (selected_backend E p).
  - destruct (get_transcription_from_local_ocr E p _) as [t w3] eqn:Hl.
    apply local_ocr_run in Hl as (_ & _ & _ & _ & Hr).
    destruct t as [t|]; [| done]. intros Hrun. exists t. split; [| by apply Hsave].
    by destruct (LOCAL_OCR_loaded _ || trocr_load_ok E).
  - destruct (OPENAI_API_CONFIGURED E); cbn [negb]; [| done].
    pose proof (llm_some_iff E p prompt
                  (push (EvClassify p) (push (EvItem p) w))) as Hllm.
    destruct (get_transcription_from_llm E p prompt _) as [[t|] w3]; [| done].
    intros Hrun. exists t. split; [| by apply Hsave].
    destruct (Hllm t) as [Hex _].
    destruct (Hex eq_refl)
      as (_ & _ & url & content & -> & Hurl & -> & Hcontent & ->).
    apply truthy_true_iff in Hurl, Hcontent. by rewrite Hurl, Hcontent.
Qed.

Lemma append_inj_l (s1 s2 t : string) : s1 +:+ t = s2 +:+ t -> s1 = s2.
Proof.
  revert s2. induction s1 as [|c s1 IH]; intros [|c' s2] H.
  - done.
  - apply (f_equal String.length) in H. rewrite !length_append in H.
    simpl in H. lia.
  - apply (f_equal String.length) in H. rewrite !length_append in H.
    simpl in H. lia.
  - injection H as -> H. f_equal. by apply IH.
Qed.

(** Two images share their output exactly when they share their stem. *)
Lemma output_path_stem (i j o : path) :
  output_path i (Some o) = output_path j (Some o) <-> stem i = stem j.
Proof.
  unfold output_path, joinpath. split.
  - intros [= H%app_inj_tail]. destruct H as [_ H]. by apply append_inj_l in H.
  - by intros ->.
Qed.

(** The items change no file but their outputs. *)
Lemma item_results_frame (E : env) (prompt : string) (o : path)
    (items : list path) :
  forall w,
    files_kept (fun q => forall k, In k items -> q <> output_path k (Some o))
               (fs w) (fs (item_results E prompt o items w).2).
Proof.
  induction items as [|k rest IH]; intros w; [apply files_kept_refl |].
  cbn [item_results]. unfold bind, ret.
  pose proof (process_single_image_frame E k prompt (Some o) w) as [Hk _].
  destruct (process_single_image E k prompt (Some o) w) as [ok w1].
  specialize (IH w1).
  destruct (item_results E prompt o rest w1) as [oks w2]. cbn [fst snd] in *.
  eapply files_kept_trans.
  - eapply files_kept_mono; [| exact Hk]. intros q Hq. apply Hq. by left.
  - eapply files_kept_mono; [| exact IH]. intros q Hq k' Hk'. apply Hq. by right.
Qed.

(** When every item succeeded, each output holds the text of the backend
    for an item of that stem. *)
Lemma item_results_texts (E : env) (prompt : string) (o : path)
    (items : list path) :
  forall w,
    Forall (fun ok => ok = true) (item_results E prompt o items w).1 ->
    forall i, In i items ->
      exists j text,
        In j items /\ stem j = stem i
        /\ backend_text E j prompt = Some text
        /\ fs (item_results E prompt o items w).2 !! output_path i (Some o)
           = Some (File text).
Proof.
  induction items as [|k rest IH]; intros w Hall i Hin; [done |].
  revert Hall. cbn [item_results]. unfold bind, ret.
  pose proof (process_single_image_true_text E k prompt (Some o) w) as Hk.
  destruct (process_single_image E k prompt (Some o) w) as [okk w1].
  pose proof (item_results_frame E prompt o rest w1) as Hframe.
  specialize (IH w1).
  destruct (item_results E prompt o rest w1) as [oks w2]. cbn [fst snd] in *.
  intros Hall. apply Forall_cons in Hall as [-> Hall].
  destruct (existsb (fun k' => String.eqb (stem k') (stem i)) rest) eqn:Hex.
  - apply existsb_exists in Hex as (k' & Hk' & Heq%String.eqb_eq).
    destruct (IH Hall k' Hk') as (j & text & Hj & Hstem & Htext & Hfile).
    exists j, text. split; [by right |]. split; [congruence |].
    split; [done |].
    by rewrite <- (proj2 (output_path_stem k' i o) Heq).
  - assert (forall k', In k' rest -> stem k' <> stem i) as Hnone.
    { intros k' Hk' Heq.
      assert (existsb (fun k' => String.eqb (stem k') (stem i)) rest = true)
        as Habs; [| congruence].
      apply existsb_exists. exists k'. split; [done | by apply String.eqb_eq]. }
    destruct Hin as [-> | Hin]; [| by destruct (Hnone i Hin)].
    destruct (Hk eq_refl) as (_ & text & Htext & Hfile).
    exists i, text. split; [by left |]. split; [done |]. split; [done |].
    apply Hframe; [| done].
    intros k' Hk' Heq%output_path_stem. by apply (Hnone k' Hk').
Qed.

Lemma process_directory_true_texts (E : env) (d : path) (prompt : string)
    (out : option path) (w : world) :
  is_dir (fs w) d = true ->
  (process_directory E d prompt out w).1 = true ->
  forall i,
    In i (considered (fs w) d) ->
    exists j text,
      In j (considered (fs w) d) /\ stem j = stem i
      /\ backend_text E j prompt = Some text
      /\ fs (process_directory E d prompt out w).2
           !! output_path i (Some (batch_output_dir d out)) = Some (File text).
Proof.
  intros Hdir Htrue i Hin.
  destruct (process_directory_run E d prompt out w Hdir) as [Hres Hworld].
  cbv zeta in Hres, Hworld.
  rewrite Hres in Htrue. apply bool_decide_eq_true, count_failed_zero in Htrue.
  assert (fs (process_directory E d prompt out w).2
          = fs (item_results E prompt (batch_output_dir d out)
                  (considered (fs w) d) w).2) as ->
    by (destruct Hworld as [-> | (a & b & c & ->)]; done).
  by apply item_results_texts.
Qed.

(** The entries the batch considers are the images of the directory. *)
Lemma considered_image (f : filesystem) (d i : path) :
  In i (considered f d) <->
  is_file f i = true /\ tail i <> [] /\ parent i = d
  /\ str_in (lower (suffix i)) SUPPORTED_IMAGE_EXTENSIONS = true.
Proof.
  rewrite considered_spec. split; [tauto |].
  intros (Hfile & Htail & Hpar & Hext). repeat split; try done.
  unfold is_file, stat in Hfile. destruct (tail i); [done |].
  destruct (f !! i); [eauto | done].
Qed.

(** X17: when a batch returns true, the output path of every image of the
    directory (a regular file with a supported extension directly in it)
    holds the text the backend gave for an image of the directory with the
    same stem: for the image itself when no other image has its stem.
    Images whose names differ in the extension alone (photo.jpg,
    photo.jpeg) have one output path, so that after a batch that returned
    true the transcription of one of them is in the file and that of the
    other is not. *)
Theorem X17_successful_batch_outputs (E : env) (d : path) (prompt : string)
    (out : option path) (w : world) :
  is_dir (fs w) d = true ->
  (process_directory E d prompt out w).1 = true ->
  forall i,
    is_file (fs w) i = true -> tail i <> [] -> parent i = d ->
    str_in (lower (suffix i)) SUPPORTED_IMAGE_EXTENSIONS = true ->
    exists j text,
      (is_file (fs w) j = true /\ tail j <> [] /\ parent j = d
       /\ str_in (lower (suffix j)) SUPPORTED_IMAGE_EXTENSIONS = true)
      /\ stem j = stem i
      /\ output_path j (Some (batch_output_dir d out))
         = output_path i (Some (batch_output_dir d out))
      /\ backend_text E j prompt = Some text
      /\ fs (process_directory E d prompt out w).2
           !! output_path i (Some (batch_output_dir d out)) = Some (File text)
      /\ ((forall k,
             is_file (fs w) k = true -> tail k <> [] -> parent k = d ->
             str_in (lower (suffix k)) SUPPORTED_IMAGE_EXTENSIONS = true ->
             stem k = stem i -> k = i) ->
          backend_text E i prompt = Some text).
Proof.
  intros Hdir Htrue i Hfile Htail Hpar Hext.
  assert (In i (considered (fs w) d)) as Hin by (by apply considered_image).
  destruct (process_directory_true_texts E d prompt out w Hdir Htrue i Hin)
    as (j & text & Hj & Hstem & Htext & Hout).
  apply considered_image in Hj as (Hjf & Hjt & Hjp & Hje).
  exists j, text. split_and!; try done.
  - by apply output_path_stem.
  - intros Honly. by rewrite <- (Honly j Hjf Hjt Hjp Hje Hstem).
Qed.

End BatchReach.

Section Modules.

Lemma modules_kept_refl (w : world) : modules_kept w w.
Proof. by repeat split. Qed.

Lemma modules_kept_trans (w1 w2 w3 : world) :
  modules_kept w1 w2 -> modules_kept w2 w3 -> modules_kept w1 w3.
Proof.
  intros (A1 & B1 & C1) (A2 & B2 & C2). repeat split; auto.
Qed.

Lemma same_modules_kept (w w' : world) : same_modules w w' -> modules_kept w w'.
Proof. intros (Hc & Hk & Hl). unfold modules_kept. rewrite Hc, Hk, Hl. tauto. Qed.

Lemma local_ocr_modules_kept (E : env) (p : path) (w : world) :
  modules_kept w (get_transcription_from_local_ocr E p w).2.
Proof.
  unfold get_transcription_from_local_ocr, _initialize_local_ocr_model,
    bind, emit, get_ocr, set_ocr, ret, push, modules_kept. simpl.
  destruct (LOCAL_OCR_loaded w) eqn:Hl; simpl; rewrite ?Hl; simpl.
  - by destruct (trocr_decode E p).
  - destruct (trocr_load_ok E); simpl; [by destruct (trocr_decode E p) | done].
Qed.

Lemma llm_modules_kept (E : env) (p : path) (prompt : string) (w : world) :
  modules_kept w (get_transcription_from_llm E p prompt w).2.
Proof.
  destruct (llm_state_after E p prompt w) as (Hafter & _ & Hcons).
  pose proof (llm_run E p prompt w _ _ (surjective_pairing _)) as (_ & Hl & _).
  split; [by rewrite Hl |]. split; [| exact Hcons].
  rewrite Hafter. unfold client_ready. by intros ->.
Qed.

Lemma process_single_image_modules_kept (E : env) (p : path) (prompt : string)
    (out : option path) (w : world) :
  modules_kept w (process_single_image E p prompt out w).2.
Proof.
  rewrite process_single_image_unfold.
  destruct (validate_image_file (fs w) (PyPath p)); cbn [negb];
    [| by apply same_modules_kept].
  cbv zeta.
  assert (modules_kept w (push (EvClassify p) (push (EvItem p) w))) as H2
    by (by apply same_modules_kept).
  assert (forall t w3, modules_kept w w3 ->
    modules_kept w
      (let (saved, w4) :=
         save_transcription E t (PyPath p) (optional_path out) w3 in
       (match saved with Some _ => true | None => false end, w4)).2) as Hsave.
  { intros t w3 H3.
    destruct (save_transcription E t (PyPath p) (optional_path out) w3)
      as [saved w4] eqn:Hs.
    apply save_transcription_run in Hs as (Hmod & _).
    eapply modules_kept_trans; [exact H3 | by apply same_modules_kept]. }
  destruct (selected_backend E p).
  - pose proof (local_ocr_modules_kept E p
                  (push (EvClassify p) (push (EvItem p) w))) as Hl.
    destruct (get_transcription_from_local_ocr E p _) as [t w3].
    pose proof (modules_kept_trans _ _ _ H2 Hl) as H3.
    destruct t as [t|]; [by apply Hsave | done].
  - destruct (OPENAI_API_CONFIGURED E); cbn [negb]; [| done].
    pose proof (llm_modules_kept E p prompt
                  (push (EvClassify p) (push (EvItem p) w))) as Hl.
    destruct (get_transcription_from_llm E p prompt _) as [t w3].
    pose proof (modules_kept_trans _ _ _ H2 Hl) as H3.
    destruct t as [t|]; [by apply Hsave | done].
Qed.

(** X18: processing never unloads anything. Through one item and through a
    whole batch, a TrOCR model that is loaded stays loaded, a client that is
    configured stays configured, and a configured flag never stands without
    a client if it did not before. *)
Theorem X18_modules_stay_loaded (E : env) (prompt : string) (w : world) :
  (forall p out, modules_kept w (process_single_image E p prompt out w).2)
  /\ (forall d out, modules_kept w (process_directory E d prompt out w).2).
Proof.
  split.
  - intros p out. apply process_single_image_modules_kept.
  - intros d out.
    apply (process_directory_preserves E prompt (batch_output_dir d out)
             modules_kept);
      [ apply modules_kept_refl
      | apply modules_kept_trans
      | intros p w1; apply process_single_image_modules_kept
      | intros a b c w1; by apply same_modules_kept
      | reflexivity ].
Qed.

End Modules.

(** ** The command line *)

Section Main.

Lemma main_unfold (E : env) (a : args) (w : world) :
  main E a w =
  let (dir_ok, w1) := make_output_dir E a w in
  if negb dir_ok then (1, w1)
  else
    let (pr, w2) := get_prompt_content E (prompt_file a) w1 in
    match pr with
    | None => (1, w2)
    | Some prompt =>
        match image_file a, image_dir a with
        | Some img, _ =>
            if negb (is_file (fs w2) img) then (1, w2)
            else
              let (ok, w3) := process_single_image E img prompt (output_dir a) w2 in
              (if ok then 0 else 1, w3)
        | None, Some d =>
            if negb (is_dir (fs w2) d) then (1, w2)
            else
              let (ok, w3) := process_directory E d prompt (output_dir a) w2 in
              (if ok then 0 else 1, w3)
        | None, None => (1, w2)
        end
    end.
Proof.
  unfold main, make_output_dir, bind, ret, get_fs.
  destruct (match output_dir a with
            | Some d => mkdir_parents E d
            | None => fun w0 => (true, w0)
            end w) as [[] w1]; cbn [negb]; [| done].
  destruct (get_prompt_content E (prompt_file a) w1) as [[prompt|] w2]; [| done].
  destruct (image_file a) as [img|], (image_dir a) as [d|]; try done.
  - destruct (is_file (fs w2) img); cbn [negb]; [| done].
    by destruct (process_single_image E img prompt (output_dir a) w2) as [[] w3].
  - destruct (is_file (fs w2) img); cbn [negb]; [| done].
    by destruct (process_single_image E img prompt (output_dir a) w2) as [[] w3].
  - destruct (is_dir (fs w2) d); cbn [negb]; [| done].
    by destruct (process_directory E d prompt (output_dir a) w2) as [[] w3].
Qed.

Lemma make_output_dir_run (E : env) (a : args) (w : world) :
  files_kept (fun _ => True) (fs w) (fs (make_output_dir E a w).2)
  /\ kind_stable (fs w) (fs (make_output_dir E a w).2)
  /\ items_started (trace (make_output_dir E a w).2) = items_started (trace w)
  /\ ((make_output_dir E a w).1 = true ->
      forall d, output_dir a = Some d -> is_dir (fs (make_output_dir E a w).2) d = true)
  /\ ((make_output_dir E a w).1 = false ->
      exists d, output_dir a = Some d
                /\ trace (make_output_dir E a w).2 = EvMkdir d :: trace w
                /\ (mkdir_rec E (anchor d) (rev (tail d)) (fs w)).1 = false).
Proof.
  unfold make_output_dir. destruct (output_dir a) as [d|].
  - destruct (mkdir_parents E d w) as [ok w1] eqn:Hm.
    apply mkdir_parents_run in Hm as (Hrec & Htr & _). cbn [fst snd].
    split; [intros q c _; by apply (mkdir_rec_files _ _ _ _ _ _ Hrec) |].
    split; [by eapply mkdir_rec_kind_stable |].
    split; [rewrite Htr; apply items_started_added;
            apply added_cons; [done | apply added_refl] |].
    split.
    + intros -> d' [= <-]. apply mkdir_rec_is_dir in Hrec.
      rewrite rev_involutive in Hrec. apply is_dir_stat. by destruct d.
    + intros ->. exists d. by rewrite Hrec.
  - unfold ret. cbn [fst snd]. split; [apply files_kept_refl |].
    split; [apply kind_stable_refl |]. by repeat split.
Qed.

Lemma get_prompt_content_effect (E : env) (arg : option path) (w : world) :
  fs (get_prompt_content E arg w).2 = fs w
  /\ items_started (trace (get_prompt_content E arg w).2) = items_started (trace w).
Proof.
  unfold get_prompt_content, load_prompt_file, read_text, bind, ret, emit, get_fs.
  fold (prompt_to_load E arg).
  destruct (is_file (fs w) (prompt_to_load E arg)); cbn [negb]; [| done].
  cbn [fs push].
  destruct (stat (fs w) (prompt_to_load E arg)) as [[content|]|]; cbn [fst snd];
    try destruct (os_read_ok E (prompt_to_load E arg)); cbn [fst snd];
    try destruct (truthy (strip (universal_newlines content)));
    cbn [fst snd fs push];
    (split; [done |]);
    apply items_started_added; apply added_cons; done || apply added_refl.
Qed.

Lemma files_kept_is_file (f f' : filesystem) (q : path) :
  files_kept (fun _ => True) f f' -> is_file f' q = is_file f q.
Proof.
  intros Hk. unfold is_file, stat. destruct (tail q); [done |].
  destruct (f !! q) as [[c|]|] eqn:Hq.
  - by rewrite (proj2 (Hk q c I) Hq).
  - destruct (f' !! q) as [[c'|]|] eqn:Hq'; try done.
    apply (Hk q c' I) in Hq'. congruence.
  - destruct (f' !! q) as [[c'|]|] eqn:Hq'; try done.
    apply (Hk q c' I) in Hq'. congruence.
Qed.

Lemma kind_stable_is_dir (f f' : filesystem) (q : path) :
  kind_stable f f' -> is_dir f q = true -> is_dir f' q = true.
Proof.
  intros Hks. unfold is_dir, stat. destruct (tail q); [done |].
  destruct (f !! q) as [[c|]|] eqn:Hq; try done. intros _.
  destruct (Hks q Dir Hq) as (n' & -> & Hk). by destruct n'.
Qed.

(** X19: once the command line has been parsed into its arguments, a
    failed set-up ends [main] with status 1 before any item is entered.
    When the output directory cannot be made, [main] exits with 1 right
    after the [mkdir] call, the prompt file unread; when the prompt cannot
    be loaded, and when the image file named on the command line is no
    regular file, it exits with 1 and [process_single_image] has not been
    entered. *)
Theorem X19_main_setup_failures (E : env) (a : args) (w : world) :
  let step := make_output_dir E a w in
  (step.1 = false ->
      main E a w = (1, step.2)
      /\ exists d, output_dir a = Some d /\ trace step.2 = EvMkdir d :: trace w)
  /\ (step.1 = true ->
      (get_prompt_content E (prompt_file a) step.2).1 = None ->
      (main E a w).1 = 1
      /\ items_started (trace (main E a w).2) = items_started (trace w)
      /\ files_kept (fun _ => True) (fs w) (fs (main E a w).2))
  /\ (forall img,
        image_file a = Some img -> is_file (fs w) img = false ->
        (main E a w).1 = 1
        /\ items_started (trace (main E a w).2) = items_started (trace w)).
Proof.
  cbv zeta.
  destruct (make_output_dir_run E a w) as (Hkept & Hks & Hst & Hdir & Hfail).
  rewrite main_unfold.
  destruct (make_output_dir E a w) as [ok w1]. cbn [fst snd] in *.
  destruct ok; cbn [negb].
  2:{ split.
      - intros _. split; [done |].
        destruct (Hfail eq_refl) as (d & Hd & Htr & _). eauto.
      - split; [done |]. intros img _ _. done. }
  destruct (get_prompt_content_effect E (prompt_file a) w1) as [Hfs2 Hst2].
  destruct (get_prompt_content E (prompt_file a) w1) as [pr w2].
  cbn [fst snd] in *.
  destruct pr as [prompt|].
  2:{ split; [done |]. split.
      - intros _ _. split; [done |]. cbn [snd].
        split; [congruence |]. by rewrite Hfs2.
      - intros img _ _. split; [done | cbn [snd]; congruence]. }
  split; [done | split; [done |]].
  intros img Himg Hnot. rewrite Himg.
  assert (is_file (fs w2) img = false) as ->.
  { rewrite Hfs2, (files_kept_is_file _ _ img Hkept). exact Hnot. }
  cbn [negb]. destruct (image_dir a); (split; [done | cbn [snd]; congruence]).
Qed.

(** X20: when [main], run on the arguments the command line was parsed
    into, exits with 0, the work is there. The prompt was loaded; the
    output directory given is a directory; in the single-file mode the
    image was a regular file with a supported extension and its output
    path holds the text the backend gave for it under that prompt; in the
    directory mode the output path of every image that was in the
    directory holds the text the backend gave for an image of the
    directory with the same stem. *)
Theorem X20_main_success_outputs (E : env) (a : args) (w : world) :
  (main E a w).1 = 0 ->
  exists prompt,
    (get_prompt_content E (prompt_file a) (make_output_dir E a w).2).1 = Some prompt
    /\ (forall d, output_dir a = Some d -> is_dir (fs (main E a w).2) d = true)
    /\ (forall img,
          image_file a = Some img ->
          is_file (fs w) img = true
          /\ str_in (lower (suffix img)) SUPPORTED_IMAGE_EXTENSIONS = true
          /\ exists text,
               backend_text E img prompt = Some text
               /\ fs (main E a w).2 !! output_path img (output_dir a)
                  = Some (File text))
    /\ (image_file a = None ->
        forall d i,
          image_dir a = Some d ->
          is_file (fs w) i = true -> tail i <> [] -> parent i = d ->
          str_in (lower (suffix i)) SUPPORTED_IMAGE_EXTENSIONS = true ->
          exists j text,
            (is_file (fs w) j = true /\ tail j <> [] /\ parent j = d
             /\ str_in (lower (suffix j)) SUPPORTED_IMAGE_EXTENSIONS = true)
            /\ stem j = stem i
            /\ backend_text E j prompt = Some text
            /\ fs (main E a w).2
                 !! output_path i (Some (batch_output_dir d (output_dir a)))
               = Some (File text)).
Proof.
  destruct (make_output_dir_run E a w) as (Hkept & Hks & _ & Hdir & _).
  rewrite main_unfold.
  destruct (make_output_dir E a w) as [ok w1]. cbn [fst snd] in *.
  destruct ok; cbn [negb]; [| done].
  destruct (get_prompt_content_effect E (prompt_file a) w1) as [Hfs2 _].
  destruct (get_prompt_content E (prompt_file a) w1) as [pr w2].
  cbn [fst snd] in *. destruct pr as [prompt|]; [| done].
  assert (forall q, is_file (fs w2) q = is_file (fs w) q) as Hfile
    by (intros q; rewrite Hfs2; by apply files_kept_is_file).
  assert (forall d, output_dir a = Some d -> is_dir (fs w2) d = true) as Hdir2
    by (intros d Hd; rewrite Hfs2; by apply Hdir).
  destruct (image_file a) as [img|] eqn:Himg.
  - assert (forall r : Z * world,
              r = (if negb (is_file (fs w2) img) then (1, w2)
                   else let (ok, w3) :=
                          process_single_image E img prompt (output_dir a) w2 in
                        (if ok then 0 else 1, w3)) ->
              r.1 = 0 ->
              (forall d, output_dir a = Some d -> is_dir (fs r.2) d = true)
              /\ is_file (fs w) img = true
              /\ str_in (lower (suffix img)) SUPPORTED_IMAGE_EXTENSIONS = true
              /\ exists text,
                   backend_text E img prompt = Some text
                   /\ fs r.2 !! output_path img (output_dir a) = Some (File text))
      as Hgoal.
    { intros r -> H0.
      destruct (is_file (fs w2) img) eqn:Hf; cbn [negb] in *; [| done].
      pose proof (process_single_image_true_text E img prompt (output_dir a) w2)
        as Htrue.
      pose proof (process_single_image_kind_stable E img prompt (output_dir a) w2)
        as Hks3.
      destruct (process_single_image E img prompt (output_dir a) w2) as [ok w3].
      cbn [fst snd] in *. destruct ok; [| done].
      destruct (Htrue eq_refl) as ([_ Hext]%validate_image_file_true & text & Hout).
      split_and!; try done.
      - intros d Hd. apply (kind_stable_is_dir (fs w2)); [done | by apply Hdir2].
      - by rewrite <- Hfile.
      - by exists text. }
    intros Hexit. exists prompt. split; [done |].
    assert (forall r : Z * world,
              r = (if negb (is_file (fs w2) img) then (1, w2)
                   else let (ok, w3) :=
                          process_single_image E img prompt (output_dir a) w2 in
                        (if ok then 0 else 1, w3)) -> r.1 = 0 ->
              (forall d, output_dir a = Some d -> is_dir (fs r.2) d = true)
              /\ (forall img0, Some img = Some img0 ->
                    is_file (fs w) img0 = true
                    /\ str_in (lower (suffix img0)) SUPPORTED_IMAGE_EXTENSIONS = true
                    /\ exists text,
                         backend_text E img0 prompt = Some text
                         /\ fs r.2 !! output_path img0 (output_dir a)
                            = Some (File text))
              /\ (Some img = None ->
                  forall d i,
                    image_dir a = Some d ->
                    is_file (fs w) i = true -> tail i <> [] -> parent i = d ->
                    str_in (lower (suffix i)) SUPPORTED_IMAGE_EXTENSIONS = true ->
                    exists j text,
                      (is_file (fs w) j = true /\ tail j <> [] /\ parent j = d
                       /\ str_in (lower (suffix j)) SUPPORTED_IMAGE_EXTENSIONS = true)
                      /\ stem j = stem i
                      /\ backend_text E j prompt = Some text
                      /\ fs r.2
                           !! output_path i
                                (Some (batch_output_dir d (output_dir a)))
                         = Some (File text))) as Hshape.
    { intros r Hr H0. destruct (Hgoal r Hr H0) as (H1 & H2 & H3 & H4).
      split; [exact H1 |]. split; [| done].
      by intros img0 [= <-]. }
    destruct (image_dir a); by apply Hshape.
  - destruct (image_dir a) as [d|] eqn:Hd; [| done].
    destruct (is_dir (fs w2) d) eqn:Hisdir; cbn [negb]; [| done].
    pose proof (process_directory_true_texts E d prompt (output_dir a) w2 Hisdir)
      as Hout.
    pose proof (process_directory_preserves E prompt
                  (batch_output_dir d (output_dir a))
                  (fun w1 w2 => kind_stable (fs w1) (fs w2))
                  (fun w1 => kind_stable_refl (fs w1))
                  (fun w1 w2 w3 => kind_stable_trans (fs w1) (fs w2) (fs w3))
                  (fun p w1 => process_single_image_kind_stable E p prompt _ w1)
                  (fun a b c w1 => kind_stable_refl (fs w1))
                  d (output_dir a) w2 eq_refl) as Hks3.
    destruct (process_directory E d prompt (output_dir a) w2) as [ok w3].
    cbn [fst snd] in *. destruct ok; [| done]. intros _.
    exists prompt. split; [done |]. split; [| split; [done |]].
    + intros d' Hd'. apply (kind_stable_is_dir (fs w2)); [done | by apply Hdir2].
    + intros _ d0 i [= <-] Hi Ht Hp Hext.
      assert (In i (considered (fs w2) d)) as Hin
        by (apply considered_image; by rewrite Hfile).
      destruct (Hout eq_refl i Hin) as (j & text & Hj & Hstem & Htext & Hfile').
      apply considered_image in Hj as (Hjf & Hjt & Hjp & Hje).
      exists j, text. rewrite Hfile in Hjf. by split_and!.
Qed.

Lemma mkdir_rec_fresh (E : env) (d : path) (f : filesystem) :
  f !! d = None -> tail d <> [] -> is_dir f (parent d) = true ->
  os_mkdir_ok E d = true ->
  mkdir_rec E (anchor d) (rev (tail d)) f = (true, <[d := Dir]> f).
Proof.
  destruct d as [a t]. cbn [anchor tail].
  destruct t as [|x t _] using rev_ind; [done |].
  intros Hfree _ Hpar Hos.
  rewrite parent_snoc in Hpar. apply is_dir_stat in Hpar.
  rewrite rev_app_distr. cbn [rev app mkdir_rec].
  rewrite rev_involutive. by rewrite Hfree, Hpar, Hos.
Qed.

Lemma parent_neq (q : path) : tail q <> [] -> parent q <> q.
Proof.
  destruct q as [a t]. cbn [tail].
  destruct t as [|x t _] using rev_ind; [done |]. intros _.
  rewrite parent_snoc. intros [= H].
  apply (f_equal length) in H. rewrite length_app in H. simpl in H. lia.
Qed.

(** X21: a directory that does not exist, named both as the input and as
    the output directory, is made by [main] before the input is looked at:
    with a prompt that loads, [main] then exits with 0 and no item has been
    entered, where the same missing directory given as input alone would be
    refused. *)
Theorem X21_main_makes_missing_input_dir (E : env) (a : args) (w : world)
    (d : path) (content : string) :
  image_file a = None -> image_dir a = Some d -> output_dir a = Some d ->
  well_formed (fs w) ->
  fs w !! d = None -> tail d <> [] -> is_dir (fs w) (parent d) = true ->
  os_mkdir_ok E d = true ->
  stat (fs w) (prompt_to_load E (prompt_file a)) = Some (File content) ->
  os_read_ok E (prompt_to_load E (prompt_file a)) = true ->
  all_space content = false ->
  (main E a w).1 = 0
  /\ items_started (trace (main E a w).2) = items_started (trace w)
  /\ is_dir (fs (main E a w).2) d = true
  /\ (main E (Args None (Some d) (prompt_file a) None) w).1 = 1.
Proof.
  intros Himg Hdir Hout Hwf Hfree Htail Hpar Hos Hst Hread Hblank.
  assert (truthy (strip (universal_newlines content)) = true) as Hne.
  { apply truthy_true_iff.
    rewrite strip_empty_iff, all_space_universal_newlines. by rewrite Hblank. }
  assert ((main E (Args None (Some d) (prompt_file a) None) w).1 = 1) as Hrefused.
  { rewrite main_unfold. unfold make_output_dir.
    cbn [output_dir ret negb prompt_file image_file image_dir].
    rewrite (get_prompt_content_run _ _ _ _ Hst Hread), Hne.
    cbn [fs push]. unfold is_dir, stat.
    destruct (tail d); [done |]. by rewrite Hfree. }
  destruct (mkdir_parents E d w) as [ok w1] eqn:Hmk.
  destruct (mkdir_parents_run _ _ _ _ _ Hmk) as (Hrec & Htr1 & _).
  rewrite (mkdir_rec_fresh E d (fs w) Hfree Htail Hpar Hos) in Hrec.
  injection Hrec as <- Hfs1.
  assert (stat (fs w1) (prompt_to_load E (prompt_file a)) = Some (File content))
    as Hst1.
  { rewrite <- Hfs1. unfold stat in *.
    destruct (tail (prompt_to_load E (prompt_file a))); [done |].
    rewrite lookup_insert_ne; [done | congruence]. }
  pose proof (get_prompt_content_run _ _ _ _ Hst1 Hread) as Hgp.
  rewrite Hne in Hgp.
  set (w2 := push (EvOpenRead (prompt_to_load E (prompt_file a))) w1) in *.
  assert (fs w2 = <[d := Dir]> (fs w)) as Hfs2 by done.
  assert (trace w2 = EvOpenRead (prompt_to_load E (prompt_file a))
                     :: EvMkdir d :: trace w) as Htr2
    by (cbn [w2 push trace]; by rewrite Htr1).
  assert (is_dir (fs w2) d = true) as Hd2.
  { rewrite Hfs2. unfold is_dir, stat.
    destruct (tail d); [done |]. by rewrite lookup_insert_eq. }
  assert (considered (fs w2) d = []) as Hnone.
  { destruct (considered (fs w2) d) as [|i rest] eqn:Hc; [done |].
    assert (In i (considered (fs w2) d)) as Hin by (rewrite Hc; by left).
    apply considered_spec in Hin as ([n Hn] & Hti & Hpi & _).
    rewrite Hfs2 in Hn.
    assert (d <> i) as Hdi by (intros <-; by apply (parent_neq d)).
    rewrite lookup_insert_ne in Hn by done.
    pose proof (Hwf i n Hn) as Hparent. rewrite Hpi in Hparent.
    unfold stat in Hparent. destruct (tail d); [done |]. congruence. }
  pose proof (process_directory_run E d (strip (universal_newlines content))
                (Some d) w2 Hd2) as [Hres Hworld].
  cbv zeta in Hres, Hworld. rewrite Hnone in Hres, Hworld.
  cbn [item_results] in Hres, Hworld. unfold ret in Hres, Hworld.
  cbn [fst snd] in Hres, Hworld.
  assert (main E a w
          = (0, (process_directory E d (strip (universal_newlines content))
                   (Some d) w2).2)) as ->.
  { rewrite main_unfold. unfold make_output_dir.
    rewrite Hout, Hmk. cbn [negb]. rewrite Hgp, Himg, Hdir, Hd2. cbn [negb].
    destruct (process_directory E d (strip (universal_newlines content))
                (Some d) w2) as [b w3].
    cbn [fst snd] in *. by rewrite Hres. }
  cbn [fst snd].
  assert (fs (process_directory E d (strip (universal_newlines content))
                (Some d) w2).2 = fs w2
          /\ items_started
               (trace (process_directory E d (strip (universal_newlines content))
                         (Some d) w2).2)
             = items_started (trace w2)) as [-> ->].
  { destruct Hworld as [-> | (x & y & z & ->)]; [done |]. split; [done |].
    apply items_started_added. apply added_cons; [done | apply added_refl]. }
  repeat apply conj; [done | | done | done].
  apply items_started_added. rewrite Htr2.
  do 2 (apply added_cons; [done |]). apply added_refl.
Qed.

End Main.

(** ** The data URI sent to the cloud model *)

Section DataUri.

Import image_data_uri.

Lemma lower_char_idem (c : ascii) : lower_char (lower_char c) = lower_char c.
Proof.
  destruct c as [[|] [|] [|] [|] [|] [|] [|] [|]]; vm_compute; reflexivity.
Qed.

Lemma lower_idem (s : string) : lower (lower s) = lower s.
Proof.
  induction s as [|c s IH]; [done |].
  cbn [lower]. by rewrite lower_char_idem, IH.
Qed.

Lemma str_in_In (x : string) (l : list string) :
  str_in x l = true <-> In x l.
Proof.
  unfold str_in. rewrite existsb_exists. split.
  - intros (y & Hy & Heq). apply String.eqb_eq in Heq. by subst.
  - intros Hin. exists x. split; [done | apply String.eqb_refl].
Qed.

Lemma image_format_guessed (p : path) :
  image_format None p
  = (if str_in (remove_dots (lower (suffix p))) ["png"; "gif"; "bmp"; "webp"]
     then remove_dots (lower (suffix p)) else "jpeg").
Proof.
  unfold image_format, known_extensions, str_in.
  generalize (remove_dots (lower (suffix p))). intros ext. cbn [existsb].
  destruct (String.eqb_spec ext "jpeg") as [-> |]; [done |].
  destruct (String.eqb_spec ext "jpg") as [-> |]; [done |].
  destruct (String.eqb_spec ext "png") as [-> |]; [done |].
  destruct (String.eqb_spec ext "gif") as [-> |]; [done |].
  destruct (String.eqb_spec ext "bmp") as [-> |]; [done |].
  by destruct (String.eqb_spec ext "webp") as [-> |].
Qed.

(** X22: the format named in the data URI of [image_to_base64] is in lower
    case and is never "jpg". When PIL reports no format it is one of jpeg,
    png, gif, bmp and webp, and "jpeg" for every file with a supported
    extension; when PIL reports one, it is that format in lower case, with
    "jpeg" for "jpg". The data URI begins with "data:image/" and so is never
    the empty string. *)
Theorem X22_image_format (pil_format : option string) (p : path) :
  let fmt := image_format pil_format p in
  fmt <> "jpg"
  /\ lower fmt = fmt
  /\ ((pil_format = None \/ pil_format = Some EmptyString) ->
      In fmt ["jpeg"; "png"; "gif"; "bmp"; "webp"]
      /\ (str_in (lower (suffix p)) SUPPORTED_IMAGE_EXTENSIONS = true ->
          fmt = "jpeg"))
  /\ (forall f, pil_format = Some f -> f <> EmptyString ->
      (lower f = "jpg" -> fmt = "jpeg") /\ (lower f <> "jpg" -> fmt = lower f))
  /\ (forall encoded, exists rest,
        data_uri fmt encoded = "data:image/" +:+ rest
        /\ data_uri fmt encoded <> EmptyString).
Proof.
  intros fmt.
  assert (forall q, In (image_format None q) ["jpeg"; "png"; "gif"; "bmp"; "webp"])
    as Hguess.
  { intros q. rewrite image_format_guessed.
    destruct (str_in _ ["png"; "gif"; "bmp"; "webp"]) eqn:Hs; [| by left].
    apply str_in_In in Hs. simpl in *. tauto. }
  assert (image_format (Some EmptyString) p = image_format None p) as Hempty by done.
  assert (forall f, f <> EmptyString ->
          image_format (Some f) p
          = if String.eqb (lower f) "jpg" then "jpeg" else lower f) as Hdet.
  { intros f Hf. unfold image_format. by destruct f. }
  assert (forall x, In x ["jpeg"; "png"; "gif"; "bmp"; "webp"] ->
          x <> "jpg" /\ lower x = x) as Hlist.
  { intros x Hx. cbn [In] in Hx.
    destruct Hx as [<- | [<- | [<- | [<- | [<- | []]]]]]; done. }
  repeat apply conj.
  - destruct pil_format as [[|c f]|]; subst fmt.
    + rewrite Hempty. apply Hlist, Hguess.
    + rewrite Hdet by done.
      destruct (String.eqb_spec (lower (String c f)) "jpg"); done.
    + apply Hlist, Hguess.
  - destruct pil_format as [[|c f]|]; subst fmt.
    + rewrite Hempty. apply Hlist, Hguess.
    + rewrite Hdet by done.
      destruct (String.eqb_spec (lower (String c f)) "jpg"); [done |].
      apply lower_idem.
    + apply Hlist, Hguess.
  - intros Hnone.
    assert (fmt = image_format None p) as ->
      by (subst fmt; destruct Hnone as [-> | ->]; done).
    split; [apply Hguess |].
    intros Hsup. apply str_in_In in Hsup. rewrite image_format_guessed.
    cbn [In SUPPORTED_IMAGE_EXTENSIONS] in Hsup.
    destruct Hsup as [<- | [<- | []]]; reflexivity.
  - intros f -> Hf. subst fmt. rewrite (Hdet f Hf).
    destruct (String.eqb_spec (lower f) "jpg"); split; congruence.
  - intros encoded. exists (fmt +:+ ";base64," +:+ encoded). done.
Qed.

End DataUri.

(** ** The second run, worked through *)

Lemma well_formed_check (f : filesystem) :
  forallb (fun e => match stat f (parent e.1) with Some Dir => true | _ => false end)
          (map_to_list f) = true ->
  well_formed f.
Proof.
  intros Hall q n Hq. rewrite forallb_forall in Hall.
  apply elem_of_map_to_list, list_elem_of_In in Hq.
  specialize (Hall _ Hq). cbn [fst] in Hall.
  by destruct (stat f (parent q)) as [[]|].
Qed.

(** The album: photo.jpg and photo.jpeg both transcribe, the batch returns
    true, and the one file photo.txt holds the text of one of them. *)
Example stems_collide :
  let E := Scenario.collaborators true in
  let run := process_directory E Office.album "prompt" None Office.start in
  run.1 = true
  /\ output_path Office.album_jpg (Some Office.album)
     = output_path Office.album_jpeg (Some Office.album)
  /\ backend_text E Office.album_jpg "prompt" = Some "Dear Sir"
  /\ backend_text E Office.album_jpeg "prompt" = Some "Invoice #221"
  /\ fs run.2 !! joinpath Office.album "photo.txt" = Some (File "Invoice #221").
Proof. cbv zeta. repeat apply conj; vm_compute; reflexivity. Qed.

Lemma X12_classification_table_witness :
  let E := Scenario.collaborators true in
  dit_pipeline E Scenario.form = PipelineList [Pred "form" (8 # 10)]
  /\ (classify_text_type_local E Scenario.form).1 = Some "typewritten".
Proof.
  intros E.
  assert (dit_pipeline E Scenario.form = PipelineList [Pred "form" (8 # 10)]) as Hp
    by (vm_compute; reflexivity).
  split; [exact Hp |].
  destruct (X12_classification_table E Scenario.form "form" (8 # 10) [] eq_refl)
    as (_ & Htable).
  destruct (Htable Hp) as (_ & Hhigh).
  assert (MIN_CONFIDENCE_SCORE <= 8 # 10)%Q as Hscore
    by (unfold Qle; simpl; lia).
  destruct (Hhigh Hscore) as (_ & Htyped & _).
  exact (Htyped eq_refl).
Defined.


Lemma X17_successful_batch_outputs_witness :
  let E := Scenario.collaborators true in
  let w := Office.start in
  (process_directory E Office.letters "prompt" None w).1 = true
  /\ exists j text,
       stem j = stem Office.photo
       /\ backend_text E j "prompt" = Some text
       /\ fs (process_directory E Office.letters "prompt" None w).2
            !! output_path Office.photo (Some Office.letters) = Some (File text).
Proof.
  intros E w.
  assert ((process_directory E Office.letters "prompt" None w).1 = true) as Hres
    by (vm_compute; reflexivity).
  split; [exact Hres |].
  assert (is_dir (fs w) Office.letters = true) as Hdir by (vm_compute; reflexivity).
  assert (is_file (fs w) Office.photo = true) as Hfile by (vm_compute; reflexivity).
  assert (tail Office.photo <> []) as Htail by discriminate.
  destruct (X17_successful_batch_outputs E Office.letters "prompt" None w Hdir Hres
              Office.photo Hfile Htail eq_refl eq_refl)
    as (j & text & _ & Hstem & _ & Htext & Hout & _).
  exists j, text. split; [exact Hstem |]. split; [exact Htext | exact Hout].
Defined.

Lemma X20_main_success_outputs_witness :
  let E := Scenario.collaborators true in
  let w := Office.start in
  let a := Args (Some Office.photo) None (Some Office.prompt) None in
  (main E a w).1 = 0
  /\ exists prompt text,
       backend_text E Office.photo prompt = Some text
       /\ fs (main E a w).2 !! output_path Office.photo None = Some (File text).
Proof.
  intros E w a.
  assert ((main E a w).1 = 0) as Hexit by (vm_compute; reflexivity).
  split; [exact Hexit |].
  destruct (X20_main_success_outputs E a w Hexit) as (prompt & _ & _ & Hsingle & _).
  destruct (Hsingle Office.photo eq_refl) as (_ & _ & text & Htext & Hout).
  exists prompt, text. split; [exact Htext | exact Hout].
Defined.

Lemma X21_main_makes_missing_input_dir_witness :
  let E := Scenario.collaborators true in
  let w := Office.start in
  let a := Args None (Some Office.inbox) (Some Office.prompt) (Some Office.inbox) in
  fs w !! Office.inbox = None
  /\ (main E a w).1 = 0
  /\ is_dir (fs (main E a w).2) Office.inbox = true
  /\ (main E (Args None (Some Office.inbox) (Some Office.prompt) None) w).1 = 1.
Proof.
  intros E w a.
  assert (fs w !! Office.inbox = None) as Hfree by (vm_compute; reflexivity).
  assert (well_formed (fs w)) as Hwf
    by (apply well_formed_check; vm_compute; reflexivity).
  assert (tail Office.inbox <> []) as Htail by discriminate.
  assert (is_dir (fs w) (parent Office.inbox) = true) as Hpar
    by (vm_compute; reflexivity).
  assert (stat (fs w) (prompt_to_load E (prompt_file a))
          = Some (File " Transcribe the letter. ")) as Hst
    by (vm_compute; reflexivity).
  assert (all_space " Transcribe the letter. " = false) as Hblank
    by (vm_compute; reflexivity).
  destruct (X21_main_makes_missing_input_dir E a w Office.inbox
              " Transcribe the letter. " eq_refl eq_refl eq_refl Hwf Hfree Htail
              Hpar eq_refl Hst eq_refl Hblank)
    as (Hexit & _ & Hmade & Hrefused).
  split; [exact Hfree |]. split; [exact Hexit |]. split; [exact Hmade |].
  exact Hrefused.
Defined.
